(** * radiateTPS front end: the fetch / validate / shape / render script

    A shallow embedding of [frontend/assets/js/script.js].  The script is a
    set of asynchronous entry points that talk to the server with [fetch],
    read JSON payloads and write into the page (lists, a dropdown, a form
    and three chart panels).

    - JavaScript values are the inductive [jsval]; objects are finite maps
      from property names to values.
    - The page is a record: the elements reachable by id, the chart panels
      handed to the charting library, the observable events (console,
      alerts, requests, JSON parsing) and the detached continuations.
    - An entry point is a computation in the monad [js]: it threads the page
      and either returns or throws, as an [async] function resolves or
      rejects.
    - The server and [JSON.parse] are the environment: Section variables. *)

From Stdlib Require Import String Ascii DecimalString.
From stdpp Require Import gmap strings list fin_maps.

Set Warnings "-register-all".
Local Open Scope string_scope.
Local Open Scope list_scope.

(** ** Strings

    Strings are sequences of code units below 256, so the white space of
    [String.prototype.trim] and of the regular expression class [\s] is
    TAB, LF, VT, FF, CR, SPACE and NBSP. *)

Module Str.

Definition is_ws (c : ascii) : bool :=
  let n := nat_of_ascii c in
  ((9 <=? n)%nat && (n <=? 13)%nat) || (n =? 32)%nat || (n =? 160)%nat.

Fixpoint trimStart (s : string) : string :=
  match s with
  | EmptyString => EmptyString
  | String c s' => if is_ws c then trimStart s' else s
  end.

Fixpoint trimEnd (s : string) : string :=
  match s with
  | EmptyString => EmptyString
  | String c s' =>
      match trimEnd s' with
      | EmptyString => if is_ws c then EmptyString else String c EmptyString
      | t => String c t
      end
  end.

(** [s.trim()] *)
Definition trim (s : string) : string := trimEnd (trimStart s).

(** [s.replace(/\s+/g, ' ')]: every maximal run of white space becomes one
    space; [in_run] tells that the previous character belonged to a run. *)
Fixpoint replace_ws_runs (in_run : bool) (s : string) : string :=
  match s with
  | EmptyString => EmptyString
  | String c s' =>
      if is_ws c
      then (if in_run then replace_ws_runs true s'
            else String " " (replace_ws_runs true s'))
      else String c (replace_ws_runs false s')
  end.

Definition collapse_ws (s : string) : string := replace_ws_runs false s.

Fixpoint startsWith (p s : string) : bool :=
  match p, s with
  | EmptyString, _ => true
  | String a p', String b s' => if Ascii.eqb a b then startsWith p' s' else false
  | String _ _, EmptyString => false
  end.

(** [s.includes(p)] *)
Fixpoint includes (p s : string) : bool :=
  startsWith p s ||
  match s with
  | EmptyString => false
  | String _ s' => includes p s'
  end.

(** a string is falsy exactly when it is empty *)
Definition is_empty (s : string) : bool :=
  match s with EmptyString => true | _ => false end.

(** decimal rendering of a status code *)
Definition of_nat (n : nat) : string := NilZero.string_of_uint (Nat.to_uint n).

(** what the result of the name normalisation looks like: the only white
    space left is the plain space, never two in a row; [prev] tells that
    the previous character was a space (or the start of the string). *)
Fixpoint single_spaced (prev : bool) (s : string) : bool :=
  match s with
  | EmptyString => true
  | String c s' =>
      if is_ws c
      then Ascii.eqb c " " && negb prev && single_spaced true s'
      else single_spaced false s'
  end.

(** the first character, if any, is not white space *)
Definition starts_clean (s : string) : bool :=
  match s with
  | EmptyString => true
  | String c _ => negb (is_ws c)
  end.

End Str.

(** ** JavaScript values *)

(** A number is held as the text [String(n)] gives for it: the script only
    tests numbers for truth and prints them.  [-0] prints as ["0"]. *)
Inductive jsval : Type :=
  | JUndef
  | JNull
  | JBool (b : bool)
  | JNum (repr : string)
  | JStr (s : string)
  | JArr (items : list jsval)
  | JObj (props : gmap string jsval).

Inductive exn : Type :=
  | TypeError (msg : string)
  | SyntaxError (msg : string)
  | Error (msg : string).

(** [error.message] *)
Definition message (e : exn) : string :=
  match e with TypeError m | SyntaxError m | Error m => m end.

Inductive outcome (A : Type) : Type :=
  | Return (a : A)
  | Throw (e : exn).
Arguments Return {A} a.
Arguments Throw {A} e.

Definition obj (l : list (string * jsval)) : jsval := JObj (list_to_map l).

(** truthiness, as tested by [if (v)], [!v] and [||] *)
Definition truthy (v : jsval) : bool :=
  match v with
  | JUndef | JNull => false
  | JBool b => b
  | JNum r => negb (String.eqb r "0" || String.eqb r "NaN")
  | JStr s => negb (Str.is_empty s)
  | JArr _ | JObj _ => true
  end.

Definition join_with (sep : string) (l : list string) : string :=
  match l with
  | [] => ""
  | x :: r => fold_left (fun acc y => acc +:+ sep +:+ y) r x
  end.

(** [String(v)], as a template literal does it.  An array prints its items
    separated by commas, [null] and [undefined] items as nothing. *)
Fixpoint toString (v : jsval) : string :=
  match v with
  | JUndef => "undefined"
  | JNull => "null"
  | JBool true => "true"
  | JBool false => "false"
  | JNum r => r
  | JStr s => s
  | JArr l =>
      join_with ","
        (map (fun x => match x with JUndef | JNull => "" | _ => toString x end) l)
  | JObj _ => "[object Object]"
  end.

(** the string a [textContent] assignment stores *)
Definition textContent_of (v : jsval) : string :=
  match v with JUndef | JNull => "" | _ => toString v end.

(** [v.k] for the property names the script reads ([ct_slice], [roi_names],
    [error], [name], ...): none of them is a property of arrays, strings,
    numbers or booleans, nor inherited by objects. *)
Definition get_prop (v : jsval) (k : string) : outcome jsval :=
  match v with
  | JUndef =>
      Throw (TypeError ("Cannot read properties of undefined (reading '" +:+ k +:+ "')"))
  | JNull =>
      Throw (TypeError ("Cannot read properties of null (reading '" +:+ k +:+ "')"))
  | JObj m => Return (default JUndef (m !! k))
  | _ => Return JUndef
  end.

(** [a || b] *)
Definition js_or (a b : jsval) : jsval := if truthy a then a else b.

(** ** The page and the network *)

Inductive req_body : Type :=
  | NoBody
  | FormData (entries : list (string * string))
  | JsonBody (payload : jsval).

Record request : Type := mkRequest {
  method : string;
  url : string;
  content_type_header : option string;
  req_payload : req_body
}.

Definition GET (u : string) : request := mkRequest "GET" u None NoBody.

(** A response that arrived: [body] is [None] when reading the body stream
    fails. *)
Record response : Type := mkResponse {
  status : nat;
  content_type : option string;
  body : option string
}.

(** [response.ok] *)
Definition ok (r : response) : bool := (200 <=? status r)%nat && (status r <=? 299)%nat.

Inductive fetch_outcome : Type :=
  | NetFail
  | Arrived (r : response).

(** What a list, a dropdown or a form field holds. *)
Inductive node : Type :=
  | Markup (html : string)
  | Li (text : string) (onclick_alert : option string)
  | OptionEl (opt_value text : string) (disabled selected hidden : bool).

Record element : Type := mkElement {
  children : list node;
  value : string;
  display : string;
  files : list string
}.

(** a chart as handed to [Plotly.newPlot]: the traces and the layout *)
Definition plot : Type := (list jsval * jsval)%type.

Inductive logitem : Type :=
  | LStr (s : string)
  | LVal (v : jsval)
  | LExn (e : exn).

Inductive event : Type :=
  | ConsoleLog (args : list logitem)
  | ConsoleError (args : list logitem)
  | Alert (msg : string)
  | Fetch (req : request)
  | JsonParse (text : string)
  | UnhandledRejection (e : exn).

(** a continuation left behind by a call that was not awaited *)
Inductive task : Type :=
  | ResumeLoadPatients (p : fetch_outcome).

Record page : Type := mkPage {
  dom : gmap string element;
  charts : gmap string plot;
  events : list event;
  pending : list task
}.

(** ** The monad of the entry points *)

Definition js (A : Type) : Type := page -> outcome A * page.

Definition ret {A} (a : A) : js A := fun s => (Return a, s).

Definition throw {A} (e : exn) : js A := fun s => (Throw e, s).

Definition bind {A B} (m : js A) (k : A -> js B) : js B :=
  fun s =>
    match m s with
    | (Return a, s') => k a s'
    | (Throw e, s') => (Throw e, s')
    end.

(** [try { m } catch (e) { h e }] *)
Definition try_catch {A} (m : js A) (h : exn -> js A) : js A :=
  fun s =>
    match m s with
    | (Return a, s') => (Return a, s')
    | (Throw e, s') => h e s'
    end.

Definition lift {A} (o : outcome A) : js A := fun s => (o, s).

Declare Scope js_scope.
Delimit Scope js_scope with js.
Notation "x <- m ;; k" := (bind m (fun x => k))
  (at level 100, m at next level, right associativity) : js_scope.
Notation "m ;;; k" := (bind m (fun _ => k))
  (at level 100, right associativity) : js_scope.
Local Open Scope js_scope.

Definition emit (e : event) : js unit :=
  fun s => (Return tt, mkPage (dom s) (charts s) (events s ++ [e]) (pending s)).

Definition console_log (args : list logitem) : js unit := emit (ConsoleLog args).
Definition console_error (args : list logitem) : js unit := emit (ConsoleError args).
Definition alert (msg : string) : js unit := emit (Alert msg).

(** the page after more events *)
Definition log (s : page) (es : list event) : page :=
  mkPage (dom s) (charts s) (events s ++ es) (pending s).

(** the requests among some events *)
Definition requests_of (es : list event) : list request :=
  omap (fun e => match e with Fetch r => Some r | _ => None end) es.

Definition defer (t : task) : js unit :=
  fun s => (Return tt, mkPage (dom s) (charts s) (events s) (pending s ++ [t])).

(** *** The document *)

(** [document.getElementById(id)]: a reference to the element, or [null] *)
Definition getElementById (id : string) : js (option string) :=
  fun s => (Return (match dom s !! id with Some _ => Some id | None => None end), s).

Definition null_deref {A} (prop : string) : js A :=
  throw (TypeError ("Cannot read properties of null (reading '" +:+ prop +:+ "')")).

Definition null_assign {A} (prop : string) : js A :=
  throw (TypeError ("Cannot set properties of null (setting '" +:+ prop +:+ "')")).

(** reading a property of the referenced element *)
Definition read_elem {A} (prop : string) (f : element -> A) (r : option string) : js A :=
  fun s =>
    match r with
    | None => null_deref prop s
    | Some id =>
        match dom s !! id with
        | Some el => (Return (f el), s)
        | None => null_deref prop s
        end
    end.

(** updating the referenced element in place *)
Definition update_elem (prop : string) (f : element -> element) (r : option string) : js unit :=
  fun s =>
    match r with
    | None => null_assign prop s
    | Some id =>
        match dom s !! id with
        | Some el =>
            (Return tt, mkPage (<[id := f el]> (dom s)) (charts s) (events s) (pending s))
        | None => null_assign prop s
        end
    end.

Definition get_value : option string -> js string := read_elem "value" value.
Definition get_files : option string -> js (list string) := read_elem "files" files.
Definition get_display : option string -> js string := read_elem "style" display.

(** [el.innerHTML = html]: the former content goes; markup is kept as
    written, the page's HTML parser is not modelled. *)
Definition set_innerHTML (r : option string) (html : string) : js unit :=
  update_elem "innerHTML"
    (fun el => mkElement (if Str.is_empty html then [] else [Markup html])
                 (value el) (display el) (files el)) r.

Definition set_value (r : option string) (v : string) : js unit :=
  update_elem "value" (fun el => mkElement (children el) v (display el) (files el)) r.

Definition set_display (r : option string) (d : string) : js unit :=
  update_elem "style" (fun el => mkElement (children el) (value el) d (files el)) r.

(** [el.appendChild(n)]; an option inserted as selected becomes the value
    of its dropdown. *)
Definition appendChild (r : option string) (n : node) : js unit :=
  update_elem "appendChild"
    (fun el =>
       mkElement (children el ++ [n])
         (match n with
          | OptionEl v _ _ true _ => v
          | _ => value el
          end)
         (display el) (files el)) r.

(** [Plotly.newPlot(panel, data, layout)]: the charting library is outside
    the script.  The three panels are taken to be on the page, and the
    library to draw in the panel it is given whatever the traces hold. *)
Definition newPlot (panel : string) (data : list jsval) (layout : jsval) : js unit :=
  fun s => (Return tt, mkPage (dom s) (<[panel := (data, layout)]> (charts s)) (events s) (pending s)).

(** [arr.forEach(f)] on a value that passed a truth test or was never
    tested: only an array has the method. *)
Fixpoint for_each (l : list jsval) (f : jsval -> js unit) : js unit :=
  match l with
  | [] => ret tt
  | x :: r => f x ;;; for_each r f
  end.

Definition forEach (v : jsval) (f : jsval -> js unit) : js unit :=
  match v with
  | JArr l => for_each l f
  | JUndef =>
      throw (TypeError "Cannot read properties of undefined (reading 'forEach')")
  | JNull => null_deref "forEach"
  | _ => throw (TypeError "forEach is not a function")
  end.

(** ** The script *)

Section Script.

(** The environment: what the server answers to a request, and what
    [JSON.parse] makes of a text ([None]: a [SyntaxError]). *)
Variable net : request -> fetch_outcome.
Variable JSON_parse : string -> option jsval.

(** [fetch(req)] up to the point where the caller waits for the answer *)
Definition issue (req : request) : js fetch_outcome :=
  emit (Fetch req) ;;; ret (net req).

(** waiting for the answer: a request that never completes rejects *)
Definition await_response (p : fetch_outcome) : js response :=
  match p with
  | NetFail => throw (TypeError "Failed to fetch")
  | Arrived r => ret r
  end.

(** [await fetch(req)] *)
Definition fetch (req : request) : js response :=
  p <- issue req ;; await_response p.

(** [await response.text()] *)
Definition response_text (r : response) : js string :=
  match body r with
  | None => throw (TypeError "network error")
  | Some t => ret t
  end.

(** [JSON.parse(text)] *)
Definition JSON_parse_js (text : string) : js jsval :=
  emit (JsonParse text) ;;;
  match JSON_parse text with
  | Some v => ret v
  | None => throw (SyntaxError "Unexpected token in JSON")
  end.

(** [await response.json()] *)
Definition response_json (r : response) : js jsval :=
  t <- response_text r ;; JSON_parse_js t.

(** *** fetchDoseData *)

Record SliceBundle : Type := mkBundle {
  ct : jsval;
  mask : jsval;
  dose : jsval;
  dvh : jsval
}.

(** lines 15-18: the four property reads *)
Definition shapeDoseBundle (data : jsval) : outcome SliceBundle :=
  match get_prop data "ct_slice" with
  | Throw e => Throw e
  | Return c =>
      match get_prop data "mask_slice" with
      | Throw e => Throw e
      | Return m =>
          match get_prop data "dose_slice" with
          | Throw e => Throw e
          | Return d =>
              match get_prop data "dvh" with
              | Throw e => Throw e
              | Return h => Return (mkBundle c m d h)
              end
          end
      end
  end.

Definition layout1 : jsval :=
  obj [("title", JStr "CT with ROI");
       ("xaxis", obj [("title", JStr "X Axis")]);
       ("yaxis", obj [("title", JStr "Y Axis"); ("scaleanchor", JStr "x");
                      ("scaleratio", JNum "1"); ("autorange", JStr "reversed")]);
       ("showlegend", JBool false)].

Definition heatmap (b : SliceBundle) : jsval :=
  obj [("z", ct b); ("type", JStr "heatmap"); ("zmin", JNum "-1000"); ("zmax", JNum "0");
       ("colorscale", JArr [JArr [JNum "0"; JStr "white"]; JArr [JNum "1"; JStr "black"]]);
       ("showscale", JBool false); ("opacity", JNum "1")].

Definition doseMap (b : SliceBundle) : jsval :=
  obj [("z", dose b); ("type", JStr "heatmap"); ("colorscale", JStr "Jet");
       ("opacity", JNum "0.5")].

Definition maskContour (b : SliceBundle) : jsval :=
  obj [("z", mask b); ("type", JStr "contour");
       ("line", obj [("color", JStr "red"); ("width", JNum "2")]);
       ("showscale", JBool false)].

Definition layout2 : jsval :=
  obj [("title", JStr "Dose Volume Histogram");
       ("xaxis", obj [("title", JStr "Dose (Gy)")]);
       ("yaxis", obj [("title", JStr "Volume (%)")])].

Definition dvhPlot (x y : jsval) : jsval :=
  obj [("x", x); ("y", y); ("type", JStr "scatter"); ("mode", JStr "lines+markers");
       ("name", JStr "Target ROI")].

Definition layoutDoseOverlay : jsval :=
  obj [("title", JStr "CT Slice + Dose Distribution + ROI Contour");
       ("xaxis", obj [("title", JStr "X Axis"); ("showgrid", JBool false)]);
       ("yaxis", obj [("title", JStr "Y Axis"); ("showgrid", JBool false);
                      ("scaleanchor", JStr "x"); ("scaleratio", JNum "1");
                      ("autorange", JStr "reversed")]);
       ("showlegend", JBool false)].

Definition ctLayer (b : SliceBundle) : jsval :=
  obj [("z", ct b); ("type", JStr "heatmap"); ("colorscale", JStr "Greys");
       ("showscale", JBool false); ("opacity", JNum "1"); ("hoverinfo", JStr "skip")].

Definition maskLayer (b : SliceBundle) : jsval :=
  obj [("z", mask b); ("type", JStr "heatmap");
       ("colorscale", JArr [JArr [JNum "0"; JStr "rgba(0,0,0,0)"];
                            JArr [JNum "1"; JStr "rgba(255,0,0,0.4)"]]);
       ("showscale", JBool false); ("opacity", JNum "1"); ("hoverinfo", JStr "skip")].

Definition doseLayer (b : SliceBundle) : jsval :=
  obj [("z", dose b); ("type", JStr "heatmap"); ("colorscale", JStr "Jet");
       ("showscale", JBool true); ("opacity", JNum "0.4");
       ("colorbar", obj [("title", JStr "Dose (Gy)")]); ("hoverinfo", JStr "skip")].

(** lines 20-124: the three charts, in the order the script draws them *)
Definition renderDoseViews (b : SliceBundle) : js unit :=
  newPlot "plotly-ct-dose" [heatmap b; maskContour b; doseMap b] layout1 ;;;
  x <- lift (get_prop (dvh b) "dose_values") ;;
  y <- lift (get_prop (dvh b) "volume_percentages") ;;
  newPlot "plotly-dvh" [dvhPlot x y] layout2 ;;;
  newPlot "plotly-ct-overlay" [ctLayer b; doseLayer b; maskLayer b] layoutDoseOverlay.

Definition fetchDoseData : js unit :=
  console_log [LStr "Running fetchDoseData"] ;;;
  try_catch
    (response <- fetch (GET "/plotly/compute_dose") ;;
     (if negb (ok response)
      then throw (Error ("Server error: " +:+ Str.of_nat (status response)))
      else ret tt) ;;;
     data <- response_json response ;;
     console_log [LStr "Received dose data:"; LVal data] ;;;
     b <- lift (shapeDoseBundle data) ;;
     renderDoseViews b ;;;
     console_log [LStr "Finished plotting dose data"])
    (fun error => console_error [LStr "Error fetching dose data:"; LExn error]).

(** *** ROI and dataset lists *)

(** lines 146-156 and 226-237, the same text in both functions: the list
    is emptied, then filled with one item per name or with one error item *)
Definition renderNameList (data : jsval) : js unit :=
  ul <- getElementById "roi-list" ;;
  set_innerHTML ul "" ;;;
  names <- lift (get_prop data "roi_names") ;;
  if truthy names
  then forEach names (fun name => appendChild ul (Li (textContent_of name) None))
  else
    err <- lift (get_prop data "error") ;;
    set_innerHTML ul ("<li>Error: " +:+ toString err +:+ "</li>").

Definition uploadDicomFolder_request (fs : list string) : request :=
  mkRequest "POST" "/roi/upload_dicom" None
    (FormData (map (fun file => ("dicom_folder", file)) fs)).

Definition uploadDicomFolder : js unit :=
  input <- getElementById "dicom-folder" ;;
  fs <- get_files input ;;
  res <- fetch (uploadDicomFolder_request fs) ;;
  data <- response_json res ;;
  renderNameList data.

Definition loadDatasets : js unit :=
  ul <- getElementById "dataset-list" ;;
  set_innerHTML ul "Loading..." ;;;
  try_catch
    (res <- fetch (GET "/load_data/datasets") ;;
     data <- response_json res ;;
     set_innerHTML ul "" ;;;
     datasets <- lift (get_prop data "datasets") ;;
     if truthy datasets
     then forEach datasets (fun name =>
            appendChild ul (Li (textContent_of name)
                              (Some ("Selected dataset: " +:+ toString name))))
     else
       err <- lift (get_prop data "error") ;;
       set_innerHTML ul ("<li>Error: " +:+ toString err +:+ "</li>"))
    (fun err =>
       console_error [LStr "Failed to load datasets"; LExn err] ;;;
       set_innerHTML ul "<li>Fetch error</li>").

Definition listDatasets : js unit :=
  response <- fetch (GET "/load_data/datasets") ;;
  data <- response_json response ;;
  dropdown <- getElementById "datasetDropdown" ;;
  set_innerHTML dropdown "" ;;;
  appendChild dropdown (OptionEl "" "-- Select a dataset --" true true true) ;;;
  datasets <- lift (get_prop data "datasets") ;;
  if truthy datasets
  then forEach datasets (fun name =>
         appendChild dropdown (OptionEl (toString name) (textContent_of name) false false false))
  else
    err <- lift (get_prop data "error") ;;
    console_error [LStr "Error loading datasets:"; LVal err].

Definition loadSelectedDataset : js unit :=
  dropdown <- getElementById "datasetDropdown" ;;
  dataset <- get_value dropdown ;;
  if Str.is_empty dataset
  then alert "Please select a dataset."
  else
    response <- fetch (GET ("/load_data/" +:+ dataset)) ;;
    data <- response_json response ;;
    renderNameList data.

Definition toggleCreatePatientForm : js unit :=
  form <- getElementById "create-patient-form" ;;
  d <- get_display form ;;
  if String.eqb d "none" || String.eqb d ""
  then set_display form "block"
  else set_display form "none".

(** *** Patients *)

(** line 332 *)
Definition patient_line (p : jsval) : outcome string :=
  match get_prop p "name" with
  | Throw e => Throw e
  | Return n =>
      match get_prop p "id" with
      | Throw e => Throw e
      | Return i =>
          match get_prop p "birthDate" with
          | Throw e => Throw e
          | Return b =>
              match get_prop p "sex" with
              | Throw e => Throw e
              | Return x =>
                  Return (toString n +:+ " (ID: " +:+ toString i +:+ ", DOB: "
                          +:+ toString b +:+ ", Sex: " +:+ toString x +:+ ")")
              end
          end
      end
  end.

(** [loadPatients] after its request was sent: lines 326-334 from the
    first [await] on *)
Definition loadPatients_resume (p : fetch_outcome) : js unit :=
  response <- await_response p ;;
  patients <- response_json response ;;
  list <- getElementById "patient-list" ;;
  set_innerHTML list "" ;;;
  forEach patients (fun p =>
    line <- lift (patient_line p) ;;
    appendChild list (Li line None)).

Definition loadPatients : js unit :=
  p <- issue (GET "/patients/load") ;; loadPatients_resume p.

(** [loadPatients()] called and not awaited: the request leaves at once, the
    rest runs when the caller's synchronous code is over *)
Definition loadPatients_detached : js unit :=
  p <- issue (GET "/patients/load") ;; defer (ResumeLoadPatients p).

(** line 267 *)
Definition patientName (first middle last : string) : string :=
  Str.trim (Str.collapse_ws (first +:+ " " +:+ middle +:+ " " +:+ last)).

Definition has_json_content_type (r : response) : bool :=
  match content_type r with
  | None => false
  | Some c => negb (Str.is_empty c) && Str.includes "application/json" c
  end.

Definition trimmed_value (id : string) : js string :=
  el <- getElementById id ;; v <- get_value el ;; ret (Str.trim v).

Definition raw_value (id : string) : js string :=
  el <- getElementById id ;; get_value el.

Definition clear_value (id : string) : js unit :=
  el <- getElementById id ;; set_value el "".

Definition createPatient_request (id name birthDate sex : string) : request :=
  mkRequest "POST" "/patients/create" (Some "application/json")
    (JsonBody (obj [("id", JStr id); ("name", JStr name);
                    ("birthDate", JStr birthDate); ("sex", JStr sex)])).

(** lines 304-317: what follows a parsed answer *)
Definition createPatient_after_parse (response : response) (data : jsval) : js unit :=
  if ok response
  then
    alert "Patient created successfully!" ;;;
    loadPatients_detached ;;;
    clear_value "patient-id" ;;;
    clear_value "patient-first-name" ;;;
    clear_value "patient-middle-name" ;;;
    clear_value "patient-last-name" ;;;
    clear_value "patient-dob" ;;;
    clear_value "patient-sex"
  else
    e <- lift (get_prop data "error") ;;
    errorMsg <-
      (if truthy e then ret e
       else
         m <- lift (get_prop data "message") ;;
         ret (js_or m (JStr ("Error creating patient. Status: "
                             +:+ Str.of_nat (status response))))) ;;
    alert ("Error: " +:+ toString errorMsg).

Definition createPatient : js unit :=
  id <- trimmed_value "patient-id" ;;
  first <- trimmed_value "patient-first-name" ;;
  middle <- trimmed_value "patient-middle-name" ;;
  last <- trimmed_value "patient-last-name" ;;
  birthDate <- raw_value "patient-dob" ;;
  sex <- raw_value "patient-sex" ;;
  if Str.is_empty id
  then alert "Error: Patient ID is required."
  else if Str.is_empty first || Str.is_empty last
  then alert "Error: First name and last name are required."
  else
    let name := patientName first middle last in
    try_catch
      (response <- fetch (createPatient_request id name birthDate sex) ;;
       if negb (has_json_content_type response)
       then
         text <- response_text response ;;
         console_error [LStr "Non-JSON response:"; LStr text] ;;;
         alert ("Error: Server returned non-JSON response. Status: "
                +:+ Str.of_nat (status response))
       else
         text <- response_text response ;;
         if Str.is_empty text || Str.is_empty (Str.trim text)
         then
           console_error [LStr "Empty response from server"] ;;;
           alert ("Error: Empty response from server. Status: "
                  +:+ Str.of_nat (status response))
         else
           parsed <-
             try_catch
               (data <- JSON_parse_js text ;; ret (Some data))
               (fun parseError =>
                  console_error [LStr "JSON parse error:"; LExn parseError;
                                 LStr "Response text:"; LStr text] ;;;
                  alert ("Error: Invalid JSON response from server. Status: "
                         +:+ Str.of_nat (status response)) ;;;
                  ret None) ;;
           match parsed with
           | None => ret tt
           | Some data => createPatient_after_parse response data
           end)
      (fun error =>
         console_error [LStr "Error creating patient:"; LExn error] ;;;
         alert ("Error: Failed to create patient. " +:+ message error)).

(** *** Running an entry point until the page is idle *)

Definition run_task (t : task) : js unit :=
  match t with
  | ResumeLoadPatients p =>
      try_catch (loadPatients_resume p) (fun e => emit (UnhandledRejection e))
  end.

Fixpoint run_tasks (ts : list task) : js unit :=
  match ts with
  | [] => ret tt
  | t :: r => run_task t ;;; run_tasks r
  end.

(** The entry point runs first; the continuations it left behind run
    afterwards and cannot change how it settled. *)
Definition settle (m : js unit) : js unit :=
  fun s =>
    match m s with
    | (o, s1) =>
        let s2 := mkPage (dom s1) (charts s1) (events s1) [] in
        (o, snd (run_tasks (pending s1) s2))
    end.

End Script.

(** the non-2xx answer [r] was turned into a server error and logged *)
Definition reports_server_error (r : response) (s : page) : Prop :=
  exists label,
    In (ConsoleError [LStr label;
                      LExn (Error ("Server error: " +:+ Str.of_nat (status r)))])
       (events s).

(** a computation that only adds to the events of the page *)
Definition grows {A} (m : js A) : Prop :=
  forall s, exists es, events (snd (m s)) = events s ++ es.

(** the six fields of the form are on the page *)
Definition form_fields (s : page) (id first middle last dob sex : element) : Prop :=
  dom s !! "patient-id" = Some id /\
  dom s !! "patient-first-name" = Some first /\
  dom s !! "patient-middle-name" = Some middle /\
  dom s !! "patient-last-name" = Some last /\
  dom s !! "patient-dob" = Some dob /\
  dom s !! "patient-sex" = Some sex.

(** a patient as the server lists it *)
Record PatientRecord : Type := mkPatient {
  p_id : string;
  p_name : string;
  p_birthDate : string;
  p_sex : string
}.

Definition json_of_patient (p : PatientRecord) : jsval :=
  obj [("id", JStr (p_id p)); ("name", JStr (p_name p));
       ("birthDate", JStr (p_birthDate p)); ("sex", JStr (p_sex p))].

(** the entry the specification asks for:
    name (ID: id, DOB: birthDate, Sex: sex) *)
Definition patient_entry (p : PatientRecord) : string :=
  p_name p +:+ " (ID: " +:+ p_id p +:+ ", DOB: " +:+ p_birthDate p
  +:+ ", Sex: " +:+ p_sex p +:+ ")".

(** the element [id] with other content *)
Definition with_children (id : string) (el : element) (ns : list node) (s : page) : page :=
  mkPage (<[id := mkElement ns (value el) (display el) (files el)]> (dom s))
    (charts s) (events s) (pending s).

(** the ROI list holds one item of markup, an error item *)
Definition shows_error_item (s : page) : Prop :=
  exists el html,
    dom s !! "roi-list" = Some el /\
    children el = [Markup html] /\
    Str.startsWith "<li>Error: " html = true.

(** a computation that removes no element from the page *)
Definition keeps {A} (m : js A) : Prop :=
  forall s id, is_Some (dom s !! id) -> is_Some (dom (snd (m s)) !! id).

(** the JSON of a request cannot be had: the request does not complete,
    the body cannot be read, or the text is not JSON *)
Definition json_unavailable (net : request -> fetch_outcome)
    (JSON_parse : string -> option jsval) (req : request) : Prop :=
  match net req with
  | NetFail => True
  | Arrived r =>
      match body r with
      | None => True
      | Some t => JSON_parse t = None
      end
  end.

(** the seven entry points *)
Inductive entry : Type :=
  | EFetchDoseData | EUploadDicomFolder | ELoadDatasets | EListDatasets
  | ELoadSelectedDataset | ECreatePatient | ELoadPatients.

Definition run_entry (net : request -> fetch_outcome)
    (JSON_parse : string -> option jsval) (e : entry) : js unit :=
  match e with
  | EFetchDoseData => fetchDoseData net JSON_parse
  | EUploadDicomFolder => uploadDicomFolder net JSON_parse
  | ELoadDatasets => loadDatasets net JSON_parse
  | EListDatasets => listDatasets net JSON_parse
  | ELoadSelectedDataset => loadSelectedDataset net JSON_parse
  | ECreatePatient => createPatient net JSON_parse
  | ELoadPatients => loadPatients net JSON_parse
  end.

(** the page with the element [id] replaced *)
Definition set_elem (id : string) (el : element) (s : page) : page :=
  mkPage (<[id := el]> (dom s)) (charts s) (events s) (pending s).

(** the form region with another [style.display] *)
Definition with_display (el : element) (d : string) : element :=
  mkElement (children el) (value el) d (files el).

(** a list of names as the server sends it *)
Definition names_json (names : list string) : jsval := JArr (map JStr names).

(** the first option of the dropdown *)
Definition placeholder : node := OptionEl "" "-- Select a dataset --" true true true.

(** a node that is not an option inserted as selected *)
Definition unselected (n : node) : Prop :=
  match n with
  | OptionEl _ _ _ true _ => False
  | _ => True
  end.

(** only an array has [forEach] *)
Definition is_array (v : jsval) : bool :=
  match v with JArr _ => true | _ => false end.

(** the alerts among some events *)
Definition alerts_of (es : list event) : list string :=
  omap (fun e => match e with Alert m => Some m | _ => None end) es.

(** the texts handed to [JSON.parse] among some events *)
Definition parses_of (es : list event) : list string :=
  omap (fun e => match e with JsonParse t => Some t | _ => None end) es.

(** a form field once emptied *)
Definition cleared (el : element) : element :=
  mkElement (children el) "" (display el) (files el).

(** the answer to the creation request is one createPatient takes for a
    success: it arrived with a 2xx status, a JSON content type and a body
    that is not blank and parses *)
Definition creation_accepted (JSON_parse : string -> option jsval)
    (p : fetch_outcome) : bool :=
  match p with
  | NetFail => false
  | Arrived r =>
      ok r && has_json_content_type r &&
      match body r with
      | None => false
      | Some t =>
          negb (Str.is_empty t || Str.is_empty (Str.trim t)) &&
          match JSON_parse t with
          | Some _ => true
          | None => false
          end
      end
  end.

(** the request createPatient sends for the form as it stands *)
Definition creation_request (id first middle last dob sex : element) : request :=
  createPatient_request (Str.trim (value id))
    (patientName (Str.trim (value first)) (Str.trim (value middle)) (Str.trim (value last)))
    (value dob) (value sex).

(** the required fields are filled in *)
Definition required_filled (id first last : element) : Prop :=
  Str.trim (value id) <> "" /\ Str.trim (value first) <> "" /\ Str.trim (value last) <> "".

(** line 315 on an object payload: the error field if it is truthy, else
    the message field if it is truthy, else a text carrying the status *)
Definition errorMsg (r : response) (m : gmap string jsval) : jsval :=
  js_or (default JUndef (m !! "error"))
    (js_or (default JUndef (m !! "message"))
       (JStr ("Error creating patient. Status: " +:+ Str.of_nat (status r)))).

(** the elements of the page once the six fields are emptied *)
Definition form_emptied (id first middle last dob sex : element)
    (d : gmap string element) : gmap string element :=
  <["patient-sex" := cleared sex]>
    (<["patient-dob" := cleared dob]>
       (<["patient-last-name" := cleared last]>
          (<["patient-middle-name" := cleared middle]>
             (<["patient-first-name" := cleared first]>
                (<["patient-id" := cleared id]> d))))).

(** a name part without white space *)
Fixpoint no_ws (s : string) : bool :=
  match s with
  | EmptyString => true
  | String c s' => negb (Str.is_ws c) && no_ws s'
  end.

(** the last character, if any, is not white space *)
Fixpoint ends_clean (s : string) : bool :=
  match s with
  | EmptyString => true
  | String c EmptyString => negb (Str.is_ws c)
  | String _ s' => ends_clean s'
  end.

(** a computation that writes to no element outside [ids] and draws in no
    panel outside [panels] *)
Definition confined (ids panels : list string) {A} (m : js A) : Prop :=
  forall s,
    (forall id, ~ In id ids -> dom (snd (m s)) !! id = dom s !! id) /\
    (forall p, ~ In p panels -> charts (snd (m s)) !! p = charts s !! p).

(** the elements an entry point writes to *)
Definition elements_of (e : entry) : list string :=
  match e with
  | EFetchDoseData => []
  | EUploadDicomFolder | ELoadSelectedDataset => ["roi-list"]
  | ELoadDatasets => ["dataset-list"]
  | EListDatasets => ["datasetDropdown"]
  | ECreatePatient =>
      ["patient-id"; "patient-first-name"; "patient-middle-name"; "patient-last-name";
       "patient-dob"; "patient-sex"]
  | ELoadPatients => ["patient-list"]
  end.

(** the panels an entry point draws in *)
Definition panels_of (e : entry) : list string :=
  match e with
  | EFetchDoseData => ["plotly-ct-dose"; "plotly-dvh"; "plotly-ct-overlay"]
  | _ => []
  end.

(** the text is empty or starts with white space: a word cannot go on
    into it *)
Definition breaks (s : string) : bool :=
  match s with
  | EmptyString => true
  | String c _ => Str.is_ws c
  end.

(** the words of a text: its maximal runs of characters that are not
    white space, in order *)
Fixpoint words (s : string) : list string :=
  match s with
  | EmptyString => []
  | String c s' =>
      if Str.is_ws c then words s'
      else if breaks s' then String c EmptyString :: words s'
      else
        match words s' with
        | w :: r => String c w :: r
        | [] => [String c EmptyString]
        end
  end.

(** words joined by one plain space each *)
Fixpoint unwords (ws : list string) : string :=
  match ws with
  | [] => EmptyString
  | w :: r =>
      match r with
      | [] => w
      | _ :: _ => w +:+ " " +:+ unwords r
      end
  end.

(** the words after a space, if there are any *)
Definition lead (ws : list string) : string :=
  match ws with
  | [] => EmptyString
  | _ :: _ => String " " (unwords ws)
  end.

(** what a plain read [data.k] gives on a payload that is neither null nor
    undefined: the field of an object, undefined when it is absent or when
    the payload is no object *)
Definition field_or_undefined (data : jsval) (k : string) : jsval :=
  match data with
  | JObj m => default JUndef (m !! k)
  | _ => JUndef
  end.

(** ** Concrete pages, servers and payloads *)

Module Fixtures.

(** a text between double quotes *)
Definition quoted (s : string) : string := String "034" (s +:+ String "034" "").

(** [JSON.parse] on the texts of a table; any other text is malformed *)
Definition parse_table (tbl : list (string * jsval)) (t : string) : option jsval :=
  snd <$> find (fun e => String.eqb (fst e) t) tbl.

(** a server that gives one answer to every request *)
Definition serve (r : response) : request -> fetch_outcome := fun _ => Arrived r.

(** no server can be reached *)
Definition offline : request -> fetch_outcome := fun _ => NetFail.

Definition field (v : string) : element := mkElement [] v "" [].

Definition list_of (l : list string) : element :=
  mkElement (map (fun t => Li t None) l) "" "" [].

(** the page of the application: lists with earlier content, no dataset
    selected, an open form with the given fields, no chart drawn *)
Definition page_with (id first middle last : string) : page :=
  mkPage
    (list_to_map
       [("dicom-folder", mkElement [] "" "" ["CT.1.dcm"; "RS.1.dcm"]);
        ("roi-list", list_of ["PTV"; "Bladder"]);
        ("dataset-list", list_of ["P001"]);
        ("datasetDropdown", field "");
        ("create-patient-form", mkElement [] "" "block" []);
        ("patient-id", field id);
        ("patient-first-name", field first);
        ("patient-middle-name", field middle);
        ("patient-last-name", field last);
        ("patient-dob", field "2000-01-01");
        ("patient-sex", field "F");
        ("patient-list", list_of ["Old Entry (ID: 0, DOB: , Sex: )"])])
    ∅ [] [].

Definition page0 : page := page_with "" "" "" "".

(** the same page once the dataset P001 is selected *)
Definition page_selected : page :=
  mkPage (<["datasetDropdown" := field "P001"]> (dom page0)) ∅ [] [].

(** [{"error":"boom"}] *)
Definition error_text : string :=
  "{" +:+ quoted "error" +:+ ":" +:+ quoted "boom" +:+ "}".
Definition error_json : jsval := obj [("error", JStr "boom")].

(** [{"roi_names":null}] *)
Definition null_names_text : string := "{" +:+ quoted "roi_names" +:+ ":null}".
Definition null_names_json : jsval := obj [("roi_names", JNull)].

(** [{"roi_names":[]}] *)
Definition no_names_text : string := "{" +:+ quoted "roi_names" +:+ ":[]}".
Definition no_names_json : jsval := obj [("roi_names", JArr [])].

Definition grid : jsval := JArr [JArr [JNum "0"; JNum "1"]; JArr [JNum "1"; JNum "0"]].

(** a dose payload without [dvh]:
    [{"ct_slice":[[0,1],[1,0]],"mask_slice":[[0,1],[1,0]],"dose_slice":[[0,1],[1,0]]}] *)
Definition no_dvh_text : string :=
  "{" +:+ quoted "ct_slice" +:+ ":[[0,1],[1,0]]," +:+ quoted "mask_slice"
  +:+ ":[[0,1],[1,0]]," +:+ quoted "dose_slice" +:+ ":[[0,1],[1,0]]}".
Definition no_dvh_json : jsval :=
  obj [("ct_slice", grid); ("mask_slice", grid); ("dose_slice", grid)].

(** a dose payload without [ct_slice] *)
Definition no_ct_json : jsval :=
  obj [("mask_slice", grid); ("dose_slice", grid);
       ("dvh", obj [("dose_values", JArr [JNum "0"; JNum "1"; JNum "2"]);
                    ("volume_percentages", JArr [JNum "100"; JNum "80"; JNum "20"])])].

(** [[{"id":"1","name":"Jane Doe","birthDate":"2000-01-01","sex":"F"}]] *)
Definition jane_text : string :=
  "[{" +:+ quoted "id" +:+ ":" +:+ quoted "1" +:+ "," +:+ quoted "name" +:+ ":"
  +:+ quoted "Jane Doe" +:+ "," +:+ quoted "birthDate" +:+ ":" +:+ quoted "2000-01-01"
  +:+ "," +:+ quoted "sex" +:+ ":" +:+ quoted "F" +:+ "}]".

Definition jane : PatientRecord := mkPatient "1" "Jane Doe" "2000-01-01" "F".

Definition parse0 : string -> option jsval :=
  parse_table [(error_text, error_json); (null_names_text, null_names_json);
               (no_names_text, no_names_json); (no_dvh_text, no_dvh_json);
               (jane_text, JArr [json_of_patient jane]);
               ("{}", obj []); ("null", JNull)].

(** a server that accepts a new patient and lists Jane Doe *)
Definition clinic (req : request) : fetch_outcome :=
  if String.eqb (url req) "/patients/create" then Arrived (mkResponse 201 (Some "application/json") (Some "{}"))
  else if String.eqb (url req) "/patients/load"
  then Arrived (mkResponse 200 (Some "application/json") (Some jane_text))
  else NetFail.

Definition json_response (st : nat) (text : string) : response :=
  mkResponse st (Some "application/json") (Some text).


(** [{"datasets":["P001","P002"]}] *)
Definition datasets_text : string :=
  "{" +:+ quoted "datasets" +:+ ":[" +:+ quoted "P001" +:+ "," +:+ quoted "P002" +:+ "]}".

(** [{"roi_names":["PTV","Heart"]}] *)
Definition rois_text : string :=
  "{" +:+ quoted "roi_names" +:+ ":[" +:+ quoted "PTV" +:+ "," +:+ quoted "Heart" +:+ "]}".

Definition parse1 : string -> option jsval :=
  parse_table [(datasets_text, obj [("datasets", names_json ["P001"; "P002"])]);
               (rois_text, obj [("roi_names", names_json ["PTV"; "Heart"])]);
               (error_text, error_json)].


(** the form filled in for patient 7, Jane Doe, with stray blanks *)
Definition page_jane : page := page_with " 7 " " Jane " "" "Doe  ".

Definition jane_request : request :=
  createPatient_request "7" "Jane Doe" "2000-01-01" "F".

(** a gateway that answers every request with an HTML error page *)
Definition bad_gateway : request -> fetch_outcome :=
  serve (mkResponse 502 (Some "text/html") (Some "<html>Bad Gateway</html>")).

(** a server that accepts a new patient and then cannot be reached *)
Definition clinic_then_down (req : request) : fetch_outcome :=
  if String.eqb (url req) "/patients/create"
  then Arrived (mkResponse 201 (Some "application/json") (Some "{}"))
  else NetFail.


(** [{"roi_names":"PTV,Heart"}] *)
Definition text_names_text : string :=
  "{" +:+ quoted "roi_names" +:+ ":" +:+ quoted "PTV,Heart" +:+ "}".

End Fixtures.

(** * Properties *)

(** ** White space *)

Module StrFacts.
Import Str.

Lemma trimStart_clean s : starts_clean (trimStart s) = true.
Proof.
  induction s as [|c s IH]; simpl; [reflexivity|].
  destruct (is_ws c) eqn:E; [exact IH|]. simpl. now rewrite E.
Qed.

Lemma trimStart_fixed s : starts_clean s = true -> trimStart s = s.
Proof.
  destruct s as [|c s]; simpl; [reflexivity|].
  destruct (is_ws c); [discriminate|reflexivity].
Qed.

Lemma trimEnd_clean s : starts_clean s = true -> starts_clean (trimEnd s) = true.
Proof.
  destruct s as [|c s]; simpl; [reflexivity|].
  intros H. destruct (trimEnd s); simpl.
  - destruct (is_ws c) eqn:W; [discriminate|]. simpl. now rewrite W.
  - exact H.
Qed.

Lemma trimEnd_idem s : trimEnd (trimEnd s) = trimEnd s.
Proof.
  induction s as [|c s IH]; simpl; [reflexivity|].
  destruct (trimEnd s) as [|d t] eqn:E.
  - destruct (is_ws c) eqn:W; simpl; [reflexivity|]. now rewrite W.
  - change (trimEnd (String c (String d t))) with
      (match trimEnd (String d t) with
       | EmptyString => if is_ws c then EmptyString else String c EmptyString
       | u => String c u
       end).
    now rewrite IH.
Qed.

Lemma trim_idem s : trim (trim s) = trim s.
Proof.
  unfold trim.
  rewrite (trimStart_fixed (trimEnd (trimStart s))).
  - apply trimEnd_idem.
  - apply trimEnd_clean, trimStart_clean.
Qed.

Lemma replace_ws_runs_single_spaced b s :
  single_spaced b (replace_ws_runs b s) = true.
Proof.
  revert b. induction s as [|c s IH]; intros b; simpl; [reflexivity|].
  destruct (is_ws c) eqn:W.
  - destruct b; [apply IH|]. simpl. now rewrite IH.
  - simpl. rewrite W. apply IH.
Qed.

Lemma single_spaced_weaken s : single_spaced true s = true -> single_spaced false s = true.
Proof.
  destruct s as [|c s]; simpl; [reflexivity|].
  destruct (is_ws c); [|tauto].
  rewrite andb_false_r. discriminate.
Qed.

Lemma trimStart_single_spaced b s :
  single_spaced b s = true -> single_spaced true (trimStart s) = true.
Proof.
  revert b. induction s as [|c s IH]; intros b; simpl; [reflexivity|].
  destruct (is_ws c) eqn:W.
  - intros H. apply andb_true_iff in H as [_ H]. now apply (IH true).
  - simpl. now rewrite W.
Qed.

Lemma trimEnd_single_spaced b s :
  single_spaced b s = true -> single_spaced b (trimEnd s) = true.
Proof.
  revert b. induction s as [|c s IH]; intros b; simpl; [reflexivity|].
  intros H. remember (trimEnd s) as u eqn:E. destruct u as [|d t].
  - destruct (is_ws c) eqn:W; simpl; [reflexivity|]. now rewrite W.
  - rewrite E. simpl. destruct (is_ws c) eqn:W.
    + apply andb_true_iff in H as [H1 H2]. rewrite H1, <- E. now apply IH.
    + rewrite <- E. now apply IH.
Qed.

Lemma single_spaced_only_spaces b s a c r :
  single_spaced b s = true -> s = a +:+ String c r -> is_ws c = true -> c = " "%char.
Proof.
  revert b s. induction a as [|x a IH]; intros b s H -> W; simpl in H.
  - rewrite W in H. apply andb_true_iff in H as [H _].
    apply andb_true_iff in H as [H _]. now apply Ascii.eqb_eq in H.
  - destruct (is_ws x).
    + apply andb_true_iff in H as [_ H]. now apply (IH true _ H).
    + now apply (IH false _ H).
Qed.

Lemma single_spaced_no_run b s a c1 c2 r :
  single_spaced b s = true -> s = a +:+ String c1 (String c2 r) ->
  is_ws c1 = true -> is_ws c2 = false.
Proof.
  revert b s. induction a as [|x a IH]; intros b s H -> W; simpl in H.
  - rewrite W in H. apply andb_true_iff in H as [_ H].
    destruct (is_ws c2); [|reflexivity].
    simpl in H. rewrite andb_false_r in H. discriminate.
  - destruct (is_ws x).
    + apply andb_true_iff in H as [_ H]. now apply (IH true _ H).
    + now apply (IH false _ H).
Qed.

End StrFacts.

(** ** Running the primitives *)

Section Runs.

Variable net : request -> fetch_outcome.
Variable JSON_parse : string -> option jsval.

Lemma bind_return {A B} (m : js A) (k : A -> js B) s a s' :
  m s = (Return a, s') -> bind m k s = k a s'.
Proof. intros H. unfold bind. now rewrite H. Qed.

Lemma bind_throw {A B} (m : js A) (k : A -> js B) s e s' :
  m s = (Throw e, s') -> bind m k s = (Throw e, s').
Proof. intros H. unfold bind. now rewrite H. Qed.

Lemma trimmed_value_run id el s :
  dom s !! id = Some el -> trimmed_value id s = (Return (Str.trim (value el)), s).
Proof.
  intros H. unfold trimmed_value, bind, getElementById, get_value, read_elem, ret.
  now rewrite !H.
Qed.

Lemma raw_value_run id el s :
  dom s !! id = Some el -> raw_value id s = (Return (value el), s).
Proof.
  intros H. unfold raw_value, bind, getElementById, get_value, read_elem.
  now rewrite !H.
Qed.

Lemma requests_of_app es fs : requests_of (es ++ fs) = requests_of es ++ requests_of fs.
Proof. unfold requests_of. apply omap_app. Qed.

Lemma log_log s es fs : log (log s es) fs = log s (es ++ fs).
Proof. unfold log. simpl. now rewrite app_assoc. Qed.

(** [createPatient] once the six fields are read *)
Lemma createPatient_reads s id first middle last dob sex :
  form_fields s id first middle last dob sex ->
  createPatient net JSON_parse s =
    (let i := Str.trim (value id) in
     let f := Str.trim (value first) in
     let m := Str.trim (value middle) in
     let l := Str.trim (value last) in
     if Str.is_empty i
     then alert "Error: Patient ID is required."
     else if Str.is_empty f || Str.is_empty l
     then alert "Error: First name and last name are required."
     else
       try_catch
         (response <- fetch net (createPatient_request i (patientName f m l)
                                   (value dob) (value sex)) ;;
          if negb (has_json_content_type response)
          then
            text <- response_text response ;;
            console_error [LStr "Non-JSON response:"; LStr text] ;;;
            alert ("Error: Server returned non-JSON response. Status: "
                   +:+ Str.of_nat (status response))
          else
            text <- response_text response ;;
            if Str.is_empty text || Str.is_empty (Str.trim text)
            then
              console_error [LStr "Empty response from server"] ;;;
              alert ("Error: Empty response from server. Status: "
                     +:+ Str.of_nat (status response))
            else
              parsed <-
                try_catch
                  (data <- JSON_parse_js JSON_parse text ;; ret (Some data))
                  (fun parseError =>
                     console_error [LStr "JSON parse error:"; LExn parseError;
                                    LStr "Response text:"; LStr text] ;;;
                     alert ("Error: Invalid JSON response from server. Status: "
                            +:+ Str.of_nat (status response)) ;;;
                     ret None) ;;
              match parsed with
              | None => ret tt
              | Some data => createPatient_after_parse net response data
              end)
         (fun error =>
            console_error [LStr "Error creating patient:"; LExn error] ;;;
            alert ("Error: Failed to create patient. " +:+ message error))) s.
Proof.
  intros (H1 & H2 & H3 & H4 & H5 & H6). unfold createPatient.
  rewrite (bind_return _ _ _ _ _ (trimmed_value_run _ _ _ H1)).
  rewrite (bind_return _ _ _ _ _ (trimmed_value_run _ _ _ H2)).
  rewrite (bind_return _ _ _ _ _ (trimmed_value_run _ _ _ H3)).
  rewrite (bind_return _ _ _ _ _ (trimmed_value_run _ _ _ H4)).
  rewrite (bind_return _ _ _ _ _ (raw_value_run _ _ _ H5)).
  rewrite (bind_return _ _ _ _ _ (raw_value_run _ _ _ H6)).
  reflexivity.
Qed.

End Runs.

(** ** Client-side checks *)

(** C6. When the id, the first name or the last name is blank after
    trimming, createPatient only raises an alert carrying a validation
    error: it returns with that single event added, so no request (to
    /patients/create or anywhere) is issued, and the page is otherwise
    untouched. *)
Theorem C6_blank_required_field_stops_before_request
    net parse s id first middle last dob sex :
  form_fields s id first middle last dob sex ->
  Str.trim (value id) = "" \/ Str.trim (value first) = "" \/ Str.trim (value last) = "" ->
  exists msg,
    createPatient net parse s = (Return tt, log s [Alert msg]) /\
    Str.startsWith "Error: " msg = true /\
    requests_of (events (log s [Alert msg])) = requests_of (events s).
Proof.
  intros F B. rewrite (createPatient_reads net parse _ _ _ _ _ _ _ F). cbv zeta.
  destruct (Str.is_empty (Str.trim (value id))) eqn:Ei.
  - eexists. split; [reflexivity|]. split; [reflexivity|].
    simpl. rewrite requests_of_app. simpl. apply app_nil_r.
  - assert (E : Str.is_empty (Str.trim (value first))
                || Str.is_empty (Str.trim (value last)) = true).
    { destruct B as [B|[B|B]]; rewrite B in *; simpl in *;
        [discriminate|reflexivity|apply orb_true_r]. }
    rewrite E. eexists. split; [reflexivity|]. split; [reflexivity|].
    simpl. rewrite requests_of_app. simpl. apply app_nil_r.
Qed.

(** the witness: a form whose id holds only spaces *)
Lemma C6_blank_id_witness :
  exists msg,
    createPatient Fixtures.offline Fixtures.parse0
      (Fixtures.page_with "   " "Jane" "" "Doe")
    = (Return tt, log (Fixtures.page_with "   " "Jane" "" "Doe") [Alert msg]) /\
    Str.startsWith "Error: " msg = true /\
    requests_of (events (log (Fixtures.page_with "   " "Jane" "" "Doe") [Alert msg]))
    = requests_of (events (Fixtures.page_with "   " "Jane" "" "Doe")).
Proof.
  apply (C6_blank_required_field_stops_before_request
           Fixtures.offline Fixtures.parse0 (Fixtures.page_with "   " "Jane" "" "Doe")
           (Fixtures.field "   ") (Fixtures.field "Jane") (Fixtures.field "")
           (Fixtures.field "Doe") (Fixtures.field "2000-01-01") (Fixtures.field "F")).
  - repeat split; reflexivity.
  - left. reflexivity.
Defined.

(** C7. With no dataset selected in the dropdown, loadSelectedDataset only
    tells the user to select one: it returns with that alert as the single
    new event, so no request is issued. *)
Theorem C7_no_selection_no_request net parse s dropdown :
  dom s !! "datasetDropdown" = Some dropdown ->
  value dropdown = "" ->
  loadSelectedDataset net parse s = (Return tt, log s [Alert "Please select a dataset."]) /\
  requests_of (events (log s [Alert "Please select a dataset."])) = requests_of (events s).
Proof.
  intros H V. split.
  - unfold loadSelectedDataset, bind, getElementById, get_value, read_elem.
    rewrite !H, V. reflexivity.
  - simpl. rewrite requests_of_app. simpl. apply app_nil_r.
Qed.

(** the witness: the page as it is before any selection *)
Lemma C7_no_selection_witness :
  loadSelectedDataset Fixtures.offline Fixtures.parse0 Fixtures.page0
  = (Return tt, log Fixtures.page0 [Alert "Please select a dataset."]) /\
  requests_of (events (log Fixtures.page0 [Alert "Please select a dataset."]))
  = requests_of (events Fixtures.page0).
Proof.
  apply (C7_no_selection_no_request Fixtures.offline Fixtures.parse0 Fixtures.page0
           (Fixtures.field "")); reflexivity.
Defined.

(** ** Failures before rendering *)

Section Failures.

Variable net : request -> fetch_outcome.
Variable JSON_parse : string -> option jsval.

(** what the script gets when it asks for the JSON of a request *)
Lemma fetch_json_run {B} req (k : jsval -> js B) s :
  (r <- fetch net req ;; data <- response_json JSON_parse r ;; k data) s =
  match net req with
  | NetFail => (Throw (TypeError "Failed to fetch"), log s [Fetch req])
  | Arrived r =>
      match body r with
      | None => (Throw (TypeError "network error"), log s [Fetch req])
      | Some t =>
          match JSON_parse t with
          | None => (Throw (SyntaxError "Unexpected token in JSON"),
                     log s [Fetch req; JsonParse t])
          | Some data => k data (log s [Fetch req; JsonParse t])
          end
      end
  end.
Proof.
  unfold fetch, issue, response_json, response_text, JSON_parse_js, await_response,
    bind, emit, ret, throw, log. simpl.
  destruct (net req) as [|r]; [reflexivity|].
  destruct (body r) as [t|]; [|reflexivity]. simpl.
  rewrite <- app_assoc. simpl.
  destruct (JSON_parse t); reflexivity.
Qed.

Lemma json_unavailable_run {B} req (k : jsval -> js B) s :
  json_unavailable net JSON_parse req ->
  exists e es,
    (r <- fetch net req ;; data <- response_json JSON_parse r ;; k data) s
    = (Throw e, log s es) /\
    forall t, In (JsonParse t) es -> JSON_parse t = None.
Proof.
  unfold json_unavailable. intros H. rewrite fetch_json_run.
  destruct (net req) as [|r].
  - do 2 eexists. split; [reflexivity|]. simpl. intros t [E|[]]. discriminate.
  - destruct (body r) as [t|].
    + rewrite H. do 2 eexists. split; [reflexivity|].
      simpl. intros t' [E|[E|[]]]; [discriminate|]. now inversion E; subst.
    + do 2 eexists. split; [reflexivity|]. simpl. intros t [E|[]]. discriminate.
Qed.

Lemma uploadDicomFolder_reads s input :
  dom s !! "dicom-folder" = Some input ->
  uploadDicomFolder net JSON_parse s =
  (res <- fetch net (uploadDicomFolder_request (files input)) ;;
   data <- response_json JSON_parse res ;;
   renderNameList data) s.
Proof.
  intros H. unfold uploadDicomFolder.
  unfold bind at 1, getElementById. rewrite H.
  unfold bind at 1, get_files, read_elem. rewrite H. reflexivity.
Qed.

Lemma loadSelectedDataset_reads s dropdown :
  dom s !! "datasetDropdown" = Some dropdown ->
  loadSelectedDataset net JSON_parse s =
  (if Str.is_empty (value dropdown)
   then alert "Please select a dataset."
   else
     response <- fetch net (GET ("/load_data/" +:+ value dropdown)) ;;
     data <- response_json JSON_parse response ;;
     renderNameList data) s.
Proof.
  intros H. unfold loadSelectedDataset.
  unfold bind at 1, getElementById. rewrite H.
  unfold bind at 1, get_value, read_elem. rewrite H. reflexivity.
Qed.

End Failures.

(** C10. In uploadDicomFolder and in loadSelectedDataset the ROI list is
    emptied only once the answer has been parsed: when the request does not
    complete, the body cannot be read or the text is not JSON, the function
    rejects and leaves every element of the page, the ROI list among them,
    as it was. *)
Theorem C10_roi_list_untouched_when_fetch_or_parse_fails net parse s :
  (forall input,
      dom s !! "dicom-folder" = Some input ->
      json_unavailable net parse (uploadDicomFolder_request (files input)) ->
      (exists e, fst (uploadDicomFolder net parse s) = Throw e) /\
      dom (snd (uploadDicomFolder net parse s)) = dom s) /\
  (forall dropdown,
      dom s !! "datasetDropdown" = Some dropdown ->
      value dropdown <> "" ->
      json_unavailable net parse (GET ("/load_data/" +:+ value dropdown)) ->
      (exists e, fst (loadSelectedDataset net parse s) = Throw e) /\
      dom (snd (loadSelectedDataset net parse s)) = dom s).
Proof.
  split.
  - intros input H U. rewrite (uploadDicomFolder_reads _ _ _ _ H).
    destruct (json_unavailable_run net parse _ renderNameList s U) as (e & es & -> & _).
    split; [now exists e|reflexivity].
  - intros dropdown H V U. rewrite (loadSelectedDataset_reads _ _ _ _ H).
    assert (E : Str.is_empty (value dropdown) = false)
      by (destruct (value dropdown); [congruence|reflexivity]).
    rewrite E.
    destruct (json_unavailable_run net parse _ renderNameList s U) as (e & es & -> & _).
    split; [now exists e|reflexivity].
Qed.

(** the witness: the upload cannot reach the server, the selected dataset
    is answered with a page that is not JSON; the two names stay listed *)
Lemma C10_roi_list_untouched_witness :
  dom (snd (uploadDicomFolder Fixtures.offline Fixtures.parse0 Fixtures.page_selected))
    !! "roi-list" = Some (Fixtures.list_of ["PTV"; "Bladder"]) /\
  dom (snd (loadSelectedDataset
              (Fixtures.serve (mkResponse 200 (Some "text/html") (Some "<html></html>")))
              Fixtures.parse0 Fixtures.page_selected))
    !! "roi-list" = Some (Fixtures.list_of ["PTV"; "Bladder"]).
Proof.
  split.
  - rewrite (proj2 (proj1 (C10_roi_list_untouched_when_fetch_or_parse_fails
                             Fixtures.offline Fixtures.parse0 Fixtures.page_selected)
                      (mkElement [] "" "" ["CT.1.dcm"; "RS.1.dcm"]) eq_refl I)).
    reflexivity.
  - rewrite (proj2 (proj2 (C10_roi_list_untouched_when_fetch_or_parse_fails
                             (Fixtures.serve (mkResponse 200 (Some "text/html")
                                                (Some "<html></html>")))
                             Fixtures.parse0 Fixtures.page_selected)
                      (Fixtures.field "P001") eq_refl
                      ltac:(discriminate) eq_refl)).
    reflexivity.
Defined.

(** ** Events are only ever added *)

Section Grows.

Lemma grows_ret {A} (a : A) : grows (ret a).
Proof. intros s. exists []. simpl. now rewrite app_nil_r. Qed.

Lemma grows_throw {A} e : grows (@throw A e).
Proof. intros s. exists []. simpl. now rewrite app_nil_r. Qed.

Lemma grows_lift {A} (o : outcome A) : grows (lift o).
Proof. intros s. exists []. simpl. now rewrite app_nil_r. Qed.

Lemma grows_emit e : grows (emit e).
Proof. intros s. now exists [e]. Qed.

Lemma grows_defer t : grows (defer t).
Proof. intros s. exists []. simpl. now rewrite app_nil_r. Qed.

Lemma grows_getElementById id : grows (getElementById id).
Proof. intros s. exists []. simpl. now rewrite app_nil_r. Qed.

Lemma grows_read_elem {A} prop (f : element -> A) r : grows (read_elem prop f r).
Proof.
  intros s. exists []. rewrite app_nil_r. unfold read_elem, null_deref, throw.
  destruct r as [id|]; [|reflexivity]. now destruct (dom s !! id).
Qed.

Lemma grows_update_elem prop f r : grows (update_elem prop f r).
Proof.
  intros s. exists []. rewrite app_nil_r. unfold update_elem, null_assign, throw.
  destruct r as [id|]; [|reflexivity]. now destruct (dom s !! id).
Qed.

Lemma grows_newPlot panel data layout : grows (newPlot panel data layout).
Proof. intros s. exists []. simpl. now rewrite app_nil_r. Qed.

Lemma grows_bind {A B} (m : js A) (k : A -> js B) :
  grows m -> (forall a, grows (k a)) -> grows (bind m k).
Proof.
  intros Hm Hk s. unfold bind. destruct (Hm s) as [es E].
  destruct (m s) as [[a|e] s1]; simpl in E.
  - destruct (Hk a s1) as [fs F]. exists (es ++ fs). now rewrite F, E, app_assoc.
  - now exists es.
Qed.

Lemma grows_try_catch {A} (m : js A) (h : exn -> js A) :
  grows m -> (forall e, grows (h e)) -> grows (try_catch m h).
Proof.
  intros Hm Hh s. unfold try_catch. destruct (Hm s) as [es E].
  destruct (m s) as [[a|e] s1]; simpl in E.
  - now exists es.
  - destruct (Hh e s1) as [fs F]. exists (es ++ fs). now rewrite F, E, app_assoc.
Qed.

Lemma grows_for_each l (f : jsval -> js unit) :
  (forall x, grows (f x)) -> grows (for_each l f).
Proof.
  intros Hf. induction l as [|x l IH]; simpl.
  - apply grows_ret.
  - apply grows_bind; [apply Hf|intros _; exact IH].
Qed.

Lemma grows_forEach v (f : jsval -> js unit) :
  (forall x, grows (f x)) -> grows (forEach v f).
Proof.
  intros Hf. destruct v; simpl; try apply grows_throw. now apply grows_for_each.
Qed.

Lemma grows_In {A} (m : js A) s e : grows m -> In e (events s) -> In e (events (snd (m s))).
Proof. intros G H. destruct (G s) as [es E]. rewrite E. apply in_or_app. now left. Qed.

End Grows.

Create HintDb grows.

#[local] Hint Resolve grows_ret grows_throw grows_lift grows_emit grows_defer
  grows_getElementById grows_read_elem grows_update_elem grows_newPlot : grows.

Ltac grows_step :=
  match goal with
  | |- grows (bind _ _) => apply grows_bind; [|intro]
  | |- grows (try_catch _ _) => apply grows_try_catch; [|intro]
  | |- grows (forEach _ _) => apply grows_forEach; intro
  | |- grows (if ?c then _ else _) => destruct c
  | |- grows (match ?x with _ => _ end) => destruct x
  | |- grows _ => solve [auto with grows]
  end.

Ltac grows_tac := repeat grows_step.

Section GrowsScript.

Variable net : request -> fetch_outcome.
Variable JSON_parse : string -> option jsval.

Lemma grows_renderNameList data : grows (renderNameList data).
Proof.
  unfold renderNameList, set_innerHTML, appendChild. grows_tac.
Qed.

Lemma grows_loadPatients_resume p : grows (loadPatients_resume JSON_parse p).
Proof.
  unfold loadPatients_resume, await_response, response_json, response_text,
    JSON_parse_js, set_innerHTML, appendChild.
  grows_tac.
Qed.

Lemma grows_createPatient_after_parse r data :
  grows (createPatient_after_parse net r data).
Proof.
  unfold createPatient_after_parse, loadPatients_detached, issue, clear_value,
    set_value, alert.
  grows_tac.
Qed.

End GrowsScript.

(** ** Status codes and parsing *)

Section Parsing.

Variable net : request -> fetch_outcome.
Variable JSON_parse : string -> option jsval.

Lemma is_empty_false s : s <> "" -> Str.is_empty s = false.
Proof. destruct s; [congruence|reflexivity]. Qed.

Lemma in_try_catch {A} (m : js A) h s e :
  In e (events (snd (m s))) -> (forall x, grows (h x)) ->
  In e (events (snd (try_catch m h s))).
Proof.
  intros H G. unfold try_catch. destruct (m s) as [[a|x] s1]; [exact H|].
  now apply grows_In.
Qed.

(** an answer with a readable body is handed to [JSON.parse], whatever
    its status *)
Lemma parse_attempted {B} req (k : jsval -> js B) s r t :
  net req = Arrived r -> body r = Some t -> (forall d, grows (k d)) ->
  In (JsonParse t)
    (events (snd ((x <- fetch net req ;; data <- response_json JSON_parse x ;; k data) s))).
Proof.
  intros N Bd G. rewrite fetch_json_run, N, Bd.
  destruct (JSON_parse t) as [d|].
  - apply grows_In; [apply G|]. simpl. apply in_or_app. right. simpl. tauto.
  - simpl. apply in_or_app. right. simpl. tauto.
Qed.

Lemma fetchDoseData_rejected_status s r :
  net (GET "/plotly/compute_dose") = Arrived r -> ok r = false ->
  fetchDoseData net JSON_parse s =
    (Return tt,
     log s [ConsoleLog [LStr "Running fetchDoseData"];
            Fetch (GET "/plotly/compute_dose");
            ConsoleError [LStr "Error fetching dose data:";
                          LExn (Error ("Server error: " +:+ Str.of_nat (status r)))]]).
Proof.
  intros N O.
  unfold fetchDoseData, fetch, issue, console_log, console_error, try_catch, bind, emit,
    ret, await_response, throw, log.
  simpl. rewrite N. simpl. rewrite O. simpl. now rewrite <- !app_assoc.
Qed.

Lemma uploadDicomFolder_parses s r t input :
  (forall req, net req = Arrived r) -> body r = Some t ->
  dom s !! "dicom-folder" = Some input ->
  In (JsonParse t) (events (snd (uploadDicomFolder net JSON_parse s))).
Proof.
  intros N Bd H. rewrite (uploadDicomFolder_reads _ _ _ _ H).
  apply (parse_attempted _ _ _ r); auto using grows_renderNameList.
Qed.

Lemma loadSelectedDataset_parses s r t dropdown :
  (forall req, net req = Arrived r) -> body r = Some t ->
  dom s !! "datasetDropdown" = Some dropdown -> value dropdown <> "" ->
  In (JsonParse t) (events (snd (loadSelectedDataset net JSON_parse s))).
Proof.
  intros N Bd H V. rewrite (loadSelectedDataset_reads _ _ _ _ H), (is_empty_false _ V).
  apply (parse_attempted _ _ _ r); auto using grows_renderNameList.
Qed.

Lemma listDatasets_parses s r t :
  (forall req, net req = Arrived r) -> body r = Some t ->
  In (JsonParse t) (events (snd (listDatasets net JSON_parse s))).
Proof.
  intros N Bd. unfold listDatasets.
  apply (parse_attempted _ _ _ r); auto.
  intros d. unfold set_innerHTML, appendChild, console_error. grows_tac.
Qed.

Lemma loadDatasets_parses s r t ul :
  (forall req, net req = Arrived r) -> body r = Some t ->
  dom s !! "dataset-list" = Some ul ->
  In (JsonParse t) (events (snd (loadDatasets net JSON_parse s))).
Proof.
  intros N Bd H. unfold loadDatasets.
  unfold bind at 1, getElementById. rewrite H.
  unfold bind at 1, set_innerHTML at 1, update_elem at 1. rewrite H.
  apply in_try_catch.
  - apply (parse_attempted _ _ _ r); auto.
    intros d. unfold set_innerHTML, appendChild. grows_tac.
  - intros x. unfold console_error, set_innerHTML. grows_tac.
Qed.

Lemma loadPatients_as_fetch s :
  loadPatients net JSON_parse s =
  (response <- fetch net (GET "/patients/load") ;;
   patients <- response_json JSON_parse response ;;
   (list <- getElementById "patient-list" ;;
    set_innerHTML list "" ;;;
    forEach patients (fun p =>
      line <- lift (patient_line p) ;;
      appendChild list (Li line None)))) s.
Proof.
  unfold loadPatients, loadPatients_resume, fetch, bind. simpl.
  now destruct (net (GET "/patients/load")).
Qed.

Lemma loadPatients_parses s r t :
  (forall req, net req = Arrived r) -> body r = Some t ->
  In (JsonParse t) (events (snd (loadPatients net JSON_parse s))).
Proof.
  intros N Bd. rewrite loadPatients_as_fetch.
  apply (parse_attempted _ _ _ r); auto.
  intros d. unfold set_innerHTML, appendChild. grows_tac.
Qed.

Lemma createPatient_parses s r t id first middle last dob sex :
  (forall req, net req = Arrived r) -> body r = Some t ->
  form_fields s id first middle last dob sex ->
  Str.trim (value id) <> "" -> Str.trim (value first) <> "" ->
  Str.trim (value last) <> "" ->
  has_json_content_type r = true -> Str.trim t <> "" ->
  In (JsonParse t) (events (snd (createPatient net JSON_parse s))).
Proof.
  intros N Bd F Vi Vf Vl C T.
  rewrite (createPatient_reads _ _ _ _ _ _ _ _ _ F). cbv zeta.
  rewrite (is_empty_false _ Vi), (is_empty_false _ Vf), (is_empty_false _ Vl).
  cbv [orb].
  assert (Tn : Str.is_empty t = false).
  { apply is_empty_false. intros ->. now apply T. }
  apply in_try_catch; [|intros x; unfold console_error, alert; grows_tac].
  unfold fetch, issue. unfold bind at 1 2 3. simpl. rewrite N. simpl.
  rewrite C. simpl. unfold bind at 1, response_text. rewrite Bd. simpl.
  rewrite Tn, (is_empty_false _ T). simpl.
  unfold bind at 1, try_catch, JSON_parse_js. unfold bind at 1 2, emit. simpl.
  destruct (JSON_parse t) as [d|]; simpl.
  - apply grows_In; [apply grows_createPatient_after_parse|].
    simpl. apply in_or_app. right. simpl. tauto.
  - rewrite !in_app_iff. simpl. tauto.
Qed.

End Parsing.

(** C1, as the code has it. When the server answers every request with the
    same non-2xx response, fetchDoseData alone refuses it on its status: it
    logs a server error carrying the status and never parses the body.  The
    six other entry points hand a readable body to the JSON parser whatever
    the status: the list and dropdown functions never look at the status,
    and createPatient looks at it only after parsing (given the required
    fields, a JSON content type and a body that is not blank). *)
Theorem C1_status_checked_before_parsing_only_by_fetchDoseData net parse s r :
  (forall req, net req = Arrived r) ->
  ok r = false ->
  (fetchDoseData net parse s =
     (Return tt,
      log s [ConsoleLog [LStr "Running fetchDoseData"];
             Fetch (GET "/plotly/compute_dose");
             ConsoleError [LStr "Error fetching dose data:";
                           LExn (Error ("Server error: " +:+ Str.of_nat (status r)))]])) /\
  (forall t, body r = Some t ->
     (forall input, dom s !! "dicom-folder" = Some input ->
        In (JsonParse t) (events (snd (uploadDicomFolder net parse s)))) /\
     (forall ul, dom s !! "dataset-list" = Some ul ->
        In (JsonParse t) (events (snd (loadDatasets net parse s)))) /\
     In (JsonParse t) (events (snd (listDatasets net parse s))) /\
     (forall dropdown, dom s !! "datasetDropdown" = Some dropdown ->
        value dropdown <> "" ->
        In (JsonParse t) (events (snd (loadSelectedDataset net parse s)))) /\
     In (JsonParse t) (events (snd (loadPatients net parse s))) /\
     (forall id first middle last dob sex,
        form_fields s id first middle last dob sex ->
        Str.trim (value id) <> "" -> Str.trim (value first) <> "" ->
        Str.trim (value last) <> "" ->
        has_json_content_type r = true -> Str.trim t <> "" ->
        In (JsonParse t) (events (snd (createPatient net parse s))))).
Proof.
  intros N O. split; [now apply fetchDoseData_rejected_status|].
  intros t Bd. repeat split.
  - intros input H. now apply (uploadDicomFolder_parses _ _ _ r t input).
  - intros ul H. now apply (loadDatasets_parses _ _ _ r t ul).
  - now apply (listDatasets_parses _ _ _ r).
  - intros dropdown H V. now apply (loadSelectedDataset_parses _ _ _ r t dropdown).
  - now apply (loadPatients_parses _ _ _ r).
  - intros id first middle lastn dob sex F Vi Vf Vl C T.
    now apply (createPatient_parses _ _ _ r t id first middle lastn dob sex).
Qed.

(** the witness: every request is answered 500 with [{"error":"boom"}];
    fetchDoseData logs the server error and parses nothing, loadPatients
    parses the body *)
Lemma C1_status_witness :
  events (snd (fetchDoseData
                 (Fixtures.serve (Fixtures.json_response 500 Fixtures.error_text))
                 Fixtures.parse0 Fixtures.page0))
  = [ConsoleLog [LStr "Running fetchDoseData"];
     Fetch (GET "/plotly/compute_dose");
     ConsoleError [LStr "Error fetching dose data:"; LExn (Error "Server error: 500")]] /\
  In (JsonParse Fixtures.error_text)
    (events (snd (loadPatients
                    (Fixtures.serve (Fixtures.json_response 500 Fixtures.error_text))
                    Fixtures.parse0 Fixtures.page0))).
Proof.
  destruct (C1_status_checked_before_parsing_only_by_fetchDoseData
              (Fixtures.serve (Fixtures.json_response 500 Fixtures.error_text))
              Fixtures.parse0 Fixtures.page0
              (Fixtures.json_response 500 Fixtures.error_text)
              (fun _ => eq_refl) eq_refl) as [E P].
  split.
  - rewrite E. reflexivity.
  - exact (proj1 (proj2 (proj2 (proj2 (proj2 (P Fixtures.error_text eq_refl)))))).
Defined.

(** C1 as worded fails: uploadDicomFolder, answered 500 with
    [{"error":"boom"}], parses the body (and lists the error it carries)
    instead of reporting a server error. *)
Lemma C1_non2xx_body_is_parsed :
  ~ (forall net parse e s r,
        (forall req, net req = Arrived r) -> ok r = false ->
        reports_server_error r (snd (run_entry net parse e s)) /\
        forall t, ~ In (JsonParse t) (events (snd (run_entry net parse e s)))).
Proof.
  intros H.
  destruct (H (Fixtures.serve (Fixtures.json_response 500 Fixtures.error_text))
              Fixtures.parse0 EUploadDicomFolder Fixtures.page0
              (Fixtures.json_response 500 Fixtures.error_text)
              (fun _ => eq_refl) eq_refl) as [_ P].
  apply (P Fixtures.error_text). vm_compute. right. left. reflexivity.
Qed.

(** ** The words of a name *)

Module WordFacts.
Import Str.

Lemma cons_append c s t : String c s +:+ t = String c (s +:+ t).
Proof. reflexivity. Qed.

Lemma trimEnd_cons_clean c s : is_ws c = false -> trimEnd (String c s) = String c (trimEnd s).
Proof. intros H. simpl. rewrite H. now destruct (trimEnd s). Qed.

Lemma trimStart_replace b s : trimStart (replace_ws_runs b s) = replace_ws_runs true s.
Proof.
  revert b. induction s as [|c s IH]; intros b; simpl; [reflexivity|].
  destruct (is_ws c) eqn:W.
  - destruct b; [apply IH|]. simpl. apply IH.
  - simpl. now rewrite W.
Qed.

Lemma words_head_nonempty s : forall w r, words s = w :: r -> w <> "".
Proof.
  induction s as [|c s IH]; intros w r; simpl; [discriminate|].
  destruct (is_ws c); [apply IH|].
  destruct (breaks s); [intros E; inversion E; discriminate|].
  destruct (words s); intros E; inversion E; discriminate.
Qed.

Lemma words_clean_nonempty s : breaks s = false -> words s <> [].
Proof.
  destruct s as [|c s]; simpl; [discriminate|]. intros ->.
  destruct (breaks s); [discriminate|]. destruct (words s); discriminate.
Qed.

Lemma unwords_cons_char c w r : unwords (String c w :: r) = String c (unwords (w :: r)).
Proof. now destruct r. Qed.

Lemma unwords_nonempty w r : w <> "" -> unwords (w :: r) <> "".
Proof.
  destruct w as [|c w]; [congruence|]. intros _. rewrite unwords_cons_char. discriminate.
Qed.

(** the text once its runs are collapsed and its end trimmed, read as
    words *)
Lemma trimEnd_replace s :
  trimEnd (replace_ws_runs true s) = unwords (words s) /\
  trimEnd (replace_ws_runs false s)
  = if breaks s then lead (words s) else unwords (words s).
Proof.
  induction s as [|c s [IHt IHf]]; [split; reflexivity|].
  simpl replace_ws_runs. simpl words. simpl breaks.
  destruct (is_ws c) eqn:W.
  - split; [exact IHt|].
    simpl trimEnd. rewrite IHt.
    destruct (words s) as [|w r] eqn:E; [reflexivity|].
    pose proof (unwords_nonempty w r (words_head_nonempty s w r E)) as N.
    change (lead (w :: r)) with (String " " (unwords (w :: r))).
    destruct (unwords (w :: r)); [congruence|reflexivity].
  - rewrite (trimEnd_cons_clean c _ W), IHf.
    assert (G : String c (if breaks s then lead (words s) else unwords (words s))
                = unwords (if breaks s then String c "" :: words s
                           else match words s with
                                | w :: r => String c w :: r
                                | [] => [String c ""]
                                end)).
    { destruct (breaks s) eqn:B.
      - now destruct (words s).
      - pose proof (words_clean_nonempty s B) as N.
        destruct (words s) as [|w r]; [congruence|].
        now rewrite unwords_cons_char. }
    split; exact G.
Qed.

Lemma words_app_space a rest : words (a +:+ String " " rest) = words a ++ words rest.
Proof.
  induction a as [|c a IH]; [reflexivity|].
  rewrite cons_append. simpl words. rewrite IH.
  destruct (is_ws c); [reflexivity|].
  assert (B : breaks (a +:+ String " " rest) = breaks a) by now destruct a.
  rewrite B. destruct (breaks a) eqn:Ba; [reflexivity|].
  pose proof (words_clean_nonempty a Ba) as N.
  destruct (words a) as [|w r]; [congruence|reflexivity].
Qed.

Lemma patientName_words first middle last :
  patientName first middle last = unwords (words first ++ words middle ++ words last).
Proof.
  unfold patientName, collapse_ws, trim.
  rewrite trimStart_replace.
  rewrite (proj1 (trimEnd_replace _)).
  change (first +:+ " " +:+ middle +:+ " " +:+ last)
    with (first +:+ String " " (middle +:+ String " " last)).
  now rewrite !words_app_space.
Qed.

Lemma words_trimStart s : words (trimStart s) = words s.
Proof.
  induction s as [|c s IH]; [reflexivity|]. simpl.
  destruct (is_ws c) eqn:W; [exact IH|]. simpl. now rewrite W.
Qed.

Lemma breaks_trimEnd s : trimEnd s <> "" -> breaks (trimEnd s) = breaks s.
Proof.
  destruct s as [|c s]; [reflexivity|]. simpl.
  destruct (trimEnd s); [|reflexivity].
  destruct (is_ws c) eqn:W; [congruence|]. intros _. simpl. exact W.
Qed.

Lemma words_trimEnd s : words (trimEnd s) = words s.
Proof.
  induction s as [|c s IH]; [reflexivity|].
  destruct (is_ws c) eqn:W.
  - simpl words at 2. rewrite W, <- IH. simpl trimEnd.
    destruct (trimEnd s) as [|d t] eqn:E; [now rewrite W|].
    simpl. now rewrite W.
  - rewrite (trimEnd_cons_clean c s W). simpl. rewrite W, IH.
    destruct (trimEnd s) as [|d t] eqn:E.
    + simpl in IH. rewrite <- IH. simpl. now destruct (breaks s).
    + rewrite <- E, breaks_trimEnd; [reflexivity|]. rewrite E. discriminate.
Qed.

Lemma words_trim s : words (trim s) = words s.
Proof. unfold trim. now rewrite words_trimEnd, words_trimStart. Qed.

End WordFacts.

Section Shaping.

Variable net : request -> fetch_outcome.
Variable JSON_parse : string -> option jsval.

(** whatever follows, the request is the first thing a guarded pipeline
    adds to the events *)
Lemma request_sent_first {A} req (k : response -> js A) (h : exn -> js A) s :
  (forall r, grows (k r)) -> (forall e, grows (h e)) ->
  exists es,
    events (snd (try_catch (r <- fetch net req ;; k r) h s)) = events s ++ Fetch req :: es.
Proof.
  intros Gk Gh. unfold try_catch, fetch, issue, bind, emit, ret, await_response, throw.
  simpl. destruct (net req) as [|r]; unfold ret, throw; simpl.
  - destruct (Gh (TypeError "Failed to fetch")
                (mkPage (dom s) (charts s) (events s ++ [Fetch req]) (pending s)))
      as [es E].
    exists es. rewrite E. simpl. now rewrite <- app_assoc.
  - destruct (Gk r (mkPage (dom s) (charts s) (events s ++ [Fetch req]) (pending s)))
      as [es E].
    destruct (k r _) as [[a|e] s1]; simpl in E.
    + exists es. simpl. rewrite E. now rewrite <- app_assoc.
    + destruct (Gh e s1) as [fs F]. exists (es ++ fs).
      simpl. rewrite F, E. now rewrite <- !app_assoc.
Qed.

(** lines 250-276: with the required fields filled in, the request
    createPatient sends carries the trimmed id and the words of the three
    name fields joined by single spaces *)
Lemma createPatient_sends_shaped_payload s id first middle last dob sex :
  form_fields s id first middle last dob sex ->
  Str.trim (value id) <> "" ->
  Str.trim (value first) <> "" ->
  Str.trim (value last) <> "" ->
  exists es,
    events (snd (createPatient net JSON_parse s)) =
    events s ++
    Fetch (createPatient_request (Str.trim (value id))
             (unwords (words (value first) ++ words (value middle) ++ words (value last)))
             (value dob) (value sex)) :: es.
Proof.
  intros F Vi Vf Vl.
  rewrite (createPatient_reads net JSON_parse _ _ _ _ _ _ _ F). cbv zeta.
  rewrite (is_empty_false _ Vi), (is_empty_false _ Vf), (is_empty_false _ Vl).
  cbv [orb].
  rewrite WordFacts.patientName_words, !WordFacts.words_trim.
  apply request_sent_first.
  - intros r.
    unfold createPatient_after_parse, loadPatients_detached, issue, clear_value, set_value,
      response_text, JSON_parse_js, console_error, alert.
    grows_tac.
  - intros e. unfold console_error, alert. grows_tac.
Qed.

End Shaping.

(** C5. Shaping the patient payload is insensitive to white space.  Each
    of the four text fields is read trimmed, and trimming is idempotent:
    Jane typed with blanks before or after is read as Jane.  The full name
    is exactly the words of the first, middle and last name, in that
    order, joined by one plain space each: Jane, an empty middle name and
    Doe give Jane Doe, and whatever the fields hold the name has no white
    space at either end, only plain spaces, never two in a row.  This is
    the name createPatient sends, with the trimmed id. *)
Theorem C5_patient_name_whitespace :
  (forall s, Str.trim (Str.trim s) = Str.trim s) /\
  (Str.trim "Jane" = "Jane" /\ Str.trim " Jane " = "Jane" /\ Str.trim "Jane  " = "Jane") /\
  patientName (Str.trim "Jane") (Str.trim "") (Str.trim "Doe") = "Jane Doe" /\
  (forall first middle last,
      let name := patientName first middle last in
      Str.trim name = name /\
      (forall a c r, name = a +:+ String c r -> Str.is_ws c = true -> c = " "%char) /\
      (forall a c1 c2 r, name = a +:+ String c1 (String c2 r) ->
                         Str.is_ws c1 = true -> Str.is_ws c2 = false)) /\
  (forall first middle last,
      patientName first middle last = unwords (words first ++ words middle ++ words last)) /\
  (forall v, words (Str.trim v) = words v) /\
  (forall s id el,
      dom s !! id = Some el ->
      trimmed_value id s = (Return (Str.trim (value el)), s)) /\
  (forall net parse s id first middle last dob sex,
      form_fields s id first middle last dob sex ->
      Str.trim (value id) <> "" ->
      Str.trim (value first) <> "" ->
      Str.trim (value last) <> "" ->
      exists es,
        events (snd (createPatient net parse s)) =
        events s ++
        Fetch (createPatient_request (Str.trim (value id))
                 (unwords (words (value first) ++ words (value middle)
                           ++ words (value last)))
                 (value dob) (value sex)) :: es).
Proof.
  split; [exact StrFacts.trim_idem|].
  split; [repeat split; reflexivity|].
  split; [reflexivity|].
  split.
  { intros first middle last name.
    assert (S : Str.single_spaced true name = true).
    { unfold name, patientName, Str.trim, Str.collapse_ws.
      apply StrFacts.trimEnd_single_spaced.
      eapply StrFacts.trimStart_single_spaced.
      apply StrFacts.replace_ws_runs_single_spaced. }
    split; [apply StrFacts.trim_idem|].
    split.
    - intros a c r E. exact (StrFacts.single_spaced_only_spaces _ _ _ _ _ S E).
    - intros a c1 c2 r E. exact (StrFacts.single_spaced_no_run _ _ _ _ _ _ S E). }
  split; [exact WordFacts.patientName_words|].
  split; [exact WordFacts.words_trim|].
  split; [intros s id el H; now apply trimmed_value_run|].
  intros net parse s id first middle lastn dob sex F Vi Vf Vl.
  now apply createPatient_sends_shaped_payload.
Qed.

(** the witness: a form typed with stray blanks.  The three spellings of
    Jane are read as Jane; the request carries the id 7 and the name Mary
    Ann Doe, in which the white space after Mary is one plain space
    followed by a letter. *)
Lemma C5_whitespace_witness :
  (trimmed_value "patient-first-name" (Fixtures.page_with "1" "Jane" "" "Doe")
   = (Return "Jane", Fixtures.page_with "1" "Jane" "" "Doe") /\
   trimmed_value "patient-first-name" (Fixtures.page_with "1" " Jane " "" "Doe")
   = (Return "Jane", Fixtures.page_with "1" " Jane " "" "Doe") /\
   trimmed_value "patient-first-name" (Fixtures.page_with "1" "Jane  " "" "Doe")
   = (Return "Jane", Fixtures.page_with "1" "Jane  " "" "Doe")) /\
  (exists es,
      events (snd (createPatient Fixtures.offline Fixtures.parse0
                     (Fixtures.page_with " 7 " "  Mary   Ann " "" " Doe")))
      = Fetch (createPatient_request "7" "Mary Ann Doe" "2000-01-01" "F") :: es) /\
  patientName (Str.trim "  Mary   Ann ") (Str.trim "") (Str.trim " Doe") = "Mary Ann Doe" /\
  Str.trim (patientName "  Mary   Ann " "" " Doe") = patientName "  Mary   Ann " "" " Doe" /\
  " "%char = " "%char /\
  Str.is_ws "A" = false.
Proof.
  destruct C5_patient_name_whitespace as (_ & _ & _ & H & N & _ & T & P).
  destruct (H "  Mary   Ann " "" " Doe") as (Tr & S & R).
  split.
  { split; [|split].
    - exact (T (Fixtures.page_with "1" "Jane" "" "Doe") "patient-first-name"
               (Fixtures.field "Jane") eq_refl).
    - exact (T (Fixtures.page_with "1" " Jane " "" "Doe") "patient-first-name"
               (Fixtures.field " Jane ") eq_refl).
    - exact (T (Fixtures.page_with "1" "Jane  " "" "Doe") "patient-first-name"
               (Fixtures.field "Jane  ") eq_refl). }
  split.
  { exact (P Fixtures.offline Fixtures.parse0
             (Fixtures.page_with " 7 " "  Mary   Ann " "" " Doe")
             (Fixtures.field " 7 ") (Fixtures.field "  Mary   Ann ") (Fixtures.field "")
             (Fixtures.field " Doe") (Fixtures.field "2000-01-01") (Fixtures.field "F")
             ltac:(repeat split; reflexivity)
             ltac:(discriminate) ltac:(discriminate) ltac:(discriminate)). }
  split; [reflexivity|].
  split; [exact Tr|]. split.
  - exact (S "Mary" " "%char "Ann Doe" eq_refl eq_refl).
  - exact (R "Mary" " "%char "A"%char "nn Doe" eq_refl eq_refl).
Defined.

(** ** Failures and the caller *)

Section Guarded.

Variable net : request -> fetch_outcome.
Variable JSON_parse : string -> option jsval.

Lemma try_catch_settles (m : js unit) (h : exn -> js unit) :
  (forall e s, exists s', h e s = (Return tt, s')) ->
  forall s, exists s', try_catch m h s = (Return tt, s').
Proof.
  intros H s. unfold try_catch. destruct (m s) as [[[]|e] s1]; [now exists s1|apply H].
Qed.

(** the three entry points with a [try] around their pipeline resolve,
    whatever the server and the parser do *)
Lemma fetchDoseData_never_rejects s :
  exists s', fetchDoseData net JSON_parse s = (Return tt, s').
Proof.
  unfold fetchDoseData. unfold bind at 1. simpl.
  apply try_catch_settles. intros e s1. now eexists.
Qed.

Lemma createPatient_never_rejects s id first middle last dob sex :
  form_fields s id first middle last dob sex ->
  exists s', createPatient net JSON_parse s = (Return tt, s').
Proof.
  intros F. rewrite (createPatient_reads _ _ _ _ _ _ _ _ _ F). cbv zeta.
  destruct (Str.is_empty (Str.trim (value id))); [now eexists|].
  destruct (Str.is_empty (Str.trim (value first)) || Str.is_empty (Str.trim (value last)));
    [now eexists|].
  apply try_catch_settles. intros e s1. now eexists.
Qed.

End Guarded.

(** C2, at the inputs where the code departs from it. With no server in
    reach, loadPatients and listDatasets reject with the transport error on
    any page, and so do uploadDicomFolder and loadSelectedDataset on the
    application's page: the failure reaches the caller. *)
Theorem C2_transport_failure_reaches_the_caller parse s :
  fst (loadPatients Fixtures.offline parse s) = Throw (TypeError "Failed to fetch") /\
  fst (listDatasets Fixtures.offline parse s) = Throw (TypeError "Failed to fetch") /\
  fst (uploadDicomFolder Fixtures.offline parse Fixtures.page0)
  = Throw (TypeError "Failed to fetch") /\
  fst (loadSelectedDataset Fixtures.offline parse Fixtures.page_selected)
  = Throw (TypeError "Failed to fetch").
Proof. repeat split; reflexivity. Qed.

(** ** Dose payloads *)

Lemma shapeDoseBundle_object m :
  shapeDoseBundle (JObj m) =
  Return (mkBundle (default JUndef (m !! "ct_slice")) (default JUndef (m !! "mask_slice"))
            (default JUndef (m !! "dose_slice")) (default JUndef (m !! "dvh"))).
Proof. reflexivity. Qed.

Lemma renderDoseViews_without_dvh c m d s :
  renderDoseViews (mkBundle c m d JUndef) s =
  (Throw (TypeError "Cannot read properties of undefined (reading 'dose_values')"),
   mkPage (dom s)
     (<["plotly-ct-dose" :=
          ([heatmap (mkBundle c m d JUndef); maskContour (mkBundle c m d JUndef);
            doseMap (mkBundle c m d JUndef)], layout1)]> (charts s))
     (events s) (pending s)).
Proof. reflexivity. Qed.

(** C3, as the code has it. Shaping reads the ct_slice, mask_slice,
    dose_slice and dvh fields and checks none of them: for every payload
    other than null it raises no error and returns a bundle, in which a
    field absent from the payload is undefined. *)
Theorem C3_shaping_reads_fields_without_checking data :
  data <> JNull ->
  data <> JUndef ->
  shapeDoseBundle data =
  Return (mkBundle (field_or_undefined data "ct_slice")
            (field_or_undefined data "mask_slice")
            (field_or_undefined data "dose_slice")
            (field_or_undefined data "dvh")) /\
  (forall m f, data = JObj m -> m !! f = None -> field_or_undefined data f = JUndef).
Proof.
  intros N U. split.
  - destruct data; try congruence; reflexivity.
  - intros m f -> A. simpl. now rewrite A.
Qed.

(** the witness: the payload without ct_slice is shaped into a bundle
    whose CT grid is undefined, the three other fields as sent *)
Lemma C3_no_ct_slice_witness :
  exists b,
    shapeDoseBundle Fixtures.no_ct_json = Return b /\
    ct b = JUndef /\
    mask b = Fixtures.grid /\
    dose b = Fixtures.grid.
Proof.
  destruct (C3_shaping_reads_fields_without_checking Fixtures.no_ct_json
              ltac:(discriminate) ltac:(discriminate)) as [E A].
  eexists. split; [exact E|]. split.
  - exact (A _ "ct_slice" eq_refl eq_refl).
  - split; reflexivity.
Defined.

(** C3 as worded fails: a payload without ct_slice is shaped into a bundle,
    no error is raised. *)
Lemma C3_absent_field_raises_nothing :
  ~ (forall data f,
        In f ["ct_slice"; "mask_slice"; "dose_slice"; "dvh"] ->
        (exists m, data = JObj m /\ m !! f = None) ->
        exists e, shapeDoseBundle data = Throw e).
Proof.
  intros H.
  destruct (H Fixtures.no_ct_json "ct_slice") as [e E].
  - simpl. tauto.
  - eexists. split; reflexivity.
  - discriminate E.
Qed.

Lemma fetchDoseData_without_dvh net parse s r t m :
  net (GET "/plotly/compute_dose") = Arrived r -> ok r = true ->
  body r = Some t -> parse t = Some (JObj m) -> m !! "dvh" = None ->
  let b := mkBundle (default JUndef (m !! "ct_slice")) (default JUndef (m !! "mask_slice"))
             (default JUndef (m !! "dose_slice")) JUndef in
  fetchDoseData net parse s =
  (Return tt,
   mkPage (dom s)
     (<["plotly-ct-dose" := ([heatmap b; maskContour b; doseMap b], layout1)]> (charts s))
     (events s ++
        [ConsoleLog [LStr "Running fetchDoseData"];
         Fetch (GET "/plotly/compute_dose");
         JsonParse t;
         ConsoleLog [LStr "Received dose data:"; LVal (JObj m)];
         ConsoleError
           [LStr "Error fetching dose data:";
            LExn (TypeError "Cannot read properties of undefined (reading 'dose_values')")]])
     (pending s)).
Proof.
  intros N O Bd P D b.
  unfold fetchDoseData, fetch, issue, response_json, response_text, JSON_parse_js,
    console_log, console_error, try_catch, bind, emit, ret, await_response, throw, lift.
  simpl. rewrite N. simpl. rewrite O. simpl. rewrite Bd. simpl. rewrite P. simpl.
  rewrite D. simpl. now rewrite <- !app_assoc.
Qed.

(** the failures that stop fetchDoseData before it draws: no answer, a
    non-2xx status, an unreadable body, a text that is not JSON, or the
    payload null *)
Lemma fetchDoseData_early_failure_frame net parse s :
  match net (GET "/plotly/compute_dose") with
  | NetFail => True
  | Arrived r =>
      ok r = false \/
      match body r with
      | None => True
      | Some t => parse t = None \/ parse t = Some JNull
      end
  end ->
  exists es,
    fetchDoseData net parse s = (Return tt, log s es) /\
    forall e, In e es -> forall msg, e <> Alert msg.
Proof.
  intros H.
  unfold fetchDoseData, fetch, issue, response_json, response_text, JSON_parse_js,
    console_log, console_error, try_catch, bind, emit, ret, await_response, throw, lift, log.
  simpl. destruct (net (GET "/plotly/compute_dose")) as [|r]; simpl.
  - eexists. rewrite <- !app_assoc. split; [reflexivity|].
    simpl. intros e [<-|[<-|[<-|[]]]] msg; discriminate.
  - destruct (ok r); simpl.
    + destruct H as [H|H]; [discriminate|].
      destruct (body r) as [t|]; simpl.
      * destruct H as [-> | ->]; simpl.
        -- eexists. rewrite <- !app_assoc. split; [reflexivity|].
           simpl. intros e [<-|[<-|[<-|[<-|[]]]]] msg; discriminate.
        -- eexists. rewrite <- !app_assoc. split; [reflexivity|].
           simpl. intros e [<-|[<-|[<-|[<-|[<-|[]]]]]] msg; discriminate.
      * eexists. rewrite <- !app_assoc. split; [reflexivity|].
        simpl. intros e [<-|[<-|[<-|[]]]] msg; discriminate.
    + eexists. rewrite <- !app_assoc. split; [reflexivity|].
      simpl. intros e [<-|[<-|[<-|[]]]] msg; discriminate.
Qed.

(** C4, at the input where the code departs from it. The server answers
    200 with a payload holding the three slices and no dvh: fetchDoseData
    draws the first panel, which showed nothing before, then fails on
    dvh.dose_values and logs the error. *)
Theorem C4_missing_dvh_redraws_first_panel :
  let net := Fixtures.serve (Fixtures.json_response 200 Fixtures.no_dvh_text) in
  let b := mkBundle Fixtures.grid Fixtures.grid Fixtures.grid JUndef in
  let done := fetchDoseData net Fixtures.parse0 Fixtures.page0 in
  fst done = Return tt /\
  charts Fixtures.page0 !! "plotly-ct-dose" = None /\
  charts (snd done) !! "plotly-ct-dose"
  = Some ([heatmap b; maskContour b; doseMap b], layout1) /\
  last (events (snd done))
  = Some (ConsoleError
            [LStr "Error fetching dose data:";
             LExn (TypeError "Cannot read properties of undefined (reading 'dose_values')")]).
Proof. vm_compute. repeat split; reflexivity. Qed.

(** ** Elements are never removed *)

Section Keeps.

Lemma keeps_pure {A} (m : js A) : (forall s, dom (snd (m s)) = dom s) -> keeps m.
Proof. intros H s id. now rewrite H. Qed.

Lemma keeps_update_elem prop f r : keeps (update_elem prop f r).
Proof.
  intros s id H. unfold update_elem, null_assign, throw.
  destruct r as [k|]; [|exact H]. destruct (dom s !! k) as [el|]; [|exact H].
  simpl. rewrite lookup_insert_is_Some. destruct (decide (k = id)); auto.
Qed.

Lemma keeps_read_elem {A} prop (f : element -> A) r : keeps (read_elem prop f r).
Proof.
  apply keeps_pure. intros s. unfold read_elem, null_deref, throw.
  destruct r as [k|]; [|reflexivity]. now destruct (dom s !! k).
Qed.

Lemma keeps_bind {A B} (m : js A) (k : A -> js B) :
  keeps m -> (forall a, keeps (k a)) -> keeps (bind m k).
Proof.
  intros Hm Hk s id H. unfold bind. specialize (Hm s id H).
  destruct (m s) as [[a|e] s1]; simpl in Hm; [now apply Hk|exact Hm].
Qed.

Lemma keeps_try_catch {A} (m : js A) (h : exn -> js A) :
  keeps m -> (forall e, keeps (h e)) -> keeps (try_catch m h).
Proof.
  intros Hm Hh s id H. unfold try_catch. specialize (Hm s id H).
  destruct (m s) as [[a|e] s1]; simpl in Hm; [exact Hm|now apply Hh].
Qed.

Lemma keeps_for_each l (f : jsval -> js unit) :
  (forall x, keeps (f x)) -> keeps (for_each l f).
Proof.
  intros Hf. induction l as [|x l IH]; simpl.
  - now apply keeps_pure.
  - apply keeps_bind; [apply Hf|intros _; exact IH].
Qed.

Lemma keeps_forEach v (f : jsval -> js unit) :
  (forall x, keeps (f x)) -> keeps (forEach v f).
Proof.
  intros Hf. destruct v; simpl; try (now apply keeps_pure). now apply keeps_for_each.
Qed.

Lemma keeps_ret {A} (a : A) : keeps (ret a).
Proof. now apply keeps_pure. Qed.

Lemma keeps_throw {A} e : keeps (@throw A e).
Proof. now apply keeps_pure. Qed.

Lemma keeps_lift {A} (o : outcome A) : keeps (lift o).
Proof. now apply keeps_pure. Qed.

Lemma keeps_emit e : keeps (emit e).
Proof. now apply keeps_pure. Qed.

Lemma keeps_getElementById id : keeps (getElementById id).
Proof. now apply keeps_pure. Qed.

End Keeps.

Create HintDb keeps.

#[local] Hint Resolve keeps_ret keeps_throw keeps_lift keeps_emit keeps_getElementById
  keeps_read_elem keeps_update_elem : keeps.

Ltac keeps_step :=
  match goal with
  | |- keeps (bind _ _) => apply keeps_bind; [|intro]
  | |- keeps (try_catch _ _) => apply keeps_try_catch; [|intro]
  | |- keeps (forEach _ _) => apply keeps_forEach; intro
  | |- keeps (if ?c then _ else _) => destruct c
  | |- keeps (match ?x with _ => _ end) => destruct x
  | |- keeps _ => solve [auto with keeps]
  end.

Ltac keeps_tac := repeat keeps_step.

Lemma loadDatasets_never_rejects net parse s ul :
  dom s !! "dataset-list" = Some ul ->
  exists s', loadDatasets net parse s = (Return tt, s').
Proof.
  intros H. unfold loadDatasets.
  unfold bind at 1, getElementById. rewrite H.
  unfold bind at 1, set_innerHTML at 1, update_elem at 1. rewrite H.
  match goal with |- context [try_catch ?m ?h ?s1] =>
    assert (K : keeps m);
    [|pose proof (K s1 "dataset-list") as P; unfold try_catch; destruct (m s1) as [[[]|e] s2]]
  end.
  - unfold fetch, issue, await_response, response_json, response_text, JSON_parse_js,
      set_innerHTML, appendChild.
    keeps_tac.
  - now eexists.
  - destruct P as [el P]; [simpl; rewrite lookup_insert_eq; eauto|].
    simpl in P. unfold console_error, set_innerHTML, update_elem, bind, emit. simpl.
    rewrite P. now eexists.
Qed.

(** ** Lists *)

Lemma patient_line_of_record p : patient_line (json_of_patient p) = Return (patient_entry p).
Proof. destruct p as [i n b x]. vm_compute. reflexivity. Qed.

Lemma with_children_twice id el ns ms s :
  with_children id (mkElement ns (value el) (display el) (files el)) ms
    (with_children id el ns s)
  = with_children id el ms s.
Proof. unfold with_children. simpl. now rewrite insert_insert_eq. Qed.

(** the loop of loadPatients: one item per record, behind what the list
    already holds *)
Lemma append_patient_lines ps : forall s el,
  dom s !! "patient-list" = Some el ->
  for_each (map json_of_patient ps)
    (fun p => line <- lift (patient_line p) ;; appendChild (Some "patient-list") (Li line None)) s
  = (Return tt,
     with_children "patient-list" el
       (children el ++ map (fun p => Li (patient_entry p) None) ps) s).
Proof.
  induction ps as [|p ps IH]; intros s el H; simpl.
  - rewrite app_nil_r. unfold ret, with_children. f_equal.
    destruct s as [d c e q]; simpl in *. f_equal.
    destruct el; simpl. now rewrite insert_id.
  - unfold bind at 1. unfold bind at 1, lift. rewrite patient_line_of_record.
    unfold appendChild, update_elem. rewrite H.
    erewrite IH by (simpl; apply lookup_insert_eq).
    simpl. unfold with_children. simpl.
    now rewrite insert_insert_eq, <- app_assoc.
Qed.

(** C8. Whatever list of patient records the server sends, loadPatients
    resolves with the patient list holding exactly one entry per record,
    in the order sent and in place of what was there, each reading
    name (ID: id, DOB: birthDate, Sex: sex); nothing else on the page
    changes. *)
Theorem C8_loadPatients_lists_every_patient net parse s r t list patients :
  net (GET "/patients/load") = Arrived r ->
  body r = Some t ->
  parse t = Some (JArr (map json_of_patient patients)) ->
  dom s !! "patient-list" = Some list ->
  loadPatients net parse s =
  (Return tt,
   with_children "patient-list" list (map (fun p => Li (patient_entry p) None) patients)
     (log s [Fetch (GET "/patients/load"); JsonParse t])).
Proof.
  intros N Bd P H.
  rewrite loadPatients_as_fetch, fetch_json_run, N, Bd, P.
  unfold bind at 1, getElementById. simpl. rewrite H.
  unfold bind at 1, set_innerHTML, update_elem. simpl. rewrite H. simpl.
  erewrite append_patient_lines by (simpl; apply lookup_insert_eq).
  simpl. unfold with_children. simpl. now rewrite insert_insert_eq.
Qed.

(** the witness: the one-record listing of the specification, which
    replaces the old entry by the line for Jane Doe *)
Lemma C8_jane_doe_witness :
  let net := Fixtures.serve (Fixtures.json_response 200 Fixtures.jane_text) in
  let parse := Fixtures.parse0 in
  fst (loadPatients net parse Fixtures.page0) = Return tt /\
  children <$> dom (snd (loadPatients net parse Fixtures.page0)) !! "patient-list"
  = Some [Li "Jane Doe (ID: 1, DOB: 2000-01-01, Sex: F)" None].
Proof.
  intros net parse.
  rewrite (C8_loadPatients_lists_every_patient net parse Fixtures.page0
             (Fixtures.json_response 200 Fixtures.jane_text) Fixtures.jane_text
             (Fixtures.list_of ["Old Entry (ID: 0, DOB: , Sex: )"])
             [Fixtures.jane] eq_refl eq_refl eq_refl eq_refl).
  split; reflexivity.
Defined.

Lemma append_names l : forall s el,
  dom s !! "roi-list" = Some el ->
  for_each l (fun name => appendChild (Some "roi-list") (Li (textContent_of name) None)) s
  = (Return tt,
     with_children "roi-list" el
       (children el ++ map (fun name => Li (textContent_of name) None) l) s).
Proof.
  induction l as [|x l IH]; intros s el H; simpl.
  - rewrite app_nil_r. unfold ret, with_children. f_equal.
    destruct s as [d c e q]; simpl in *. f_equal.
    destruct el; simpl. now rewrite insert_id.
  - unfold bind at 1. unfold appendChild, update_elem. rewrite H.
    erewrite IH by (simpl; apply lookup_insert_eq).
    simpl. unfold with_children. simpl.
    now rewrite insert_insert_eq, <- app_assoc.
Qed.

(** what lines 146-156 do to the page, case by case *)
Lemma renderNameList_run data s ul :
  dom s !! "roi-list" = Some ul ->
  renderNameList data s =
  match get_prop data "roi_names" with
  | Throw e => (Throw e, with_children "roi-list" ul [] s)
  | Return v =>
      if truthy v
      then
        match v with
        | JArr l =>
            (Return tt,
             with_children "roi-list" ul
               (map (fun name => Li (textContent_of name) None) l) s)
        | _ => (Throw (TypeError "forEach is not a function"),
                with_children "roi-list" ul [] s)
        end
      else
        match get_prop data "error" with
        | Throw e => (Throw e, with_children "roi-list" ul [] s)
        | Return err =>
            (Return tt,
             with_children "roi-list" ul
               [Markup ("<li>Error: " +:+ toString err +:+ "</li>")] s)
        end
  end.
Proof.
  intros H. unfold renderNameList.
  unfold bind at 1, getElementById. rewrite H.
  unfold bind at 1, set_innerHTML at 1, update_elem at 1. rewrite H. simpl.
  change (mkPage _ (charts s) (events s) (pending s)) with (with_children "roi-list" ul [] s).
  assert (L : dom (with_children "roi-list" ul [] s) !! "roi-list"
              = Some (mkElement [] (value ul) (display ul) (files ul)))
    by (simpl; apply lookup_insert_eq).
  unfold bind at 1, lift.
  destruct (get_prop data "roi_names") as [v|e]; [|reflexivity].
  destruct (truthy v) eqn:T.
  - destruct v; try discriminate T; try reflexivity.
    simpl forEach. erewrite append_names by exact L.
    simpl. now rewrite with_children_twice.
  - unfold bind at 1. destruct (get_prop data "error") as [err|e]; [|reflexivity].
    unfold set_innerHTML, update_elem. rewrite L. simpl.
    f_equal. unfold with_children. simpl. now rewrite insert_insert_eq.
Qed.

Lemma shows_error_item_with_children ul ns s :
  shows_error_item (with_children "roi-list" ul ns s) <->
  exists html, ns = [Markup html] /\ Str.startsWith "<li>Error: " html = true.
Proof.
  unfold shows_error_item. simpl. split.
  - intros (el & html & L & C & P). rewrite lookup_insert_eq in L.
    inversion L; subst. simpl in C. eauto.
  - intros (html & -> & P). do 2 eexists. rewrite lookup_insert_eq. eauto.
Qed.

Lemma names_are_not_markup (l : list jsval) html :
  map (fun name => Li (textContent_of name) None) l <> [Markup html].
Proof. destruct l as [|x l]; simpl; congruence. Qed.

(** C9, as the code has it. Once the list is on the page, the error item
    shows exactly when the roi_names read of the payload succeeds with a
    falsy value: for an object payload, when the field is absent or holds
    null, false, zero or the empty string.  The empty object gives the
    single error item, an empty array of names gives an empty list. *)
Theorem C9_error_item_iff_names_falsy data s ul :
  dom s !! "roi-list" = Some ul ->
  (shows_error_item (snd (renderNameList data s)) <->
   exists v, get_prop data "roi_names" = Return v /\ truthy v = false) /\
  (forall m, data = JObj m ->
     (shows_error_item (snd (renderNameList data s)) <->
      m !! "roi_names" = None \/
      exists v, m !! "roi_names" = Some v /\ truthy v = false)) /\
  renderNameList (obj []) s
  = (Return tt, with_children "roi-list" ul [Markup "<li>Error: undefined</li>"] s) /\
  renderNameList (obj [("roi_names", JArr [])]) s
  = (Return tt, with_children "roi-list" ul [] s).
Proof.
  intros H.
  assert (G : shows_error_item (snd (renderNameList data s)) <->
              exists v, get_prop data "roi_names" = Return v /\ truthy v = false).
  { rewrite (renderNameList_run data s ul H).
    destruct (get_prop data "roi_names") as [v|e] eqn:E.
    - destruct (truthy v) eqn:T.
      + split.
        * intros S. exfalso.
          destruct v; simpl in S; apply shows_error_item_with_children in S;
            destruct S as (html & C & _); try discriminate C.
          now apply names_are_not_markup in C.
        * intros (v' & E' & T'). congruence.
      + split; [eauto|]. intros _.
        destruct (get_prop data "error") as [err|e] eqn:E2.
        * simpl. apply shows_error_item_with_children. eauto.
        * destruct data; simpl in E, E2; discriminate.
    - split.
      + intros S. simpl in S. apply shows_error_item_with_children in S.
        destruct S as (html & C & _). discriminate C.
      + intros (v & E' & _). discriminate E'. }
  split; [exact G|]. split.
  - intros m ->. rewrite G. simpl. destruct (m !! "roi_names") as [v|]; simpl.
    + split.
      * intros (v' & E & T). inversion E; subst. right. eauto.
      * intros [E|(v' & E & T)]; [discriminate|]. inversion E; subst. eauto.
    + split; [auto|]. intros _. exists JUndef. auto.
  - split; rewrite (renderNameList_run _ s ul H); reflexivity.
Qed.

(** the witness: on the application's page a payload without names, or
    with a null or empty name, shows the error item; an empty array of
    names shows an empty list *)
Lemma C9_error_item_witness :
  shows_error_item (snd (renderNameList (obj []) Fixtures.page0)) /\
  shows_error_item (snd (renderNameList Fixtures.null_names_json Fixtures.page0)) /\
  renderNameList Fixtures.no_names_json Fixtures.page0
  = (Return tt,
     with_children "roi-list" (Fixtures.list_of ["PTV"; "Bladder"]) [] Fixtures.page0).
Proof.
  split; [|split].
  - apply (proj1 (C9_error_item_iff_names_falsy (obj []) Fixtures.page0
                    (Fixtures.list_of ["PTV"; "Bladder"]) eq_refl)).
    exists JUndef. split; reflexivity.
  - apply (proj1 (C9_error_item_iff_names_falsy Fixtures.null_names_json Fixtures.page0
                    (Fixtures.list_of ["PTV"; "Bladder"]) eq_refl)).
    exists JNull. split; reflexivity.
  - exact (proj2 (proj2 (proj2 (C9_error_item_iff_names_falsy JNull Fixtures.page0
                    (Fixtures.list_of ["PTV"; "Bladder"]) eq_refl)))).
Defined.

(** C9 as worded fails: with roi_names present and null the error item
    shows although the field is not absent. *)
Lemma C9_present_null_field_shows_error_item :
  ~ (forall m s ul,
        dom s !! "roi-list" = Some ul ->
        (shows_error_item (snd (renderNameList (JObj m) s)) <-> m !! "roi_names" = None)).
Proof.
  intros H.
  assert (E : (list_to_map [("roi_names", JNull)] : gmap string jsval) !! "roi_names"
              = None).
  { apply (H _ Fixtures.page0 (Fixtures.list_of ["PTV"; "Bladder"]) eq_refl).
    do 2 eexists. vm_compute. repeat split; reflexivity. }
  vm_compute in E. discriminate E.
Qed.

(** ** The pipelines on the application's page *)

(** createPatient with a complete form: the trimmed, single-spaced name is
    sent, the fields are emptied, and the detached loadPatients redraws
    the list *)
Example createPatient_success_refreshes_list :
  let run := settle Fixtures.parse0 (createPatient Fixtures.clinic Fixtures.parse0)
               (Fixtures.page_with " 7 " " Jane " "" "Doe  ") in
  fst run = Return tt /\
  requests_of (events (snd run))
  = [createPatient_request "7" "Jane Doe" "2000-01-01" "F"; GET "/patients/load"] /\
  value <$> dom (snd run) !! "patient-id" = Some "" /\
  children <$> dom (snd run) !! "patient-list"
  = Some [Li "Jane Doe (ID: 1, DOB: 2000-01-01, Sex: F)" None].
Proof. vm_compute. repeat split; reflexivity. Qed.

(** a complete dose payload draws the three panels *)
Example fetchDoseData_success_draws_three_panels :
  let parse := Fixtures.parse_table [("dose", Fixtures.no_ct_json)] in
  let run := fetchDoseData (Fixtures.serve (Fixtures.json_response 200 "dose")) parse
               Fixtures.page0 in
  fst run = Return tt /\
  size (charts (snd run)) = 3 /\
  snd <$> charts (snd run) !! "plotly-ct-dose" = Some layout1 /\
  snd <$> charts (snd run) !! "plotly-ct-overlay" = Some layoutDoseOverlay /\
  charts (snd run) !! "plotly-dvh"
  = Some ([dvhPlot (JArr [JNum "0"; JNum "1"; JNum "2"])
             (JArr [JNum "100"; JNum "80"; JNum "20"])], layout2).
Proof.
  vm_compute. repeat split; reflexivity.
Qed.

(** loadDatasets without a server shows its own error item and resolves *)
Example loadDatasets_offline_shows_fetch_error :
  let run := loadDatasets Fixtures.offline Fixtures.parse0 Fixtures.page0 in
  fst run = Return tt /\
  children <$> dom (snd run) !! "dataset-list" = Some [Markup "<li>Fetch error</li>"].
Proof. vm_compute. split; reflexivity. Qed.

(** * Further properties of the script *)

(** ** The form toggle *)

Lemma set_elem_same id el s : dom s !! id = Some el -> set_elem id el s = s.
Proof.
  intros H. destruct s as [d c e q]. unfold set_elem. simpl in *.
  now rewrite insert_id.
Qed.

Lemma toggle_run s form :
  dom s !! "create-patient-form" = Some form ->
  toggleCreatePatientForm s =
  (Return tt,
   set_elem "create-patient-form"
     (with_display form
        (if String.eqb (display form) "none" || String.eqb (display form) ""
         then "block" else "none")) s).
Proof.
  intros H. unfold toggleCreatePatientForm, bind, getElementById, get_display, read_elem.
  rewrite !H.
  destruct (String.eqb (display form) "none" || String.eqb (display form) "");
    unfold set_display, update_elem; now rewrite H.
Qed.

(** X1. With the form on the page, toggleCreatePatientForm resolves and
    leaves the form either shown (block) or hidden (none): shown exactly
    when it was hidden or had no display yet.  A second toggle hides what
    the first showed and shows what it hid, so that from block or none two
    toggles give back the page as it was. *)
Theorem X1_toggle_flips_between_block_and_none s form :
  dom s !! "create-patient-form" = Some form ->
  let hidden := String.eqb (display form) "none" || String.eqb (display form) "" in
  let once := snd (toggleCreatePatientForm s) in
  let twice := snd (toggleCreatePatientForm once) in
  fst (toggleCreatePatientForm s) = Return tt /\
  once = set_elem "create-patient-form"
           (with_display form (if hidden then "block" else "none")) s /\
  twice = set_elem "create-patient-form"
            (with_display form (if hidden then "none" else "block")) s /\
  (display form = "block" \/ display form = "none" -> twice = s).
Proof.
  intros H hidden once twice. subst once twice. rewrite (toggle_run s form H). simpl.
  fold hidden. split; [reflexivity|]. split; [reflexivity|].
  set (d := if hidden then "block" else "none").
  assert (L : dom (set_elem "create-patient-form" (with_display form d) s)
              !! "create-patient-form" = Some (with_display form d))
    by (simpl; apply lookup_insert_eq).
  rewrite (toggle_run _ _ L). simpl.
  assert (T : set_elem "create-patient-form"
                (with_display (with_display form d)
                   (if String.eqb d "none" || String.eqb d "" then "block" else "none"))
                (set_elem "create-patient-form" (with_display form d) s)
              = set_elem "create-patient-form"
                  (with_display form (if hidden then "none" else "block")) s).
  { unfold set_elem. simpl. rewrite insert_insert_eq.
    unfold d. now destruct hidden. }
  rewrite T. split; [reflexivity|].
  intros D.
  assert (E : with_display form (if hidden then "none" else "block") = form).
  { destruct form as [c v dd f]. unfold with_display, hidden. simpl in *.
    destruct D as [-> | ->]; reflexivity. }
  rewrite E. now apply set_elem_same.
Qed.

(** the witness: the open form of the application's page is hidden by one
    toggle and back as it was after two *)
Lemma X1_toggle_witness :
  display <$> dom (snd (toggleCreatePatientForm Fixtures.page0)) !! "create-patient-form"
  = Some "none" /\
  snd (toggleCreatePatientForm (snd (toggleCreatePatientForm Fixtures.page0)))
  = Fixtures.page0.
Proof.
  destruct (X1_toggle_flips_between_block_and_none Fixtures.page0
              (mkElement [] "" "block" []) eq_refl) as (_ & E1 & _ & E2).
  split.
  - rewrite E1. reflexivity.
  - apply E2. left. reflexivity.
Defined.

(** ** Writing into elements *)

Lemma lookup_set_elem id el s : dom (set_elem id el s) !! id = Some el.
Proof. simpl. apply lookup_insert_eq. Qed.

Lemma set_elem_twice id a b s : set_elem id b (set_elem id a s) = set_elem id b s.
Proof. unfold set_elem. simpl. now rewrite insert_insert_eq. Qed.

Lemma set_innerHTML_run id el html s :
  dom s !! id = Some el ->
  set_innerHTML (Some id) html s =
  (Return tt,
   set_elem id (mkElement (if Str.is_empty html then [] else [Markup html])
                  (value el) (display el) (files el)) s).
Proof. intros H. unfold set_innerHTML, update_elem. now rewrite H. Qed.

Lemma for_each_append (g : jsval -> node) l :
  (forall x, unselected (g x)) ->
  forall id s el,
    dom s !! id = Some el ->
    for_each l (fun x => appendChild (Some id) (g x)) s =
    (Return tt,
     set_elem id (mkElement (children el ++ map g l) (value el) (display el) (files el)) s).
Proof.
  intros G id. induction l as [|x l IH]; intros s el H; simpl.
  - rewrite app_nil_r. unfold ret. f_equal. symmetry.
    destruct el. now apply set_elem_same.
  - unfold bind at 1. unfold appendChild, update_elem. rewrite H.
    erewrite IH by (simpl; apply lookup_insert_eq).
    simpl. unfold set_elem. simpl. rewrite insert_insert_eq, <- app_assoc. simpl.
    specialize (G x). destruct (g x) as [h|tx oc|v tx d [] hd]; simpl in G;
      try contradiction; reflexivity.
Qed.

(** ** Dataset lists *)

Section Datasets.

Variable net : request -> fetch_outcome.
Variable JSON_parse : string -> option jsval.

Lemma listDatasets_names s r t m dropdown names :
  net (GET "/load_data/datasets") = Arrived r ->
  body r = Some t ->
  JSON_parse t = Some (JObj m) ->
  m !! "datasets" = Some (names_json names) ->
  dom s !! "datasetDropdown" = Some dropdown ->
  listDatasets net JSON_parse s =
  (Return tt,
   set_elem "datasetDropdown"
     (mkElement (placeholder :: map (fun n => OptionEl n n false false false) names)
        "" (display dropdown) (files dropdown))
     (log s [Fetch (GET "/load_data/datasets"); JsonParse t])).
Proof.
  intros N Bd P D H. unfold listDatasets.
  rewrite fetch_json_run, N, Bd, P.
  unfold bind at 1, getElementById. simpl. rewrite H.
  unfold bind at 1. rewrite (set_innerHTML_run _ dropdown) by exact H. simpl.
  unfold bind at 1, appendChild at 1, update_elem at 1.
  rewrite lookup_set_elem. simpl.
  unfold bind at 1, lift. simpl. rewrite D. simpl.
  erewrite (for_each_append
              (fun name => OptionEl (toString name) (textContent_of name) false false false))
    by (try (simpl; apply lookup_insert_eq); intros x; exact I).
  simpl. unfold set_elem. simpl. rewrite !insert_insert_eq.
  now rewrite map_map.
Qed.

End Datasets.

(** X2. When the listing answers with an object whose datasets field is an
    array of names, listDatasets resolves with the dropdown rebuilt: the
    placeholder, selected, then one option per name in the order sent,
    whatever the dropdown held or had selected before.  On the page it
    leaves, loadSelectedDataset only asks for a selection: no request
    leaves until the user picks a dataset. *)
Theorem X2_listDatasets_rebuilds_dropdown_unselected net parse s r t m dropdown names :
  net (GET "/load_data/datasets") = Arrived r ->
  body r = Some t ->
  parse t = Some (JObj m) ->
  m !! "datasets" = Some (names_json names) ->
  dom s !! "datasetDropdown" = Some dropdown ->
  let s' := set_elem "datasetDropdown"
              (mkElement (placeholder :: map (fun n => OptionEl n n false false false) names)
                 "" (display dropdown) (files dropdown))
              (log s [Fetch (GET "/load_data/datasets"); JsonParse t]) in
  listDatasets net parse s = (Return tt, s') /\
  loadSelectedDataset net parse s' = (Return tt, log s' [Alert "Please select a dataset."]).
Proof.
  intros N Bd P D H s'. split.
  - now apply (listDatasets_names net parse s r t m dropdown names).
  - erewrite loadSelectedDataset_reads by apply lookup_set_elem. reflexivity.
Qed.

(** the witness: P001 was selected before the listing P001, P002 arrives *)
Lemma X2_listDatasets_witness :
  let net := Fixtures.serve (Fixtures.json_response 200 Fixtures.datasets_text) in
  let s' := snd (listDatasets net Fixtures.parse1 Fixtures.page_selected) in
  dom s' !! "datasetDropdown"
  = Some (mkElement [placeholder; OptionEl "P001" "P001" false false false;
                     OptionEl "P002" "P002" false false false] "" "" []) /\
  requests_of (events (snd (loadSelectedDataset net Fixtures.parse1 s')))
  = [GET "/load_data/datasets"].
Proof.
  intros net s'. subst s'.
  destruct (X2_listDatasets_rebuilds_dropdown_unselected net Fixtures.parse1
              Fixtures.page_selected (Fixtures.json_response 200 Fixtures.datasets_text)
              Fixtures.datasets_text
              (list_to_map [("datasets", names_json ["P001"; "P002"])])
              (Fixtures.field "P001") ["P001"; "P002"]
              eq_refl eq_refl eq_refl eq_refl eq_refl) as [E1 E2].
  rewrite E1. cbn [snd]. rewrite E2. split; reflexivity.
Defined.

Section DatasetList.

Variable net : request -> fetch_outcome.
Variable JSON_parse : string -> option jsval.

(** loadDatasets once the list shows that it is loading *)
Lemma loadDatasets_reads s ul :
  dom s !! "dataset-list" = Some ul ->
  loadDatasets net JSON_parse s =
  try_catch
    (res <- fetch net (GET "/load_data/datasets") ;;
     data <- response_json JSON_parse res ;;
     (set_innerHTML (Some "dataset-list") "" ;;;
      datasets <- lift (get_prop data "datasets") ;;
      if truthy datasets
      then forEach datasets (fun name =>
             appendChild (Some "dataset-list")
               (Li (textContent_of name) (Some ("Selected dataset: " +:+ toString name))))
      else
        err <- lift (get_prop data "error") ;;
        set_innerHTML (Some "dataset-list") ("<li>Error: " +:+ toString err +:+ "</li>")))
    (fun err =>
       console_error [LStr "Failed to load datasets"; LExn err] ;;;
       set_innerHTML (Some "dataset-list") "<li>Fetch error</li>")
    (set_elem "dataset-list"
       (mkElement [Markup "Loading..."] (value ul) (display ul) (files ul)) s).
Proof.
  intros H. unfold loadDatasets.
  unfold bind at 1, getElementById. rewrite H.
  unfold bind at 1. rewrite (set_innerHTML_run _ ul) by exact H. reflexivity.
Qed.

End DatasetList.

(** X3. When the listing answers with an object whose datasets field is an
    array of names, loadDatasets resolves with the dataset list holding
    one item per name in the order sent, each raising the alert
    "Selected dataset: name" when clicked, in place of the loading text
    and of whatever the list held before. *)
Theorem X3_loadDatasets_lists_every_dataset net parse s r t m ul names :
  net (GET "/load_data/datasets") = Arrived r ->
  body r = Some t ->
  parse t = Some (JObj m) ->
  m !! "datasets" = Some (names_json names) ->
  dom s !! "dataset-list" = Some ul ->
  loadDatasets net parse s =
  (Return tt,
   set_elem "dataset-list"
     (mkElement (map (fun n => Li n (Some ("Selected dataset: " +:+ n))) names)
        (value ul) (display ul) (files ul))
     (log s [Fetch (GET "/load_data/datasets"); JsonParse t])).
Proof.
  intros N Bd P D H. rewrite (loadDatasets_reads net parse s ul H).
  unfold try_catch. rewrite fetch_json_run, N, Bd, P.
  unfold bind at 1. erewrite set_innerHTML_run by (simpl; apply lookup_insert_eq).
  unfold bind at 1, lift. simpl. rewrite D. simpl.
  erewrite (for_each_append
              (fun name => Li (textContent_of name)
                             (Some ("Selected dataset: " +:+ toString name))))
    by (try (simpl; apply lookup_insert_eq); intros x; exact I).
  simpl. unfold set_elem. simpl. rewrite !insert_insert_eq.
  now rewrite map_map.
Qed.

(** the witness: the listing P001, P002 replaces the former item *)
Lemma X3_loadDatasets_witness :
  dom (snd (loadDatasets (Fixtures.serve (Fixtures.json_response 200 Fixtures.datasets_text))
              Fixtures.parse1 Fixtures.page0)) !! "dataset-list"
  = Some (mkElement [Li "P001" (Some "Selected dataset: P001");
                     Li "P002" (Some "Selected dataset: P002")] "" "" []).
Proof.
  rewrite (X3_loadDatasets_lists_every_dataset
             (Fixtures.serve (Fixtures.json_response 200 Fixtures.datasets_text))
             Fixtures.parse1 Fixtures.page0
             (Fixtures.json_response 200 Fixtures.datasets_text) Fixtures.datasets_text
             (list_to_map [("datasets", names_json ["P001"; "P002"])])
             (Fixtures.list_of ["P001"]) ["P001"; "P002"]
             eq_refl eq_refl eq_refl eq_refl eq_refl).
  reflexivity.
Defined.

(** X4. When the JSON of the listing cannot be had (the request does not
    complete, the body cannot be read, or the text is not JSON),
    loadDatasets still resolves: it logs the failure and the dataset list
    shows the single item "Fetch error" in place of the loading text. *)
Theorem X4_loadDatasets_shows_fetch_error net parse s ul :
  dom s !! "dataset-list" = Some ul ->
  json_unavailable net parse (GET "/load_data/datasets") ->
  exists e es,
    loadDatasets net parse s =
    (Return tt,
     set_elem "dataset-list"
       (mkElement [Markup "<li>Fetch error</li>"] (value ul) (display ul) (files ul))
       (log s (es ++ [ConsoleError [LStr "Failed to load datasets"; LExn e]]))) /\
    forall t, In (JsonParse t) es -> parse t = None.
Proof.
  intros H U. rewrite (loadDatasets_reads net parse s ul H). unfold try_catch.
  match goal with |- context [bind (fetch net ?q) ?k ?s1] =>
    destruct (json_unavailable_run net parse q
                (fun data => (set_innerHTML (Some "dataset-list") "" ;;;
      datasets <- lift (get_prop data "datasets") ;;
      if truthy datasets
      then forEach datasets (fun name =>
             appendChild (Some "dataset-list")
               (Li (textContent_of name) (Some ("Selected dataset: " +:+ toString name))))
      else
        err <- lift (get_prop data "error") ;;
        set_innerHTML (Some "dataset-list") ("<li>Error: " +:+ toString err +:+ "</li>"))%js)
                s1 U) as (e & es & E & Pn)
  end.
  rewrite E. exists e, es. split; [|exact Pn].
  unfold bind at 1, console_error, emit. cbv beta iota.
  erewrite set_innerHTML_run by (simpl; apply lookup_insert_eq).
  simpl. unfold set_elem, log. simpl. rewrite insert_insert_eq, app_assoc. reflexivity.
Qed.

(** the witness: no server in reach *)
Lemma X4_loadDatasets_offline_witness :
  exists e es,
    loadDatasets Fixtures.offline Fixtures.parse0 Fixtures.page0 =
    (Return tt,
     set_elem "dataset-list" (mkElement [Markup "<li>Fetch error</li>"] "" "" [])
       (log Fixtures.page0 (es ++ [ConsoleError [LStr "Failed to load datasets"; LExn e]]))) /\
    forall t, In (JsonParse t) es -> Fixtures.parse0 t = None.
Proof.
  exact (X4_loadDatasets_shows_fetch_error Fixtures.offline Fixtures.parse0 Fixtures.page0
           (Fixtures.list_of ["P001"]) eq_refl I).
Defined.

(** X5. When the listing answers with an object that has no datasets
    field, loadDatasets shows one error item carrying the text of the
    error field (undefined when there is none), while listDatasets leaves
    the dropdown with the placeholder alone and only logs the error: both
    resolve. *)
Theorem X5_dataset_error_payload net parse s r t m ul dropdown :
  net (GET "/load_data/datasets") = Arrived r ->
  body r = Some t ->
  parse t = Some (JObj m) ->
  m !! "datasets" = None ->
  dom s !! "dataset-list" = Some ul ->
  dom s !! "datasetDropdown" = Some dropdown ->
  let err := default JUndef (m !! "error") in
  loadDatasets net parse s =
  (Return tt,
   set_elem "dataset-list"
     (mkElement [Markup ("<li>Error: " +:+ toString err +:+ "</li>")]
        (value ul) (display ul) (files ul))
     (log s [Fetch (GET "/load_data/datasets"); JsonParse t])) /\
  listDatasets net parse s =
  (Return tt,
   set_elem "datasetDropdown"
     (mkElement [placeholder] "" (display dropdown) (files dropdown))
     (log s [Fetch (GET "/load_data/datasets"); JsonParse t;
             ConsoleError [LStr "Error loading datasets:"; LVal err]])).
Proof.
  intros N Bd P D Hl Hd err. split.
  - rewrite (loadDatasets_reads net parse s ul Hl).
    unfold try_catch. rewrite fetch_json_run, N, Bd, P.
    unfold bind, lift, set_innerHTML, update_elem. simpl. rewrite D. simpl.
    repeat (rewrite lookup_insert_eq; simpl).
    unfold set_elem. simpl. now rewrite !insert_insert_eq.
  - unfold listDatasets. rewrite fetch_json_run, N, Bd, P.
    unfold bind at 1, getElementById. simpl. rewrite Hd.
    unfold bind at 1. rewrite (set_innerHTML_run _ dropdown) by exact Hd. simpl.
    unfold bind at 1, appendChild at 1, update_elem at 1.
    rewrite lookup_set_elem. simpl.
    unfold bind at 1, lift. simpl. rewrite D. simpl.
    unfold bind, console_error, emit, set_elem, log. simpl. rewrite !insert_insert_eq.
    repeat rewrite <- app_assoc. reflexivity.
Qed.

(** the witness: the listing answers 500 with [{"error":"boom"}] *)
Lemma X5_dataset_error_witness :
  let net := Fixtures.serve (Fixtures.json_response 500 Fixtures.error_text) in
  children <$> dom (snd (loadDatasets net Fixtures.parse0 Fixtures.page0)) !! "dataset-list"
  = Some [Markup "<li>Error: boom</li>"] /\
  children <$> dom (snd (listDatasets net Fixtures.parse0 Fixtures.page0)) !! "datasetDropdown"
  = Some [placeholder].
Proof.
  intros net.
  destruct (X5_dataset_error_payload net Fixtures.parse0 Fixtures.page0
              (Fixtures.json_response 500 Fixtures.error_text) Fixtures.error_text
              (list_to_map [("error", JStr "boom")])
              (Fixtures.list_of ["P001"]) (Fixtures.field "")
              eq_refl eq_refl eq_refl eq_refl eq_refl eq_refl) as [E1 E2].
  rewrite E1, E2. split; reflexivity.
Defined.

(** ** ROI lists *)

Lemma names_as_items names :
  map (fun name => Li (textContent_of name) None) (map JStr names)
  = map (fun n => Li n None) names.
Proof. now rewrite map_map. Qed.

(** X6. uploadDicomFolder posts one dicom_folder entry per selected file,
    in the order of the selection (none when nothing is selected), and
    when the answer is an object whose roi_names field is an array of
    names it resolves with the ROI list holding one item per name in the
    order sent, in place of what the list held. *)
Theorem X6_uploadDicomFolder_lists_rois net parse s r t m input ul names :
  dom s !! "dicom-folder" = Some input ->
  dom s !! "roi-list" = Some ul ->
  net (uploadDicomFolder_request (files input)) = Arrived r ->
  body r = Some t ->
  parse t = Some (JObj m) ->
  m !! "roi_names" = Some (names_json names) ->
  uploadDicomFolder net parse s =
  (Return tt,
   with_children "roi-list" ul (map (fun n => Li n None) names)
     (log s [Fetch (mkRequest "POST" "/roi/upload_dicom" None
                      (FormData (map (fun f => ("dicom_folder", f)) (files input))));
             JsonParse t])).
Proof.
  intros Hi Hu N Bd P D.
  rewrite (uploadDicomFolder_reads net parse s input Hi).
  rewrite fetch_json_run, N, Bd, P.
  rewrite (renderNameList_run _ _ ul) by exact Hu.
  simpl get_prop. rewrite D. simpl. now rewrite names_as_items.
Qed.

(** the witness: two files selected, two regions found *)
Lemma X6_uploadDicomFolder_witness :
  let run := uploadDicomFolder (Fixtures.serve (Fixtures.json_response 200 Fixtures.rois_text))
               Fixtures.parse1 Fixtures.page0 in
  requests_of (events (snd run))
  = [mkRequest "POST" "/roi/upload_dicom" None
       (FormData [("dicom_folder", "CT.1.dcm"); ("dicom_folder", "RS.1.dcm")])] /\
  children <$> dom (snd run) !! "roi-list" = Some [Li "PTV" None; Li "Heart" None].
Proof.
  intros run. subst run.
  rewrite (X6_uploadDicomFolder_lists_rois
             (Fixtures.serve (Fixtures.json_response 200 Fixtures.rois_text))
             Fixtures.parse1 Fixtures.page0
             (Fixtures.json_response 200 Fixtures.rois_text) Fixtures.rois_text
             (list_to_map [("roi_names", names_json ["PTV"; "Heart"])])
             (mkElement [] "" "" ["CT.1.dcm"; "RS.1.dcm"])
             (Fixtures.list_of ["PTV"; "Bladder"]) ["PTV"; "Heart"]
             eq_refl eq_refl eq_refl eq_refl eq_refl eq_refl).
  split; reflexivity.
Defined.

(** X7. With a dataset selected, loadSelectedDataset sends the single
    request GET /load_data/<selected value>; when the answer is an object
    without roi_names whose error field is a text, it resolves with the
    ROI list holding the one error item, the text spliced into the markup
    as it came. *)
Theorem X7_loadSelectedDataset_shows_server_error net parse s r t m dropdown ul msg :
  dom s !! "datasetDropdown" = Some dropdown ->
  value dropdown <> "" ->
  dom s !! "roi-list" = Some ul ->
  net (GET ("/load_data/" +:+ value dropdown)) = Arrived r ->
  body r = Some t ->
  parse t = Some (JObj m) ->
  m !! "roi_names" = None ->
  m !! "error" = Some (JStr msg) ->
  loadSelectedDataset net parse s =
  (Return tt,
   with_children "roi-list" ul [Markup ("<li>Error: " +:+ msg +:+ "</li>")]
     (log s [Fetch (GET ("/load_data/" +:+ value dropdown)); JsonParse t])).
Proof.
  intros Hd V Hu N Bd P D E.
  rewrite (loadSelectedDataset_reads net parse s dropdown Hd), (is_empty_false _ V).
  rewrite fetch_json_run, N, Bd, P.
  rewrite (renderNameList_run _ _ ul) by exact Hu.
  simpl get_prop. rewrite D, E. reflexivity.
Qed.

(** the witness: P001 is selected and the server answers 404 with
    [{"error":"boom"}] *)
Lemma X7_loadSelectedDataset_witness :
  let run := loadSelectedDataset
               (Fixtures.serve (Fixtures.json_response 404 Fixtures.error_text))
               Fixtures.parse0 Fixtures.page_selected in
  requests_of (events (snd run)) = [GET "/load_data/P001"] /\
  children <$> dom (snd run) !! "roi-list" = Some [Markup "<li>Error: boom</li>"].
Proof.
  intros run. subst run.
  rewrite (X7_loadSelectedDataset_shows_server_error
             (Fixtures.serve (Fixtures.json_response 404 Fixtures.error_text))
             Fixtures.parse0 Fixtures.page_selected
             (Fixtures.json_response 404 Fixtures.error_text) Fixtures.error_text
             (list_to_map [("error", JStr "boom")])
             (Fixtures.field "P001") (Fixtures.list_of ["PTV"; "Bladder"]) "boom"
             eq_refl ltac:(discriminate) eq_refl eq_refl eq_refl eq_refl eq_refl eq_refl).
  split; reflexivity.
Defined.

(** X8. What renderNameList makes of a payload does not depend on what the
    list held: the outcome and the new content are fixed by the payload
    alone.  Hence drawing the same payload a second time leaves the
    elements of the page as the first drawing left them. *)
Theorem X8_renderNameList_depends_on_payload_only data :
  exists o ns,
    (forall s ul,
        dom s !! "roi-list" = Some ul ->
        renderNameList data s = (o, with_children "roi-list" ul ns s)) /\
    (forall s ul,
        dom s !! "roi-list" = Some ul ->
        dom (snd (renderNameList data (snd (renderNameList data s))))
        = dom (snd (renderNameList data s))).
Proof.
  assert (G : exists o ns, forall s ul,
               dom s !! "roi-list" = Some ul ->
               renderNameList data s = (o, with_children "roi-list" ul ns s)).
  { destruct (get_prop data "roi_names") as [v|e] eqn:E.
    - destruct (truthy v) eqn:T.
      + destruct v; try discriminate T;
          do 2 eexists; intros pg ul H;
          rewrite (renderNameList_run _ _ ul H), E, T; reflexivity.
      + destruct (get_prop data "error") as [err|e] eqn:E2;
          do 2 eexists; intros s ul H;
          rewrite (renderNameList_run _ _ ul H), E, T, E2; reflexivity.
    - do 2 eexists; intros s ul H.
      rewrite (renderNameList_run _ _ ul H), E. reflexivity. }
  destruct G as (o & ns & G). exists o, ns. split; [exact G|].
  intros s ul H. rewrite (G s ul H). simpl snd.
  erewrite G by (simpl; apply lookup_insert_eq).
  simpl. now rewrite insert_insert_eq.
Qed.

(** the witness: the empty-object payload drawn twice on the
    application's page *)
Lemma X8_renderNameList_witness :
  dom (snd (renderNameList (obj []) (snd (renderNameList (obj []) Fixtures.page0))))
  = dom (snd (renderNameList (obj []) Fixtures.page0)).
Proof.
  destruct (X8_renderNameList_depends_on_payload_only (obj [])) as (o & ns & _ & I2).
  exact (I2 Fixtures.page0 (Fixtures.list_of ["PTV"; "Bladder"]) eq_refl).
Defined.

(** ** Patient lists that are not lists of records *)

Section PatientList.

Variable net : request -> fetch_outcome.
Variable JSON_parse : string -> option jsval.

(** loadPatients once the answer is parsed *)
Lemma loadPatients_parsed s r t data list :
  net (GET "/patients/load") = Arrived r ->
  body r = Some t ->
  JSON_parse t = Some data ->
  dom s !! "patient-list" = Some list ->
  loadPatients net JSON_parse s =
  forEach data (fun p =>
      line <- lift (patient_line p) ;;
      appendChild (Some "patient-list") (Li line None))
    (with_children "patient-list" list []
       (log s [Fetch (GET "/patients/load"); JsonParse t])).
Proof.
  intros N Bd P H. rewrite loadPatients_as_fetch, fetch_json_run, N, Bd, P.
  unfold bind at 1, getElementById. simpl. rewrite H.
  unfold bind at 1. erewrite set_innerHTML_run by exact H. reflexivity.
Qed.

Lemma for_each_app l1 l2 (f : jsval -> js unit) s :
  for_each (l1 ++ l2) f s =
  match for_each l1 f s with
  | (Return _, s1) => for_each l2 f s1
  | (Throw e, s1) => (Throw e, s1)
  end.
Proof.
  revert s. induction l1 as [|x l1 IH]; intros s; simpl; [reflexivity|].
  unfold bind. destruct (f x s) as [[[]|e] s1]; [apply IH|reflexivity].
Qed.

End PatientList.

(** X9. When the patient listing parses to anything but an array (an
    error object, a text, a number, null), loadPatients empties the
    patient list and rejects with a TypeError: the former entries are gone
    and nothing is shown in their place. *)
Theorem X9_loadPatients_rejects_non_array net parse s r t data list :
  net (GET "/patients/load") = Arrived r ->
  body r = Some t ->
  parse t = Some data ->
  is_array data = false ->
  dom s !! "patient-list" = Some list ->
  exists msg,
    loadPatients net parse s =
    (Throw (TypeError msg),
     with_children "patient-list" list []
       (log s [Fetch (GET "/patients/load"); JsonParse t])).
Proof.
  intros N Bd P A H. rewrite (loadPatients_parsed net parse s r t data list N Bd P H).
  destruct data; try discriminate A; eexists; reflexivity.
Qed.

(** the witness: the listing answers 500 with [{"error":"boom"}] *)
Lemma X9_loadPatients_error_object_witness :
  exists msg,
    loadPatients (Fixtures.serve (Fixtures.json_response 500 Fixtures.error_text))
      Fixtures.parse0 Fixtures.page0 =
    (Throw (TypeError msg),
     with_children "patient-list" (Fixtures.list_of ["Old Entry (ID: 0, DOB: , Sex: )"]) []
       (log Fixtures.page0 [Fetch (GET "/patients/load"); JsonParse Fixtures.error_text])).
Proof.
  exact (X9_loadPatients_rejects_non_array
           (Fixtures.serve (Fixtures.json_response 500 Fixtures.error_text))
           Fixtures.parse0 Fixtures.page0
           (Fixtures.json_response 500 Fixtures.error_text) Fixtures.error_text
           Fixtures.error_json (Fixtures.list_of ["Old Entry (ID: 0, DOB: , Sex: )"])
           eq_refl eq_refl eq_refl eq_refl eq_refl).
Defined.

(** X10. When the listing is an array with a null entry, loadPatients
    shows the records that come before the null, then rejects on reading
    its name: the records after it are never shown, the list is left half
    drawn. *)
Theorem X10_loadPatients_stops_at_null_entry net parse s r t list before rest :
  net (GET "/patients/load") = Arrived r ->
  body r = Some t ->
  parse t = Some (JArr (map json_of_patient before ++ JNull :: rest)) ->
  dom s !! "patient-list" = Some list ->
  loadPatients net parse s =
  (Throw (TypeError "Cannot read properties of null (reading 'name')"),
   with_children "patient-list" list (map (fun p => Li (patient_entry p) None) before)
     (log s [Fetch (GET "/patients/load"); JsonParse t])).
Proof.
  intros N Bd P H. rewrite (loadPatients_parsed net parse s r t _ list N Bd P H).
  simpl forEach. rewrite for_each_app.
  erewrite append_patient_lines by (simpl; apply lookup_insert_eq).
  simpl. unfold with_children. simpl. now rewrite insert_insert_eq.
Qed.

(** the witness: Jane Doe, then null, then Jane Doe again *)
Lemma X10_loadPatients_null_entry_witness :
  let parse := Fixtures.parse_table
                 [("listing", JArr [json_of_patient Fixtures.jane; JNull;
                                    json_of_patient Fixtures.jane])] in
  let run := loadPatients (Fixtures.serve (Fixtures.json_response 200 "listing")) parse
               Fixtures.page0 in
  children <$> dom (snd run) !! "patient-list"
  = Some [Li "Jane Doe (ID: 1, DOB: 2000-01-01, Sex: F)" None].
Proof.
  intros parse run. subst run.
  rewrite (X10_loadPatients_stops_at_null_entry
             (Fixtures.serve (Fixtures.json_response 200 "listing")) parse Fixtures.page0
             (Fixtures.json_response 200 "listing") "listing"
             (Fixtures.list_of ["Old Entry (ID: 0, DOB: , Sex: )"])
             [Fixtures.jane] [json_of_patient Fixtures.jane]
             eq_refl eq_refl eq_refl eq_refl).
  reflexivity.
Defined.

(** ** The dose pipeline *)

(** X11. When the dose endpoint answers 2xx with an object whose dvh field
    is itself an object, fetchDoseData resolves with the three panels
    drawn from that one payload: CT, contour and dose on the first, the
    histogram of dvh.dose_values against dvh.volume_percentages on the
    second, CT, dose and mask on the third.  A slice the payload lacks is
    drawn as undefined; no element of the page changes. *)
Theorem X11_fetchDoseData_draws_three_panels net parse s r t m h :
  net (GET "/plotly/compute_dose") = Arrived r ->
  ok r = true ->
  body r = Some t ->
  parse t = Some (JObj m) ->
  m !! "dvh" = Some (JObj h) ->
  let b := mkBundle (default JUndef (m !! "ct_slice")) (default JUndef (m !! "mask_slice"))
             (default JUndef (m !! "dose_slice")) (JObj h) in
  fetchDoseData net parse s =
  (Return tt,
   mkPage (dom s)
     (<["plotly-ct-overlay" := ([ctLayer b; doseLayer b; maskLayer b], layoutDoseOverlay)]>
        (<["plotly-dvh" :=
             ([dvhPlot (default JUndef (h !! "dose_values"))
                 (default JUndef (h !! "volume_percentages"))], layout2)]>
           (<["plotly-ct-dose" := ([heatmap b; maskContour b; doseMap b], layout1)]>
              (charts s))))
     (events s ++
        [ConsoleLog [LStr "Running fetchDoseData"];
         Fetch (GET "/plotly/compute_dose");
         JsonParse t;
         ConsoleLog [LStr "Received dose data:"; LVal (JObj m)];
         ConsoleLog [LStr "Finished plotting dose data"]])
     (pending s)).
Proof.
  intros N O Bd P D b.
  unfold fetchDoseData, fetch, issue, response_json, response_text, JSON_parse_js,
    console_log, console_error, try_catch, bind, emit, ret, await_response, throw, lift.
  simpl. rewrite N. simpl. rewrite O. simpl. rewrite Bd. simpl. rewrite P. simpl.
  rewrite D. simpl. now rewrite <- !app_assoc.
Qed.

(** the witness: a payload without ct_slice still draws the three panels *)
Lemma X11_fetchDoseData_witness :
  let parse := Fixtures.parse_table [("dose", Fixtures.no_ct_json)] in
  let run := fetchDoseData (Fixtures.serve (Fixtures.json_response 200 "dose")) parse
               Fixtures.page0 in
  size (charts (snd run)) = 3 /\ dom (snd run) = dom Fixtures.page0.
Proof.
  intros parse run. subst run.
  rewrite (X11_fetchDoseData_draws_three_panels
             (Fixtures.serve (Fixtures.json_response 200 "dose")) parse Fixtures.page0
             (Fixtures.json_response 200 "dose") "dose"
             (list_to_map
                [("mask_slice", Fixtures.grid); ("dose_slice", Fixtures.grid);
                 ("dvh", obj [("dose_values", JArr [JNum "0"; JNum "1"; JNum "2"]);
                              ("volume_percentages",
                               JArr [JNum "100"; JNum "80"; JNum "20"])])])
             (list_to_map
                [("dose_values", JArr [JNum "0"; JNum "1"; JNum "2"]);
                 ("volume_percentages", JArr [JNum "100"; JNum "80"; JNum "20"])])
             eq_refl eq_refl eq_refl eq_refl eq_refl).
  split; [vm_compute|]; reflexivity.
Defined.

Lemma fetchDoseData_cases net parse s :
  exists es,
    fetchDoseData net parse s =
    (Return tt,
     mkPage (dom s) (charts (snd (fetchDoseData net parse s)))
       (events s ++ ConsoleLog [LStr "Running fetchDoseData"]
                    :: Fetch (GET "/plotly/compute_dose") :: es)
       (pending s)) /\
    requests_of es = [] /\ alerts_of es = [].
Proof.
  unfold fetchDoseData, fetch, issue, response_json, response_text, JSON_parse_js,
    console_log, console_error, try_catch, bind, emit, ret, await_response, throw, lift,
    renderDoseViews, newPlot, shapeDoseBundle.
  simpl.
  destruct (net (GET "/plotly/compute_dose")) as [|r]; simpl;
    [eexists; rewrite <- !app_assoc; simpl; repeat split; reflexivity|].
  destruct (ok r); simpl;
    [|eexists; rewrite <- !app_assoc; simpl; repeat split; reflexivity].
  destruct (body r) as [t|]; simpl;
    [|eexists; rewrite <- !app_assoc; simpl; repeat split; reflexivity].
  destruct (parse t) as [data|]; simpl;
    [|eexists; rewrite <- !app_assoc; simpl; repeat split; reflexivity].
  destruct (get_prop data "ct_slice"); simpl;
    [|eexists; rewrite <- !app_assoc; simpl; repeat split; reflexivity].
  destruct (get_prop data "mask_slice"); simpl;
    [|eexists; rewrite <- !app_assoc; simpl; repeat split; reflexivity].
  destruct (get_prop data "dose_slice"); simpl;
    [|eexists; rewrite <- !app_assoc; simpl; repeat split; reflexivity].
  destruct (get_prop data "dvh") as [d|]; simpl;
    [|eexists; rewrite <- !app_assoc; simpl; repeat split; reflexivity].
  destruct (get_prop d "dose_values"); simpl;
    [|eexists; rewrite <- !app_assoc; simpl; repeat split; reflexivity].
  destruct (get_prop d "volume_percentages"); simpl;
    eexists; rewrite <- !app_assoc; simpl; repeat split; reflexivity.
Qed.

(** X12. Whatever the server answers and whatever the parser makes of it,
    fetchDoseData resolves, sends the one request GET /plotly/compute_dose,
    raises no alert and leaves every element of the page and the detached
    work as they were: its failures only reach the console. *)
Theorem X12_fetchDoseData_is_quiet net parse s :
  let run := fetchDoseData net parse s in
  fst run = Return tt /\
  dom (snd run) = dom s /\
  pending (snd run) = pending s /\
  exists es,
    events (snd run) = events s ++ es /\
    requests_of es = [GET "/plotly/compute_dose"] /\
    alerts_of es = [].
Proof.
  intros run. subst run.
  destruct (fetchDoseData_cases net parse s) as (es & E & R & A).
  rewrite E. simpl. repeat split.
  exists ([ConsoleLog [LStr "Running fetchDoseData"]; Fetch (GET "/plotly/compute_dose")]
          ++ es).
  split; [reflexivity|].
  rewrite requests_of_app, R. unfold alerts_of. rewrite omap_app.
  fold (alerts_of es). rewrite A. split; reflexivity.
Qed.

(** ** Creating a patient *)

Ltac form_lookups F :=
  let H1 := fresh "Hid" in let H2 := fresh "Hfirst" in let H3 := fresh "Hmiddle" in
  let H4 := fresh "Hlast" in let H5 := fresh "Hdob" in let H6 := fresh "Hsex" in
  destruct F as (H1 & H2 & H3 & H4 & H5 & H6).

Section Creation.

Variable net : request -> fetch_outcome.
Variable JSON_parse : string -> option jsval.

Lemma fetch_arrived req r s :
  net req = Arrived r -> fetch net req s = (Return r, log s [Fetch req]).
Proof. intros N. unfold fetch, issue, bind, emit, ret, await_response. simpl. now rewrite N. Qed.

Lemma response_text_run r t s : body r = Some t -> response_text r s = (Return t, s).
Proof. intros B. unfold response_text. now rewrite B. Qed.

Lemma parse_guarded_ok (h : exn -> js (option jsval)) t data s :
  JSON_parse t = Some data ->
  try_catch (d <- JSON_parse_js JSON_parse t ;; ret (Some d)) h s
  = (Return (Some data), log s [JsonParse t]).
Proof.
  intros P. unfold try_catch, JSON_parse_js, bind, emit, ret. simpl. now rewrite P.
Qed.

Lemma try_catch_return {A} (m : js A) h s a s' :
  m s = (Return a, s') -> try_catch m h s = (Return a, s').
Proof. intros E. unfold try_catch. now rewrite E. Qed.

Lemma clear_value_run id el s :
  dom s !! id = Some el -> clear_value id s = (Return tt, set_elem id (cleared el) s).
Proof.
  intros H. unfold clear_value, bind, getElementById, set_value, update_elem.
  now rewrite !H.
Qed.

(** lines 305-313: the success branch *)
Lemma createPatient_after_parse_ok r data s id first middle last dob sex :
  form_fields s id first middle last dob sex ->
  ok r = true ->
  createPatient_after_parse net r data s =
  (Return tt,
   mkPage
     (<["patient-sex" := cleared sex]>
        (<["patient-dob" := cleared dob]>
           (<["patient-last-name" := cleared last]>
              (<["patient-middle-name" := cleared middle]>
                 (<["patient-first-name" := cleared first]>
                    (<["patient-id" := cleared id]> (dom s)))))))
     (charts s)
     (events s ++ [Alert "Patient created successfully!"; Fetch (GET "/patients/load")])
     (pending s ++ [ResumeLoadPatients (net (GET "/patients/load"))])).
Proof.
  intros F O. form_lookups F. unfold createPatient_after_parse. rewrite O.
  unfold bind at 1, alert, emit. cbv beta iota.
  unfold bind at 1, loadPatients_detached, issue, defer, emit, ret, bind at 1 2.
  cbv beta iota. simpl events. simpl pending. simpl dom. simpl charts.
  rewrite <- app_assoc. simpl app.
  erewrite bind_return by (apply clear_value_run; simpl; exact Hid).
  erewrite bind_return
    by (apply clear_value_run; simpl; rewrite lookup_insert_ne by done; exact Hfirst).
  erewrite bind_return
    by (apply clear_value_run; simpl; rewrite !lookup_insert_ne by done; exact Hmiddle).
  erewrite bind_return
    by (apply clear_value_run; simpl; rewrite !lookup_insert_ne by done; exact Hlast).
  erewrite bind_return
    by (apply clear_value_run; simpl; rewrite !lookup_insert_ne by done; exact Hdob).
  erewrite clear_value_run
    by (simpl; rewrite !lookup_insert_ne by done; exact Hsex).
  reflexivity.
Qed.

(** createPatient when the answer is taken for a success *)
Lemma createPatient_accepted_run s id first middle last dob sex :
  form_fields s id first middle last dob sex ->
  required_filled id first last ->
  creation_accepted JSON_parse (net (creation_request id first middle last dob sex)) = true ->
  exists t,
    createPatient net JSON_parse s =
    (Return tt,
     mkPage
       (form_emptied id first middle last dob sex (dom s))
       (charts s)
       (events s ++
          [Fetch (creation_request id first middle last dob sex);
           JsonParse t;
           Alert "Patient created successfully!";
           Fetch (GET "/patients/load")])
       (pending s ++ [ResumeLoadPatients (net (GET "/patients/load"))])).
Proof.
  intros F (Vi & Vf & Vl) A.
  rewrite (createPatient_reads net JSON_parse _ _ _ _ _ _ _ F). cbv zeta.
  rewrite (is_empty_false _ Vi), (is_empty_false _ Vf), (is_empty_false _ Vl).
  cbv [orb]. fold (creation_request id first middle last dob sex).
  unfold creation_accepted in A.
  destruct (net (creation_request id first middle last dob sex)) as [|r] eqn:N;
    [discriminate|].
  apply andb_true_iff in A as [A A3]. apply andb_true_iff in A as [O C].
  destruct (body r) as [t|] eqn:Bd; [|discriminate].
  apply andb_true_iff in A3 as [B P]. apply negb_true_iff in B.
  destruct (JSON_parse t) as [data|] eqn:Pt; [|discriminate].
  exists t.
  apply try_catch_return.
  erewrite bind_return by (apply fetch_arrived; exact N).
  rewrite C. cbn [negb].
  erewrite bind_return by (apply response_text_run; exact Bd).
  apply orb_false_iff in B as [B1 B2]. rewrite B1, B2.
  erewrite bind_return by (apply parse_guarded_ok; exact Pt).
  cbv beta iota.
  erewrite createPatient_after_parse_ok by (try exact O; exact F).
  unfold form_emptied. simpl. now rewrite <- !app_assoc.
Qed.

(** X13. With the required fields filled in and an answer taken for a
    success, createPatient sends the one creation request built from the
    trimmed fields, announces the success, starts the refresh of the
    patient list without waiting for it, and empties the six fields;
    nothing else on the page changes. *)
Theorem X13_createPatient_success_clears_form s id first middle last dob sex :
  form_fields s id first middle last dob sex ->
  required_filled id first last ->
  creation_accepted JSON_parse (net (creation_request id first middle last dob sex)) = true ->
  exists t,
    createPatient net JSON_parse s =
    (Return tt,
     mkPage (form_emptied id first middle last dob sex (dom s)) (charts s)
       (events s ++
          [Fetch (creation_request id first middle last dob sex);
           JsonParse t;
           Alert "Patient created successfully!";
           Fetch (GET "/patients/load")])
       (pending s ++ [ResumeLoadPatients (net (GET "/patients/load"))])).
Proof. exact (createPatient_accepted_run s id first middle last dob sex). Qed.

Ltac failed_creation :=
  do 2 eexists; rewrite <- ?app_assoc; simpl;
  split; [reflexivity|]; repeat split; reflexivity.

(** X14. With the required fields filled in and an answer that is not
    taken for a success (no answer, an unreadable or blank body, a content
    type that is not JSON, a text that does not parse, a status that is not
    2xx), createPatient resolves after the one creation request and one
    alert, its last event, that starts with "Error: "; the form keeps what
    the user typed, nothing on the page changes and no refresh is
    started. *)
Theorem X14_createPatient_failure_keeps_form s id first middle last dob sex :
  form_fields s id first middle last dob sex ->
  required_filled id first last ->
  creation_accepted JSON_parse (net (creation_request id first middle last dob sex)) = false ->
  exists es msg,
    createPatient net JSON_parse s = (Return tt, log s es) /\
    requests_of es = [creation_request id first middle last dob sex] /\
    alerts_of es = [msg] /\
    List.last es (Alert "") = Alert msg /\
    Str.startsWith "Error: " msg = true.
Proof.
  intros F (Vi & Vf & Vl) A.
  rewrite (createPatient_reads net JSON_parse _ _ _ _ _ _ _ F). cbv zeta.
  rewrite (is_empty_false _ Vi), (is_empty_false _ Vf), (is_empty_false _ Vl).
  cbv [orb]. fold (creation_request id first middle last dob sex).
  unfold creation_accepted in A.
  unfold try_catch, fetch, issue, await_response, response_text, JSON_parse_js,
    createPatient_after_parse, alert, console_error, bind, emit, ret, throw, lift, log.
  simpl.
  destruct (net (creation_request id first middle last dob sex)) as [|r]; simpl;
    [failed_creation|].
  destruct (has_json_content_type r); simpl.
  - destruct (body r) as [t|]; simpl; [|failed_creation].
    destruct (Str.is_empty t); simpl; [failed_creation|].
    destruct (Str.is_empty (Str.trim t)); simpl; [failed_creation|].
    destruct (JSON_parse t) as [data|]; simpl; [|failed_creation].
    destruct (ok r); simpl; [discriminate A|].
    destruct (get_prop data "error") as [e|x]; simpl; [|failed_creation].
    destruct (truthy e); simpl; [failed_creation|].
    destruct (get_prop data "message") as [m|x]; simpl; failed_creation.
  - destruct (body r) as [t|]; simpl; failed_creation.
Qed.

(** createPatient up to the answer, with the required fields filled in *)
Lemma createPatient_answered s id first middle last dob sex r t :
  form_fields s id first middle last dob sex ->
  required_filled id first last ->
  net (creation_request id first middle last dob sex) = Arrived r ->
  body r = Some t ->
  createPatient net JSON_parse s =
  if has_json_content_type r
  then
    if Str.is_empty t || Str.is_empty (Str.trim t)
    then
      (Return tt,
       log s [Fetch (creation_request id first middle last dob sex);
              ConsoleError [LStr "Empty response from server"];
              Alert ("Error: Empty response from server. Status: "
                     +:+ Str.of_nat (status r))])
    else
      match JSON_parse t with
      | None =>
          (Return tt,
           log s [Fetch (creation_request id first middle last dob sex);
                  JsonParse t;
                  ConsoleError [LStr "JSON parse error:";
                                LExn (SyntaxError "Unexpected token in JSON");
                                LStr "Response text:"; LStr t];
                  Alert ("Error: Invalid JSON response from server. Status: "
                         +:+ Str.of_nat (status r))])
      | Some data =>
          try_catch (createPatient_after_parse net r data)
            (fun error =>
               console_error [LStr "Error creating patient:"; LExn error] ;;;
               alert ("Error: Failed to create patient. " +:+ message error))
            (log s [Fetch (creation_request id first middle last dob sex); JsonParse t])
      end
  else
    (Return tt,
     log s [Fetch (creation_request id first middle last dob sex);
            ConsoleError [LStr "Non-JSON response:"; LStr t];
            Alert ("Error: Server returned non-JSON response. Status: "
                   +:+ Str.of_nat (status r))]).
Proof.
  intros F (Vi & Vf & Vl) N Bd.
  rewrite (createPatient_reads net JSON_parse _ _ _ _ _ _ _ F). cbv zeta.
  rewrite (is_empty_false _ Vi), (is_empty_false _ Vf), (is_empty_false _ Vl).
  cbv [orb]. fold (creation_request id first middle last dob sex).
  unfold try_catch at 1, fetch, issue, await_response, response_text, JSON_parse_js,
    alert, console_error, bind, emit, ret, throw, log.
  simpl. rewrite N. simpl.
  destruct (has_json_content_type r); simpl; rewrite Bd; simpl;
    [|now rewrite <- !app_assoc].
  destruct (Str.is_empty t); simpl; [now rewrite <- !app_assoc|].
  destruct (Str.is_empty (Str.trim t)); simpl; [now rewrite <- !app_assoc|].
  unfold try_catch at 1. simpl.
  destruct (JSON_parse t) as [data|]; simpl.
  - unfold try_catch. rewrite <- !app_assoc. reflexivity.
  - now rewrite <- !app_assoc.
Qed.

(** X15. createPatient looks at the answer in a fixed order: the content
    type first, then whether the body is blank, and only then the JSON
    parser.  An answer whose content type is missing or not JSON, or whose
    body is blank, is reported with its status and never parsed; the
    content type decides the message when both hold. *)
Theorem X15_createPatient_validates_before_parsing s id first middle last dob sex r t :
  form_fields s id first middle last dob sex ->
  required_filled id first last ->
  net (creation_request id first middle last dob sex) = Arrived r ->
  body r = Some t ->
  has_json_content_type r = false \/ Str.trim t = "" ->
  createPatient net JSON_parse s =
  (Return tt,
   log s (Fetch (creation_request id first middle last dob sex) ::
          if has_json_content_type r
          then [ConsoleError [LStr "Empty response from server"];
                Alert ("Error: Empty response from server. Status: "
                       +:+ Str.of_nat (status r))]
          else [ConsoleError [LStr "Non-JSON response:"; LStr t];
                Alert ("Error: Server returned non-JSON response. Status: "
                       +:+ Str.of_nat (status r))])) /\
  parses_of (events (snd (createPatient net JSON_parse s))) = parses_of (events s).
Proof.
  intros F V N Bd H.
  rewrite (createPatient_answered s id first middle last dob sex r t F V N Bd).
  destruct (has_json_content_type r).
  - destruct H as [H|H]; [discriminate|].
    rewrite H. simpl Str.is_empty. rewrite orb_true_r.
    split; [reflexivity|]. simpl. unfold parses_of. rewrite omap_app. simpl.
    apply app_nil_r.
  - split; [reflexivity|]. simpl. unfold parses_of. rewrite omap_app. simpl.
    apply app_nil_r.
Qed.

(** X16. When the answer to the creation request is a JSON object with a
    status that is not 2xx, createPatient resolves after one alert whose
    text is "Error: " followed by the error field if it is truthy, else by
    the message field if it is truthy, else by a text carrying the status;
    the form keeps what the user typed. *)
Theorem X16_createPatient_reports_server_message s id first middle last dob sex r t m :
  form_fields s id first middle last dob sex ->
  required_filled id first last ->
  net (creation_request id first middle last dob sex) = Arrived r ->
  has_json_content_type r = true ->
  body r = Some t ->
  Str.trim t <> "" ->
  JSON_parse t = Some (JObj m) ->
  ok r = false ->
  createPatient net JSON_parse s =
  (Return tt,
   log s [Fetch (creation_request id first middle last dob sex);
          JsonParse t;
          Alert ("Error: " +:+ toString (errorMsg r m))]).
Proof.
  intros F V N C Bd T P O.
  rewrite (createPatient_answered s id first middle last dob sex r t F V N Bd), C, P.
  assert (Tn : Str.is_empty t = false).
  { apply is_empty_false. intros ->. now apply T. }
  rewrite Tn, (is_empty_false _ T). simpl orb. cbv iota.
  unfold try_catch, createPatient_after_parse, errorMsg, js_or. rewrite O.
  unfold bind, lift, ret, alert, emit, log. simpl.
  destruct (truthy (default JUndef (m !! "error"))); simpl;
    now rewrite <- !app_assoc.
Qed.

End Creation.

(** the witness: the form for Jane Doe is accepted; the request carries
    the trimmed id and the single-spaced name, the first name is emptied *)
Lemma X13_createPatient_success_witness :
  exists t,
    createPatient Fixtures.clinic Fixtures.parse0 Fixtures.page_jane =
    (Return tt,
     mkPage
       (form_emptied (Fixtures.field " 7 ") (Fixtures.field " Jane ") (Fixtures.field "")
          (Fixtures.field "Doe  ") (Fixtures.field "2000-01-01") (Fixtures.field "F")
          (dom Fixtures.page_jane))
       ∅
       [Fetch Fixtures.jane_request; JsonParse t; Alert "Patient created successfully!";
        Fetch (GET "/patients/load")]
       [ResumeLoadPatients (Fixtures.clinic (GET "/patients/load"))]).
Proof.
  apply (X13_createPatient_success_clears_form Fixtures.clinic Fixtures.parse0
           Fixtures.page_jane
           (Fixtures.field " 7 ") (Fixtures.field " Jane ") (Fixtures.field "")
           (Fixtures.field "Doe  ") (Fixtures.field "2000-01-01") (Fixtures.field "F")).
  - repeat split; reflexivity.
  - repeat split; discriminate.
  - reflexivity.
Defined.

(** the witness: no server in reach; one request, one alert *)
Lemma X14_createPatient_failure_witness :
  exists es msg,
    createPatient Fixtures.offline Fixtures.parse0 Fixtures.page_jane
    = (Return tt, log Fixtures.page_jane es) /\
    requests_of es = [Fixtures.jane_request] /\
    alerts_of es = [msg] /\
    List.last es (Alert "") = Alert msg /\
    Str.startsWith "Error: " msg = true.
Proof.
  apply (X14_createPatient_failure_keeps_form Fixtures.offline Fixtures.parse0
           Fixtures.page_jane
           (Fixtures.field " 7 ") (Fixtures.field " Jane ") (Fixtures.field "")
           (Fixtures.field "Doe  ") (Fixtures.field "2000-01-01") (Fixtures.field "F")).
  - repeat split; reflexivity.
  - repeat split; discriminate.
  - reflexivity.
Defined.

(** the witness: a gateway answers 502 with an HTML page *)
Lemma X15_createPatient_html_answer_witness :
  createPatient Fixtures.bad_gateway Fixtures.parse0 Fixtures.page_jane =
  (Return tt,
   log Fixtures.page_jane
     [Fetch Fixtures.jane_request;
      ConsoleError [LStr "Non-JSON response:"; LStr "<html>Bad Gateway</html>"];
      Alert "Error: Server returned non-JSON response. Status: 502"]) /\
  parses_of (events (snd (createPatient Fixtures.bad_gateway Fixtures.parse0
                            Fixtures.page_jane)))
  = [].
Proof.
  apply (X15_createPatient_validates_before_parsing Fixtures.bad_gateway Fixtures.parse0
           Fixtures.page_jane
           (Fixtures.field " 7 ") (Fixtures.field " Jane ") (Fixtures.field "")
           (Fixtures.field "Doe  ") (Fixtures.field "2000-01-01") (Fixtures.field "F")
           (mkResponse 502 (Some "text/html") (Some "<html>Bad Gateway</html>"))
           "<html>Bad Gateway</html>").
  - repeat split; reflexivity.
  - repeat split; discriminate.
  - reflexivity.
  - reflexivity.
  - left. reflexivity.
Defined.

(** the witness: the server answers 409 with [{"error":"boom"}] *)
Lemma X16_createPatient_conflict_witness :
  createPatient (Fixtures.serve (Fixtures.json_response 409 Fixtures.error_text))
    Fixtures.parse0 Fixtures.page_jane =
  (Return tt,
   log Fixtures.page_jane
     [Fetch Fixtures.jane_request; JsonParse Fixtures.error_text; Alert "Error: boom"]).
Proof.
  rewrite (X16_createPatient_reports_server_message
           (Fixtures.serve (Fixtures.json_response 409 Fixtures.error_text))
           Fixtures.parse0 Fixtures.page_jane
           (Fixtures.field " 7 ") (Fixtures.field " Jane ") (Fixtures.field "")
           (Fixtures.field "Doe  ") (Fixtures.field "2000-01-01") (Fixtures.field "F")
           (Fixtures.json_response 409 Fixtures.error_text) Fixtures.error_text
           (list_to_map [("error", JStr "boom")])).
  - reflexivity.
  - repeat split; reflexivity.
  - repeat split; discriminate.
  - reflexivity.
  - reflexivity.
  - reflexivity.
  - discriminate.
  - reflexivity.
  - reflexivity.
Defined.

(** ** The refresh left behind by a creation *)

Section Refresh.

Variable net : request -> fetch_outcome.
Variable JSON_parse : string -> option jsval.

Lemma loadPatients_resume_records s r t list ps :
  dom s !! "patient-list" = Some list ->
  body r = Some t ->
  JSON_parse t = Some (JArr (map json_of_patient ps)) ->
  loadPatients_resume JSON_parse (Arrived r) s =
  (Return tt,
   with_children "patient-list" list (map (fun p => Li (patient_entry p) None) ps)
     (log s [JsonParse t])).
Proof.
  intros H Bd P.
  unfold loadPatients_resume, await_response, response_json, response_text, JSON_parse_js.
  unfold bind at 1, ret. unfold bind at 1. rewrite Bd. unfold bind at 1, ret.
  unfold bind at 1, emit. cbv beta iota. rewrite P. unfold ret.
  unfold bind at 1, getElementById. simpl dom. rewrite H.
  unfold bind at 1. erewrite set_innerHTML_run by (simpl; exact H). simpl forEach.
  erewrite append_patient_lines by (simpl; apply lookup_insert_eq).
  simpl. unfold with_children, log. simpl. now rewrite insert_insert_eq.
Qed.

Lemma loadPatients_resume_unavailable s :
  json_unavailable net JSON_parse (GET "/patients/load") ->
  exists e es,
    loadPatients_resume JSON_parse (net (GET "/patients/load")) s = (Throw e, log s es) /\
    requests_of es = [] /\ alerts_of es = [].
Proof.
  unfold json_unavailable. intros U.
  unfold loadPatients_resume, await_response, response_json, response_text, JSON_parse_js,
    bind, emit, ret, throw, log.
  destruct (net (GET "/patients/load")) as [|r]; simpl.
  - exists (TypeError "Failed to fetch"), []. rewrite app_nil_r. now destruct s.
  - destruct (body r) as [t|]; simpl.
    + rewrite U. do 2 eexists. repeat split; reflexivity.
    + exists (TypeError "network error"), []. rewrite app_nil_r. now destruct s.
Qed.

(** X17. A refresh that fails cannot undo a creation.  With nothing else
    left behind on the page, when the creation is accepted and the JSON of
    the patient listing cannot be had, createPatient run to the end still
    resolves with the six fields emptied; the failure of the detached
    loadPatients surfaces only as an unhandled rejection, after the
    success alert, and the patient list keeps what it showed. *)
Theorem X17_failed_refresh_is_an_unhandled_rejection s id first middle last dob sex :
  pending s = [] ->
  form_fields s id first middle last dob sex ->
  required_filled id first last ->
  creation_accepted JSON_parse (net (creation_request id first middle last dob sex)) = true ->
  json_unavailable net JSON_parse (GET "/patients/load") ->
  exists t e es,
    settle JSON_parse (createPatient net JSON_parse) s =
    (Return tt,
     mkPage (form_emptied id first middle last dob sex (dom s)) (charts s)
       (events s ++
          [Fetch (creation_request id first middle last dob sex);
           JsonParse t;
           Alert "Patient created successfully!";
           Fetch (GET "/patients/load")] ++ es ++ [UnhandledRejection e])
       []) /\
    requests_of es = [] /\ alerts_of es = [].
Proof.
  intros Q F V A U.
  destruct (createPatient_accepted_run net JSON_parse s id first middle last dob sex F V A)
    as [t E].
  unfold settle. rewrite E, Q. simpl.
  unfold bind at 1, try_catch.
  match goal with |- context [loadPatients_resume _ _ ?s2] =>
    destruct (loadPatients_resume_unavailable s2 U) as (e & es & R & Rq & Al)
  end.
  rewrite R. exists t, e, es. split; [|now split].
  unfold emit, ret, log. simpl. now rewrite <- !app_assoc.
Qed.

(** X18. A creation redraws the patient list.  With nothing else left
    behind on the page, when the creation is accepted and the listing
    answers with patient records, createPatient run to the end resolves
    with the six fields emptied and the patient list holding one entry per
    record in the order sent, in place of what it showed. *)
Theorem X18_accepted_creation_redraws_patient_list
    s id first middle last dob sex list r t ps :
  pending s = [] ->
  form_fields s id first middle last dob sex ->
  required_filled id first last ->
  creation_accepted JSON_parse (net (creation_request id first middle last dob sex)) = true ->
  dom s !! "patient-list" = Some list ->
  net (GET "/patients/load") = Arrived r ->
  body r = Some t ->
  JSON_parse t = Some (JArr (map json_of_patient ps)) ->
  exists t0,
    settle JSON_parse (createPatient net JSON_parse) s =
    (Return tt,
     mkPage
       (<["patient-list" :=
            mkElement (map (fun p => Li (patient_entry p) None) ps)
              (value list) (display list) (files list)]>
          (form_emptied id first middle last dob sex (dom s)))
       (charts s)
       (events s ++
          [Fetch (creation_request id first middle last dob sex);
           JsonParse t0;
           Alert "Patient created successfully!";
           Fetch (GET "/patients/load");
           JsonParse t])
       []).
Proof.
  intros Q F V A H N Bd P.
  destruct (createPatient_accepted_run net JSON_parse s id first middle last dob sex F V A)
    as [t0 E].
  unfold settle. rewrite E, Q, N. simpl.
  unfold bind at 1, try_catch.
  erewrite loadPatients_resume_records
    by (try exact Bd; try exact P; simpl; unfold form_emptied;
        rewrite !lookup_insert_ne by done; exact H).
  exists t0. unfold ret, with_children, log. simpl. now rewrite <- !app_assoc.
Qed.

End Refresh.

(** the witness: the creation is accepted, then the server is gone *)
Lemma X17_failed_refresh_witness :
  exists t e es,
    settle Fixtures.parse0 (createPatient Fixtures.clinic_then_down Fixtures.parse0)
      Fixtures.page_jane =
    (Return tt,
     mkPage
       (form_emptied (Fixtures.field " 7 ") (Fixtures.field " Jane ") (Fixtures.field "")
          (Fixtures.field "Doe  ") (Fixtures.field "2000-01-01") (Fixtures.field "F")
          (dom Fixtures.page_jane))
       ∅
       ([Fetch Fixtures.jane_request; JsonParse t; Alert "Patient created successfully!";
         Fetch (GET "/patients/load")] ++ es ++ [UnhandledRejection e])
       []) /\
    requests_of es = [] /\ alerts_of es = [].
Proof.
  refine (X17_failed_refresh_is_an_unhandled_rejection Fixtures.clinic_then_down
           Fixtures.parse0 Fixtures.page_jane
           (Fixtures.field " 7 ") (Fixtures.field " Jane ") (Fixtures.field "")
           (Fixtures.field "Doe  ") (Fixtures.field "2000-01-01") (Fixtures.field "F")
           _ _ _ _ _).
  - reflexivity.
  - repeat split; reflexivity.
  - repeat split; discriminate.
  - reflexivity.
  - exact I.
Defined.

(** the witness: the creation is accepted and the listing holds Jane Doe *)
Lemma X18_accepted_creation_witness :
  exists t0,
    children <$>
      dom (snd (settle Fixtures.parse0 (createPatient Fixtures.clinic Fixtures.parse0)
                  Fixtures.page_jane)) !! "patient-list"
    = Some [Li "Jane Doe (ID: 1, DOB: 2000-01-01, Sex: F)" None] /\
    parses_of (events (snd (settle Fixtures.parse0
                              (createPatient Fixtures.clinic Fixtures.parse0)
                              Fixtures.page_jane)))
    = [t0; Fixtures.jane_text].
Proof.
  destruct (X18_accepted_creation_redraws_patient_list Fixtures.clinic Fixtures.parse0
              Fixtures.page_jane
              (Fixtures.field " 7 ") (Fixtures.field " Jane ") (Fixtures.field "")
              (Fixtures.field "Doe  ") (Fixtures.field "2000-01-01") (Fixtures.field "F")
              (Fixtures.list_of ["Old Entry (ID: 0, DOB: , Sex: )"])
              (mkResponse 200 (Some "application/json") (Some Fixtures.jane_text))
              Fixtures.jane_text [Fixtures.jane]
              eq_refl
              ltac:(repeat split; reflexivity)
              ltac:(repeat split; discriminate)
              eq_refl eq_refl eq_refl eq_refl eq_refl) as [t0 E].
  exists t0. rewrite E. split; reflexivity.
Defined.

(** ** Names made of clean parts *)

Module NameFacts.
Import Str.

Lemma append_cons c s t : String c s +:+ t = String c (s +:+ t).
Proof. reflexivity. Qed.

Lemma append_empty_l t : "" +:+ t = t.
Proof. reflexivity. Qed.

Lemma append_empty_r s : s +:+ "" = s.
Proof.
  induction s as [|c s IH]; [reflexivity|]. rewrite append_cons. now rewrite IH.
Qed.

Lemma append_nonempty a w : w <> "" -> a +:+ w <> "".
Proof.
  destruct a; [now rewrite append_empty_l|]. rewrite append_cons. discriminate.
Qed.

Lemma replace_clean_prefix w : forall b rest,
  no_ws w = true ->
  replace_ws_runs b (w +:+ rest)
  = w +:+ replace_ws_runs (if is_empty w then b else false) rest.
Proof.
  induction w as [|c w IH]; intros b rest H; [reflexivity|].
  simpl in H. apply andb_true_iff in H as [C W]. apply negb_true_iff in C.
  rewrite !append_cons. simpl. rewrite C, IH by exact W. now destruct (is_empty w).
Qed.

Lemma trimEnd_fixed s : ends_clean s = true -> trimEnd s = s.
Proof.
  induction s as [|c s IH]; [reflexivity|].
  destruct s as [|d s].
  - simpl. intros H. apply negb_true_iff in H. now rewrite H.
  - intros H. change (ends_clean (String c (String d s))) with (ends_clean (String d s)) in H.
    change (trimEnd (String c (String d s))) with
      (match trimEnd (String d s) with
       | EmptyString => if is_ws c then EmptyString else String c EmptyString
       | t => String c t
       end).
    now rewrite IH.
Qed.

Lemma ends_clean_app a w : w <> "" -> ends_clean w = true -> ends_clean (a +:+ w) = true.
Proof.
  intros N H. induction a as [|c a IH]; [exact H|].
  rewrite append_cons. simpl.
  destruct (a +:+ w) eqn:E; [now apply append_nonempty in E|exact IH].
Qed.

Lemma no_ws_ends_clean w : no_ws w = true -> ends_clean w = true.
Proof.
  induction w as [|c w IH]; [reflexivity|].
  simpl. intros H. apply andb_true_iff in H as [C W].
  destruct w; [exact C|now apply IH].
Qed.

Lemma no_ws_starts_clean w rest : w <> "" -> no_ws w = true -> starts_clean (w +:+ rest) = true.
Proof.
  destruct w as [|c w]; [congruence|]. rewrite append_cons. simpl. intros _ H.
  now apply andb_true_iff in H as [C _].
Qed.

Lemma trim_fixed s : starts_clean s = true -> ends_clean s = true -> trim s = s.
Proof.
  intros S E. unfold trim. rewrite (StrFacts.trimStart_fixed s S). now apply trimEnd_fixed.
Qed.

End NameFacts.

(** X19. For name parts without white space, the first and the last not
    empty, the full name is the parts joined by one space each: first,
    middle and last when there is a middle name, first and last with a
    single space between them when there is none. *)
Theorem X19_patientName_joins_clean_parts first middle last :
  no_ws first = true -> no_ws middle = true -> no_ws last = true ->
  first <> "" -> last <> "" ->
  patientName first middle last =
  if Str.is_empty middle
  then first +:+ " " +:+ last
  else first +:+ " " +:+ middle +:+ " " +:+ last.
Proof.
  intros Wf Wm Wl Nf Nl. unfold patientName, Str.collapse_ws.
  assert (Rl : Str.replace_ws_runs true last = last).
  { rewrite <- (NameFacts.append_empty_r last) at 1.
    rewrite (NameFacts.replace_clean_prefix last true "") by exact Wl.
    simpl. apply NameFacts.append_empty_r. }
  assert (Cl : ends_clean (" " +:+ last) = true).
  { apply NameFacts.ends_clean_app; [exact Nl|now apply NameFacts.no_ws_ends_clean]. }
  rewrite NameFacts.replace_clean_prefix by exact Wf.
  rewrite (is_empty_false _ Nf).
  destruct middle as [|c middle].
  - rewrite NameFacts.append_empty_l.
    change (Str.replace_ws_runs false (" " +:+ " " +:+ last))
      with (String " " (Str.replace_ws_runs true last)).
    rewrite Rl. simpl Str.is_empty. cbv iota.
    change (String " " last) with (" " +:+ last).
    apply NameFacts.trim_fixed.
    + now apply NameFacts.no_ws_starts_clean.
    + apply NameFacts.ends_clean_app; [discriminate|exact Cl].
  - set (mid := String c middle) in *.
    change (Str.replace_ws_runs false (" " +:+ mid +:+ " " +:+ last))
      with (String " " (Str.replace_ws_runs true (mid +:+ " " +:+ last))).
    rewrite (NameFacts.replace_clean_prefix mid) by exact Wm.
    change (Str.is_empty mid) with false. cbv iota.
    change (Str.replace_ws_runs false (" " +:+ last))
      with (String " " (Str.replace_ws_runs true last)).
    rewrite Rl.
    change (String " " (mid +:+ String " " last)) with (" " +:+ mid +:+ " " +:+ last).
    apply NameFacts.trim_fixed.
    + now apply NameFacts.no_ws_starts_clean.
    + apply NameFacts.ends_clean_app; [discriminate|].
      apply NameFacts.ends_clean_app; [now apply NameFacts.append_nonempty|].
      apply NameFacts.ends_clean_app; [discriminate|exact Cl].
Qed.

(** the witness: Mary Kate Smith *)
Lemma X19_patientName_witness :
  patientName "Mary" "Kate" "Smith" = "Mary Kate Smith".
Proof.
  exact (X19_patientName_joins_clean_parts "Mary" "Kate" "Smith"
           eq_refl eq_refl eq_refl ltac:(discriminate) ltac:(discriminate)).
Defined.

(** ** Each entry point keeps to its own region *)

Section Confined.

Context (ids panels : list string).

Lemma confined_pure {A} (m : js A) :
  (forall s, dom (snd (m s)) = dom s /\ charts (snd (m s)) = charts s) ->
  confined ids panels m.
Proof. intros H s. destruct (H s) as [-> ->]. now split. Qed.

Lemma confined_ret {A} (a : A) : confined ids panels (ret a).
Proof. now apply confined_pure. Qed.

Lemma confined_throw {A} e : confined ids panels (@throw A e).
Proof. now apply confined_pure. Qed.

Lemma confined_lift {A} (o : outcome A) : confined ids panels (lift o).
Proof. now apply confined_pure. Qed.

Lemma confined_emit e : confined ids panels (emit e).
Proof. now apply confined_pure. Qed.

Lemma confined_defer t : confined ids panels (defer t).
Proof. now apply confined_pure. Qed.

Lemma confined_alert msg : confined ids panels (alert msg).
Proof. apply confined_emit. Qed.

Lemma confined_console_log args : confined ids panels (console_log args).
Proof. apply confined_emit. Qed.

Lemma confined_console_error args : confined ids panels (console_error args).
Proof. apply confined_emit. Qed.

Lemma confined_read_elem {A} prop (f : element -> A) r :
  confined ids panels (read_elem prop f r).
Proof.
  apply confined_pure. intros s. unfold read_elem, null_deref, throw.
  destruct r as [k|]; [|now split]. now destruct (dom s !! k).
Qed.

Lemma confined_update_none prop f : confined ids panels (update_elem prop f None).
Proof. now apply confined_pure. Qed.

Lemma confined_update_some prop f id :
  In id ids -> confined ids panels (update_elem prop f (Some id)).
Proof.
  intros I s. unfold update_elem, null_assign, throw.
  destruct (dom s !! id) as [el|]; [|now split]. simpl. split; [|reflexivity].
  intros k N. apply lookup_insert_ne. intros ->. now apply N.
Qed.

Lemma confined_newPlot p data layout :
  In p panels -> confined ids panels (newPlot p data layout).
Proof.
  intros I s. simpl. split; [reflexivity|].
  intros k N. apply lookup_insert_ne. intros ->. now apply N.
Qed.

Lemma confined_bind {A B} (m : js A) (k : A -> js B) :
  confined ids panels m -> (forall a, confined ids panels (k a)) ->
  confined ids panels (bind m k).
Proof.
  intros Hm Hk s. unfold bind. destruct (Hm s) as [D C].
  destruct (m s) as [[a|e] s1]; simpl in D, C; [|now split].
  destruct (Hk a s1) as [D1 C1]. split.
  - intros id N. now rewrite D1, D.
  - intros p N. now rewrite C1, C.
Qed.

Lemma confined_try_catch {A} (m : js A) (h : exn -> js A) :
  confined ids panels m -> (forall e, confined ids panels (h e)) ->
  confined ids panels (try_catch m h).
Proof.
  intros Hm Hh s. unfold try_catch. destruct (Hm s) as [D C].
  destruct (m s) as [[a|e] s1]; simpl in D, C; [now split|].
  destruct (Hh e s1) as [D1 C1]. split.
  - intros id N. now rewrite D1, D.
  - intros p N. now rewrite C1, C.
Qed.

(** [getElementById] hands out the id it was asked for, or null *)
Lemma confined_getElementById {B} i (k : option string -> js B) :
  confined ids panels (k None) -> confined ids panels (k (Some i)) ->
  confined ids panels (bind (getElementById i) k).
Proof.
  intros Hn Hs s. unfold bind, getElementById.
  destruct (dom s !! i); [apply Hs|apply Hn].
Qed.

Lemma confined_for_each l (f : jsval -> js unit) :
  (forall x, confined ids panels (f x)) -> confined ids panels (for_each l f).
Proof.
  intros Hf. induction l as [|x l IH]; simpl.
  - apply confined_ret.
  - apply confined_bind; [apply Hf|intros _; exact IH].
Qed.

Lemma confined_forEach v (f : jsval -> js unit) :
  (forall x, confined ids panels (f x)) -> confined ids panels (forEach v f).
Proof.
  intros Hf. destruct v; simpl; try apply confined_throw. now apply confined_for_each.
Qed.

End Confined.

Create HintDb confined.

#[local] Hint Resolve confined_ret confined_throw confined_lift confined_emit confined_defer
  confined_read_elem confined_update_none confined_alert confined_console_log
  confined_console_error : confined.

Ltac confined_step :=
  match goal with
  | |- confined _ _ (bind (getElementById _) _) => apply confined_getElementById
  | |- confined _ _ (bind _ _) => apply confined_bind; [|intro]
  | |- confined _ _ (try_catch _ _) => apply confined_try_catch; [|intro]
  | |- confined _ _ (forEach _ _) => apply confined_forEach; intro
  | |- confined _ _ (update_elem _ _ (Some _)) =>
      apply confined_update_some; simpl; tauto
  | |- confined _ _ (newPlot _ _ _) => apply confined_newPlot; simpl; tauto
  | |- confined _ _ (if ?c then _ else _) => destruct c
  | |- confined _ _ (match ?x with _ => _ end) => destruct x
  | |- confined _ _ _ => solve [auto with confined]
  end.

Ltac confined_tac := repeat confined_step.

Lemma confined_loadPatients_resume parse p :
  confined ["patient-list"] [] (loadPatients_resume parse p).
Proof.
  unfold loadPatients_resume, await_response, response_json, response_text,
    JSON_parse_js, set_innerHTML, appendChild.
  confined_tac.
Qed.

(** X20. Every entry point keeps to its own region of the page: the dose
    pipeline writes to no element and draws only in its three panels; the
    upload and the dataset selection write only to the ROI list,
    loadDatasets only to the dataset list, listDatasets only to the
    dropdown, createPatient only to the six fields of its form, and
    loadPatients (called or resumed after a creation) only to the patient
    list; none of these draws in any panel.  This holds whatever the
    server answers and however the run ends. *)
Theorem X20_entry_points_keep_to_their_region net parse e s :
  (forall id, ~ In id (elements_of e) ->
     dom (snd (run_entry net parse e s)) !! id = dom s !! id) /\
  (forall p, ~ In p (panels_of e) ->
     charts (snd (run_entry net parse e s)) !! p = charts s !! p) /\
  (forall ts id, id <> "patient-list" ->
     dom (snd (run_tasks parse ts s)) !! id = dom s !! id) /\
  (forall ts, charts (snd (run_tasks parse ts s)) = charts s).
Proof.
  assert (E : confined (elements_of e) (panels_of e) (run_entry net parse e)).
  { destruct e; simpl.
    - unfold fetchDoseData, fetch, issue, await_response, response_json, response_text,
        JSON_parse_js, console_log, console_error, renderDoseViews.
      confined_tac.
    - unfold uploadDicomFolder, renderNameList, get_files, fetch, issue, await_response,
        response_json, response_text, JSON_parse_js, set_innerHTML, appendChild.
      confined_tac.
    - unfold loadDatasets, fetch, issue, await_response, response_json, response_text,
        JSON_parse_js, console_error, set_innerHTML, appendChild.
      confined_tac.
    - unfold listDatasets, fetch, issue, await_response, response_json, response_text,
        JSON_parse_js, console_error, set_innerHTML, appendChild.
      confined_tac.
    - unfold loadSelectedDataset, renderNameList, get_value, alert, fetch, issue,
        await_response, response_json, response_text, JSON_parse_js, set_innerHTML,
        appendChild.
      confined_tac.
    - unfold createPatient, trimmed_value, raw_value, get_value, alert, console_error,
        createPatient_after_parse, loadPatients_detached, clear_value, set_value,
        fetch, issue, await_response, response_text, JSON_parse_js.
      confined_tac.
    - unfold loadPatients, issue. apply confined_bind; [confined_tac|intro].
      apply confined_loadPatients_resume. }
  assert (T : forall ts, confined ["patient-list"] [] (run_tasks parse ts)).
  { induction ts as [|t ts IH]; simpl; [apply confined_ret|].
    apply confined_bind; [|intros _; exact IH].
    destruct t. simpl. apply confined_try_catch; [apply confined_loadPatients_resume|].
    intro. apply confined_emit. }
  destruct (E s) as [D C]. split; [exact D|]. split; [exact C|]. split.
  - intros ts id N. apply (T ts s). simpl. intros [Q|[]]. now apply N.
  - intros ts. apply map_eq. intros p. apply (T ts s). simpl. tauto.
Qed.

(** the witness: a refused listing changes the patient list at most; the
    ROI list and the selected dataset are as before *)
Lemma X20_loadPatients_region_witness :
  let run := loadPatients (Fixtures.serve (Fixtures.json_response 500 Fixtures.error_text))
               Fixtures.parse0 Fixtures.page_selected in
  dom (snd run) !! "roi-list" = Some (Fixtures.list_of ["PTV"; "Bladder"]) /\
  dom (snd run) !! "datasetDropdown" = Some (Fixtures.field "P001").
Proof.
  intros run. subst run.
  destruct (X20_entry_points_keep_to_their_region
              (Fixtures.serve (Fixtures.json_response 500 Fixtures.error_text))
              Fixtures.parse0 ELoadPatients Fixtures.page_selected) as (D & _).
  split.
  - etransitivity; [|reflexivity].
    apply (D "roi-list"). simpl. intros [Q|[]]. discriminate Q.
  - etransitivity; [|reflexivity].
    apply (D "datasetDropdown"). simpl. intros [Q|[]]. discriminate Q.
Defined.

(** ** Dose payloads that cannot be drawn *)

(** X21. When the dose pipeline stops before drawing (no answer, a status
    that is not 2xx, an unreadable body, a text that is not JSON, or the
    payload null), fetchDoseData resolves with the three panels, every
    element and the detached work as they were: only events were added,
    none of them an alert. *)
Theorem X21_fetchDoseData_early_failure_keeps_panels net parse s :
  match net (GET "/plotly/compute_dose") with
  | NetFail => True
  | Arrived r =>
      ok r = false \/
      match body r with
      | None => True
      | Some t => parse t = None \/ parse t = Some JNull
      end
  end ->
  exists es,
    fetchDoseData net parse s = (Return tt, log s es) /\
    alerts_of es = [] /\
    exists e, List.last es (Alert "") = ConsoleError [LStr "Error fetching dose data:"; LExn e].
Proof.
  intros H.
  unfold fetchDoseData, fetch, issue, response_json, response_text, JSON_parse_js,
    console_log, console_error, try_catch, bind, emit, ret, await_response, throw, lift, log.
  simpl. destruct (net (GET "/plotly/compute_dose")) as [|r]; simpl.
  - eexists. rewrite <- !app_assoc. split; [reflexivity|]. split; [reflexivity|].
    eexists. reflexivity.
  - destruct (ok r); simpl.
    + destruct H as [H|H]; [discriminate|].
      destruct (body r) as [t|]; simpl.
      * destruct H as [-> | ->]; simpl;
          eexists; rewrite <- !app_assoc; (split; [reflexivity|]); (split; [reflexivity|]);
          eexists; reflexivity.
      * eexists. rewrite <- !app_assoc. split; [reflexivity|]. split; [reflexivity|].
        eexists. reflexivity.
    + eexists. rewrite <- !app_assoc. split; [reflexivity|]. split; [reflexivity|].
      eexists. reflexivity.
Qed.

(** the witness: the dose endpoint answers 500 *)
Lemma X21_fetchDoseData_refused_witness :
  exists es,
    fetchDoseData (Fixtures.serve (Fixtures.json_response 500 Fixtures.error_text))
      Fixtures.parse0 Fixtures.page0 = (Return tt, log Fixtures.page0 es) /\
    alerts_of es = [] /\
    exists e, List.last es (Alert "") = ConsoleError [LStr "Error fetching dose data:"; LExn e].
Proof.
  apply (X21_fetchDoseData_early_failure_keeps_panels
           (Fixtures.serve (Fixtures.json_response 500 Fixtures.error_text))
           Fixtures.parse0 Fixtures.page0).
  left. reflexivity.
Defined.

(** X22. When the dose endpoint answers 2xx with an object that has no dvh
    field, fetchDoseData resolves after drawing the first panel only: the
    CT panel is redrawn from the payload, the histogram and the overlay
    keep what they showed, and the TypeError raised on dvh.dose_values is
    logged. *)
Theorem X22_fetchDoseData_without_dvh_draws_first_panel_only net parse s r t m :
  net (GET "/plotly/compute_dose") = Arrived r ->
  ok r = true ->
  body r = Some t ->
  parse t = Some (JObj m) ->
  m !! "dvh" = None ->
  let b := mkBundle (default JUndef (m !! "ct_slice")) (default JUndef (m !! "mask_slice"))
             (default JUndef (m !! "dose_slice")) JUndef in
  let run := fetchDoseData net parse s in
  fst run = Return tt /\
  charts (snd run)
  = <["plotly-ct-dose" := ([heatmap b; maskContour b; doseMap b], layout1)]> (charts s) /\
  charts (snd run) !! "plotly-dvh" = charts s !! "plotly-dvh" /\
  charts (snd run) !! "plotly-ct-overlay" = charts s !! "plotly-ct-overlay" /\
  List.last (events (snd run)) (Alert "")
  = ConsoleError
      [LStr "Error fetching dose data:";
       LExn (TypeError "Cannot read properties of undefined (reading 'dose_values')")].
Proof.
  intros N O Bd P D b run. subst run.
  rewrite (fetchDoseData_without_dvh net parse s r t m N O Bd P D). simpl.
  split; [reflexivity|]. split; [reflexivity|].
  split; [now rewrite lookup_insert_ne by done|].
  split; [now rewrite lookup_insert_ne by done|].
  match goal with
  | |- List.last (?l ++ [?a; ?b; ?c; ?d; ?e]) _ = _ =>
      change (l ++ [a; b; c; d; e]) with (l ++ ([a; b; c; d] ++ [e]));
      rewrite app_assoc, last_last
  end.
  reflexivity.
Qed.

(** the witness: the payload with three slices and no dvh, on a page
    without charts *)
Lemma X22_fetchDoseData_without_dvh_witness :
  let run := fetchDoseData (Fixtures.serve (Fixtures.json_response 200 Fixtures.no_dvh_text))
               Fixtures.parse0 Fixtures.page0 in
  size (charts (snd run)) = 1 /\ charts (snd run) !! "plotly-dvh" = None.
Proof.
  intros run. subst run.
  destruct (X22_fetchDoseData_without_dvh_draws_first_panel_only
              (Fixtures.serve (Fixtures.json_response 200 Fixtures.no_dvh_text))
              Fixtures.parse0 Fixtures.page0
              (Fixtures.json_response 200 Fixtures.no_dvh_text) Fixtures.no_dvh_text
              (list_to_map [("ct_slice", Fixtures.grid); ("mask_slice", Fixtures.grid);
                            ("dose_slice", Fixtures.grid)])
              eq_refl eq_refl eq_refl eq_refl eq_refl) as (_ & C & H & _).
  split.
  - rewrite C. reflexivity.
  - rewrite H. reflexivity.
Defined.

(** ** Which validation error is shown *)

(** X23. createPatient checks the id before the names and never the
    optional fields: a blank id gives the alert "Error: Patient ID is
    required." whatever the names hold, and with an id a blank first or
    last name gives "Error: First name and last name are required.".  In
    both cases it resolves with that alert as the single new event. *)
Theorem X23_createPatient_validation_messages net parse s id first middle last dob sex :
  form_fields s id first middle last dob sex ->
  (Str.trim (value id) = "" ->
   createPatient net parse s
   = (Return tt, log s [Alert "Error: Patient ID is required."])) /\
  (Str.trim (value id) <> "" ->
   Str.trim (value first) = "" \/ Str.trim (value last) = "" ->
   createPatient net parse s
   = (Return tt, log s [Alert "Error: First name and last name are required."])).
Proof.
  intros F. rewrite (createPatient_reads net parse _ _ _ _ _ _ _ F). cbv zeta. split.
  - intros ->. reflexivity.
  - intros Vi B. rewrite (is_empty_false _ Vi).
    assert (E : Str.is_empty (Str.trim (value first))
                || Str.is_empty (Str.trim (value last)) = true).
    { destruct B as [B|B]; rewrite B; [reflexivity|apply orb_true_r]. }
    rewrite E. reflexivity.
Qed.

(** the witness: everything blank asks for the id; an id alone asks for
    the names *)
Lemma X23_createPatient_validation_witness :
  createPatient Fixtures.offline Fixtures.parse0 Fixtures.page0
  = (Return tt, log Fixtures.page0 [Alert "Error: Patient ID is required."]) /\
  createPatient Fixtures.offline Fixtures.parse0 (Fixtures.page_with "7" " " "" "Doe")
  = (Return tt,
     log (Fixtures.page_with "7" " " "" "Doe")
       [Alert "Error: First name and last name are required."]).
Proof.
  split.
  - apply (proj1 (X23_createPatient_validation_messages Fixtures.offline Fixtures.parse0
                    Fixtures.page0
                    (Fixtures.field "") (Fixtures.field "") (Fixtures.field "")
                    (Fixtures.field "") (Fixtures.field "2000-01-01") (Fixtures.field "F")
                    ltac:(repeat split; reflexivity))).
    reflexivity.
  - apply (proj2 (X23_createPatient_validation_messages Fixtures.offline Fixtures.parse0
                    (Fixtures.page_with "7" " " "" "Doe")
                    (Fixtures.field "7") (Fixtures.field " ") (Fixtures.field "")
                    (Fixtures.field "Doe") (Fixtures.field "2000-01-01") (Fixtures.field "F")
                    ltac:(repeat split; reflexivity))).
    + discriminate.
    + left. reflexivity.
Defined.

(** ** Names that are not a list *)

(** X24. When the answer to the upload is an object whose roi_names field
    is truthy but not an array (a text, a number, an object),
    uploadDicomFolder empties the ROI list and rejects with a TypeError:
    neither the names nor an error item are shown. *)
Theorem X24_uploadDicomFolder_rejects_names_that_are_not_a_list
    net parse s r t m input ul names :
  dom s !! "dicom-folder" = Some input ->
  dom s !! "roi-list" = Some ul ->
  net (uploadDicomFolder_request (files input)) = Arrived r ->
  body r = Some t ->
  parse t = Some (JObj m) ->
  m !! "roi_names" = Some names ->
  truthy names = true ->
  is_array names = false ->
  exists msg,
    uploadDicomFolder net parse s =
    (Throw (TypeError msg),
     with_children "roi-list" ul []
       (log s [Fetch (uploadDicomFolder_request (files input)); JsonParse t])).
Proof.
  intros Hi Hu N Bd P D T A.
  rewrite (uploadDicomFolder_reads net parse s input Hi).
  rewrite fetch_json_run, N, Bd, P.
  rewrite (renderNameList_run _ _ ul) by exact Hu.
  simpl get_prop. rewrite D. simpl. rewrite T.
  destruct names; try discriminate T; try discriminate A; eexists; reflexivity.
Qed.

(** the witness: the server sends the names as one text,
    [{"roi_names":"PTV,Heart"}] *)
Lemma X24_uploadDicomFolder_text_names_witness :
  let parse := Fixtures.parse_table
                 [(Fixtures.text_names_text, obj [("roi_names", JStr "PTV,Heart")])] in
  exists msg,
    uploadDicomFolder
      (Fixtures.serve (Fixtures.json_response 200 Fixtures.text_names_text))
      parse Fixtures.page0
    = (Throw (TypeError msg),
       with_children "roi-list" (Fixtures.list_of ["PTV"; "Bladder"]) []
         (log Fixtures.page0
            [Fetch (uploadDicomFolder_request ["CT.1.dcm"; "RS.1.dcm"]);
             JsonParse Fixtures.text_names_text])).
Proof.
  intros parse.
  exact (X24_uploadDicomFolder_rejects_names_that_are_not_a_list
           (Fixtures.serve (Fixtures.json_response 200 Fixtures.text_names_text))
           parse Fixtures.page0
           (Fixtures.json_response 200 Fixtures.text_names_text) Fixtures.text_names_text
           (list_to_map [("roi_names", JStr "PTV,Heart")])
           (mkElement [] "" "" ["CT.1.dcm"; "RS.1.dcm"])
           (Fixtures.list_of ["PTV"; "Bladder"]) (JStr "PTV,Heart")
           eq_refl eq_refl eq_refl eq_refl eq_refl eq_refl eq_refl eq_refl).
Defined.
